(** * OCR-robust machine translation: the pipeline scripts, embedded and verified

    The repository holds four scripts:
    - [ocr_page.py]: OCR of page images through a hosted model,
    - [translate_json.py]: German to English translation of the OCR output,
    - [translate_json_urdu.py]: English to Urdu translation,
    - [LLM evaluation/main.py]: translation through a locally hosted model.

    Each script is embedded below in a module of its own.  Text is a
    [string] whose characters are code points below 256; Python's [str.strip],
    [\s], [\W] and case folding are written out for that range.  Time is a
    rational number of seconds; where a script computes with a number it
    has read from a message of the service, the arithmetic is that of
    Python's floats, rounded as IEEE binary64 rounds.  JSON numbers are
    integers.  The directories named in the paths exist, or can be created
    where a script creates them; only [os.makedirs('')] fails. *)

From Stdlib Require Import String Ascii List ZArith QArith Qminmax Qround Qpower Lia Lqa
  DecimalString.
From stdpp Require Import gmap strings sorting.
Import ListNotations.

Local Open Scope string_scope.
Local Open Scope list_scope.

(** ** Python strings *)

Module PyStr.

Definition code (c : ascii) : N := N_of_ascii c.

Definition between (lo hi : N) (c : ascii) : bool :=
  ((lo <=? code c) && (code c <=? hi))%N.

(** [str.isspace] on one character (also what [\s] matches). *)
Definition is_space (c : ascii) : bool :=
  between 9 13 c || between 28 32 c || (code c =? 133)%N || (code c =? 160)%N.

Definition is_digit (c : ascii) : bool := between 48 57 c.

Definition is_upper (c : ascii) : bool := between 65 90 c.

Definition is_lower (c : ascii) : bool := between 97 122 c.

(** Case folding of the letters A-Z; no other character below 256 folds to
    an ASCII letter. *)
Definition lower (c : ascii) : ascii :=
  if is_upper c then ascii_of_N (code c + 32) else c.

(** What [\w] matches below 256: letters, digits and the underscore of ASCII
    and the alphanumeric characters of Latin-1. *)
Definition is_word (c : ascii) : bool :=
  is_digit c || is_upper c || is_lower c || (code c =? 95)%N
  || (code c =? 170)%N || (code c =? 178)%N || (code c =? 179)%N
  || (code c =? 181)%N || (code c =? 185)%N || (code c =? 186)%N
  || between 188 190 c
  || (between 192 255 c && negb (code c =? 215)%N && negb (code c =? 247)%N).

Fixpoint lstrip (s : string) : string :=
  match s with
  | EmptyString => EmptyString
  | String c s' => if is_space c then lstrip s' else s
  end.

Fixpoint rstrip (s : string) : string :=
  match s with
  | EmptyString => EmptyString
  | String c s' =>
      match rstrip s' with
      | EmptyString => if is_space c then EmptyString else String c EmptyString
      | r => String c r
      end
  end.

(** [s.strip()] *)
Definition strip (s : string) : string := rstrip (lstrip s).

(** Truth value of a string: [if s:]. *)
Definition truthy (s : string) : bool :=
  match s with EmptyString => false | _ => true end.

(** [str(n)] for an integer. *)
Definition str_of_Z (n : Z) : string := NilZero.string_of_int (Z.to_int n).

(** The line feed. *)
Definition nl : string := String (ascii_of_nat 10) EmptyString.

Fixpoint drop (n : nat) (s : string) : string :=
  match n, s with
  | S n', String _ s' => drop n' s'
  | _, _ => s
  end.

(** [s.endswith(suffix)] *)
Definition endswith (s suffix : string) : bool :=
  (String.length suffix <=? String.length s)%nat
  && String.eqb (drop (String.length s - String.length suffix) s) suffix.

(** [s.replace(old, new)] for a non-empty [old]: every occurrence, left to
    right and without overlap.  [skip] counts the characters of the current
    occurrence still to be dropped. *)
Fixpoint replace_from (old new s : string) (skip : nat) : string :=
  match s with
  | EmptyString => EmptyString
  | String c s' =>
      match skip with
      | S n => replace_from old new s' n
      | O =>
          if String.prefix old s then new ++ replace_from old new s' (String.length old - 1)
          else String c (replace_from old new s' 0)
      end
  end.

Definition replace (s old new : string) : string := replace_from old new s 0.

(** [sorted] on strings, by insertion. *)
Fixpoint insert_sorted (k : string) (l : list string) : list string :=
  match l with
  | [] => [k]
  | x :: rest => if String.leb k x then k :: l else x :: insert_sorted k rest
  end.

Definition sorted (l : list string) : list string := fold_right insert_sorted [] l.

(** [os.path.join(a, b)] *)
Definition path_join (a b : string) : string :=
  if String.prefix "/" b then b
  else if negb (truthy a) || endswith a "/" then a ++ b
  else a ++ "/" ++ b.

(** [c.lower()] for a character below 256: the letters A-Z and the capital
    letters of Latin-1. *)
Definition lower_char (c : ascii) : ascii :=
  if is_upper c || (between 192 222 c && negb (code c =? 215)%N)
  then ascii_of_N (code c + 32) else c.

(** [s.lower()] *)
Fixpoint lower_str (s : string) : string :=
  match s with
  | EmptyString => EmptyString
  | String c s' => String (lower_char c) (lower_str s')
  end.

(** The text before the last dot of [s], if [s] has a dot. *)
Fixpoint before_last_dot (s : string) : option string :=
  match s with
  | EmptyString => None
  | String c s' =>
      match before_last_dot s' with
      | Some r => Some (String c r)
      | None => if Ascii.eqb c "." then Some EmptyString else None
      end
  end.

Fixpoint all_dots (s : string) : bool :=
  match s with
  | EmptyString => true
  | String c s' => Ascii.eqb c "." && all_dots s'
  end.

(** [os.path.splitext(name)[0]] for a file name (no separator in it): the
    name up to its last dot, unless only dots come before that dot. *)
Definition splitext_root (name : string) : string :=
  match before_last_dot name with
  | Some r => if all_dots r then name else r
  | None => name
  end.

(** [p[:p.rfind('/') + 1]]: the text up to the last slash of [p], the slash
    included. *)
Fixpoint up_to_last_slash (p : string) : string :=
  match p with
  | EmptyString => EmptyString
  | String c p' =>
      match up_to_last_slash p' with
      | EmptyString => if Ascii.eqb c "/" then String c EmptyString else EmptyString
      | r => String c r
      end
  end.

Fixpoint all_slashes (s : string) : bool :=
  match s with
  | EmptyString => true
  | String c s' => Ascii.eqb c "/" && all_slashes s'
  end.

(** [s.rstrip('/')] *)
Fixpoint rstrip_slashes (s : string) : string :=
  match s with
  | EmptyString => EmptyString
  | String c s' =>
      match rstrip_slashes s' with
      | EmptyString => if Ascii.eqb c "/" then EmptyString else String c EmptyString
      | r => String c r
      end
  end.

(** [os.path.dirname(p)] *)
Definition dirname (p : string) : string :=
  let head := up_to_last_slash p in
  if all_slashes head then head else rstrip_slashes head.

End PyStr.

(** ** Python floats

    A float is an IEEE binary64 number.  A finite one stands here for the
    rational it is, and [inf] for [2^1024], the first power of two above
    every finite float; the scripts never compute with [nan].  [round q] is
    the float nearest to [q], ties going to the even significand: what
    [float] makes of a decimal numeral and what an arithmetic operation
    makes of its exact result. *)

Module PyFloat.

Definition two (e : Z) : Q := Qpower 2 e.

(** The integer nearest to [x], ties to the even one. *)
Definition round_half_even (x : Q) : Z :=
  let f := Qfloor x in
  match ((x - inject_Z f) ?= (1 # 2))%Q with
  | Lt => f
  | Gt => (f + 1)%Z
  | Eq => if Z.even f then f else (f + 1)%Z
  end.

(** The [l] with [2^l <= q < 2^(l+1)], for [0 < q]. *)
Definition log2_floor (q : Q) : Z :=
  let l := (Z.log2 (Qnum q) - Z.log2 (Zpos (Qden q)))%Z in
  if Qle_bool (two l) q then l else (l - 1)%Z.

Definition inf : Q := two 1024.

(** 53 bits of significand; the exponent of the last of them is at least
    -1074. *)
Definition round_pos (q : Q) : Q :=
  let e := Z.max (log2_floor q - 52) (-1074) in
  let r := Qred (inject_Z (round_half_even (q / two e)) * two e)%Q in
  if Qle_bool inf r then inf else r.

Definition round (q : Q) : Q :=
  match (q ?= 0)%Q with
  | Eq => 0%Q
  | Gt => round_pos q
  | Lt => (- round_pos (- q))%Q
  end.

(** [x + y] and [x * y] on floats. *)
Definition add (x y : Q) : Q := round (x + y).

Definition mul (x y : Q) : Q := round (x * y).

End PyFloat.

(** ** Regular expressions, as far as the scripts use them

    A backtracking matcher in continuation-passing style: [matches r prev s k]
    tries [r] at the front of [s], where [prev] is the character before [s]
    in the searched text, and hands the rest to [k]; when [k] fails the
    matcher tries its next alternative, as Python's [re] does. *)

Module Re.

Inductive regex : Type :=
| Eps                               (* the empty pattern *)
| Chr (p : ascii -> bool)           (* one character of a class *)
| Bol                               (* [^] under [re.MULTILINE] *)
| Cat (r1 r2 : regex)
| Opt (r : regex)                   (* [(?:r)?], greedy *)
| Star (p : ascii -> bool)          (* [p*], greedy *)
| LazyStar (p : ascii -> bool).     (* [p*?] *)

Definition Plus (p : ascii -> bool) : regex := Cat (Chr p) (Star p).

(** [.] without [re.DOTALL]: any character but the line feed. *)
Definition dot (c : ascii) : bool := negb (PyStr.code c =? 10)%N.

Definition is_char (a : ascii) (c : ascii) : bool := Ascii.eqb a c.

(** A literal character under [re.IGNORECASE]. *)
Definition is_char_ci (a : ascii) (c : ascii) : bool :=
  Ascii.eqb (PyStr.lower a) (PyStr.lower c).

Fixpoint lit (s : string) : regex :=
  match s with
  | EmptyString => Eps
  | String a s' => Cat (Chr (is_char a)) (lit s')
  end.

Fixpoint lit_ci (s : string) : regex :=
  match s with
  | EmptyString => Eps
  | String a s' => Cat (Chr (is_char_ci a)) (lit_ci s')
  end.

Definition at_line_start (prev : option ascii) : bool :=
  match prev with
  | None => true
  | Some c => (PyStr.code c =? 10)%N
  end.

Section Matcher.
Context {R : Type}.

Fixpoint star_greedy (p : ascii -> bool) (k : option ascii -> string -> option R)
    (prev : option ascii) (s : string) : option R :=
  match s with
  | String c s' =>
      if p c then
        match star_greedy p k (Some c) s' with
        | Some x => Some x
        | None => k prev s
        end
      else k prev s
  | EmptyString => k prev s
  end.

Fixpoint star_lazy (p : ascii -> bool) (k : option ascii -> string -> option R)
    (prev : option ascii) (s : string) : option R :=
  match k prev s with
  | Some x => Some x
  | None =>
      match s with
      | String c s' => if p c then star_lazy p k (Some c) s' else None
      | EmptyString => None
      end
  end.

Fixpoint matches (r : regex) (prev : option ascii) (s : string)
    (k : option ascii -> string -> option R) : option R :=
  match r with
  | Eps => k prev s
  | Chr p =>
      match s with
      | String c s' => if p c then k (Some c) s' else None
      | EmptyString => None
      end
  | Bol => if at_line_start prev then k prev s else None
  | Cat r1 r2 => matches r1 prev s (fun prev' s' => matches r2 prev' s' k)
  | Opt r1 =>
      match matches r1 prev s k with
      | Some x => Some x
      | None => k prev s
      end
  | Star p => star_greedy p k prev s
  | LazyStar p => star_lazy p k prev s
  end.
End Matcher.

(** A match of [r] starting exactly here; the result is the text after it. *)
Definition match_at (r : regex) (prev : option ascii) (s : string) : option string :=
  matches r prev s (fun _ rest => Some rest).

(** [re.search(r, s)]: the leftmost match, as the text from its start and
    the text after its end. *)
Fixpoint search_from (r : regex) (prev : option ascii) (s : string)
    : option (string * string) :=
  match match_at r prev s with
  | Some rest => Some (s, rest)
  | None =>
      match s with
      | String c s' => search_from r (Some c) s'
      | EmptyString => None
      end
  end.

Definition search (r : regex) (s : string) : option (string * string) :=
  search_from r None s.

(** [re.search] of [pre (grp) post], returning group 1: the text matched by
    [grp] is what lies between the two cut points. *)
Definition match_group_at (pre grp post : regex) (prev : option ascii) (s : string)
    : option string :=
  matches pre prev s (fun p1 s1 =>
    matches grp p1 s1 (fun p2 s2 =>
      matches post p2 s2 (fun _ _ =>
        Some (substring 0 (String.length s1 - String.length s2) s1)))).

Fixpoint search_group_from (pre grp post : regex) (prev : option ascii) (s : string)
    : option string :=
  match match_group_at pre grp post prev s with
  | Some g => Some g
  | None =>
      match s with
      | String c s' => search_group_from pre grp post (Some c) s'
      | EmptyString => None
      end
  end.

Definition search_group (pre grp post : regex) (s : string) : option string :=
  search_group_from pre grp post None s.

(** [re.sub(r, "", s)]: every match, left to right and without overlap, is
    deleted.  [skip] counts the characters of the current match still to be
    dropped. *)
Fixpoint sub_from (r : regex) (prev : option ascii) (s : string) (skip : nat) : string :=
  match s with
  | EmptyString => EmptyString
  | String c s' =>
      match skip with
      | S n => sub_from r (Some c) s' n
      | O =>
          match match_at r prev s with
          | Some rest =>
              match String.length s - String.length rest with
              | O => String c (sub_from r (Some c) s' 0)
              | S n => sub_from r (Some c) s' n
              end
          | None => String c (sub_from r (Some c) s' 0)
          end
      end
  end.

Definition sub_empty (r : regex) (s : string) : string := sub_from r None s 0.

End Re.

(** ** Python values, exceptions and the world the scripts run in *)

Module Py.

(** What [json.load] returns. *)
#[warnings="-register-all"] Inductive json : Type :=
| JNull
| JBool (b : bool)
| JNum (n : Z)
| JStr (s : string)
| JList (l : list json)
| JObj (kvs : list (string * json)).   (* a dict, in insertion order *)

Inductive exn : Type :=
| KeyError (k : string)
| TypeError
| AttributeError
| FileNotFoundError (path : string)
| JSONDecodeError
| ServiceError (msg : string)          (* what the model client raises; [str(e) = msg] *)
| OverflowError
| ValueError
| OSError
| SystemExit.                          (* not an [Exception] *)

Definition is_Exception (e : exn) : bool :=
  match e with SystemExit => false | _ => true end.

(** [str(e)] for the exceptions of the model client. *)
Definition str_of_exn (e : exn) : string :=
  match e with
  | ServiceError msg => msg
  | KeyError k => "'" ++ k ++ "'"
  | FileNotFoundError path => path
  | _ => ""
  end.

(** What [time.sleep] can raise. *)
Inductive sleep_error : Type :=
| TooLarge                             (* [OverflowError] *)
| Negative                             (* [ValueError] *)
| Invalid.                             (* [OSError], from the system call *)

Definition exn_of_sleep_error (e : sleep_error) : exn :=
  match e with
  | TooLarge => OverflowError
  | Negative => ValueError
  | Invalid => OSError
  end.

(** One element of a prompt list. *)
Inductive part : Type :=
| Text (s : string)
| Image (png : string).

(** What one call of the model returns: the text of the response, or an
    exception raised by the call or by reading [response.text]. *)
Inductive outcome : Type :=
| Returns (text : string)
| Raises (msg : string).

(** Everything outside the scripts.  The functions take the number of the
    call as their first argument, so that a service may answer the same
    request differently the next time. *)
Record env : Type := {
  generate_content : nat -> list part -> outcome;   (* the hosted model *)
  requests_post : nat -> string -> string -> string -> option string;
      (* the local endpoint: url, model, prompt; [None] for a failed
         request, else the [response] field of the answer *)
  drift : nat -> Q;      (* time that passes unseen before the n-th look at the clock *)
  long_sleep : Q -> option sleep_error;
      (* what [time.sleep] does with a delay of more than 10^8 seconds whose
         nanoseconds still fit in 64 bits: [None] when it sleeps, else what
         it raises; this depends on the platform, and is taken not to
         change during a run *)
  json_dumps : json -> string;
  json_loads : string -> option json;
  repr : json -> string  (* [str] of a list or a dict *)
}.

(** The state of one process: the clock, the rate limiter's global, the
    calls made so far and the files. *)
Record world : Type := {
  clock : Q;
  ticks : nat;                       (* looks at the clock so far *)
  last_request_time : Q;             (* [_last_request_time] *)
  slept : list Q;                    (* arguments of [time.sleep], latest first *)
  calls : list (list part);          (* prompts sent to the hosted model, latest first *)
  posts : list string;               (* prompts sent to the local endpoint, latest first *)
  files : gmap string string
}.

Definition set_clock (t : Q) (w : world) : world :=
  {| clock := t; ticks := S (ticks w); last_request_time := last_request_time w;
     slept := slept w; calls := calls w; posts := posts w; files := files w |}.

Definition set_last_request_time (t : Q) (w : world) : world :=
  {| clock := clock w; ticks := ticks w; last_request_time := t;
     slept := slept w; calls := calls w; posts := posts w; files := files w |}.

Definition log_sleep (t : Q) (w : world) : world :=
  {| clock := clock w; ticks := ticks w; last_request_time := last_request_time w;
     slept := t :: slept w; calls := calls w; posts := posts w; files := files w |}.

Definition log_call (p : list part) (w : world) : world :=
  {| clock := clock w; ticks := ticks w; last_request_time := last_request_time w;
     slept := slept w; calls := p :: calls w; posts := posts w; files := files w |}.

Definition log_post (p : string) (w : world) : world :=
  {| clock := clock w; ticks := ticks w; last_request_time := last_request_time w;
     slept := slept w; calls := calls w; posts := p :: posts w; files := files w |}.

Definition set_files (fs : gmap string string) (w : world) : world :=
  {| clock := clock w; ticks := ticks w; last_request_time := last_request_time w;
     slept := slept w; calls := calls w; posts := posts w; files := fs |}.

(** A fresh process: the module-level [_last_request_time = 0.0]. *)
Definition start (t0 : Q) (fs : gmap string string) : world :=
  {| clock := t0; ticks := 0; last_request_time := 0; slept := []; calls := [];
     posts := []; files := fs |}.

(** *** The monad of the scripts: state and exceptions *)

Inductive res (A : Type) : Type :=
| Ret (a : A)
| Raise (e : exn).
Arguments Ret {A} a.
Arguments Raise {A} e.

Definition M (A : Type) : Type := world -> res A * world.

Definition ret {A} (a : A) : M A := fun w => (Ret a, w).

Definition raise {A} (e : exn) : M A := fun w => (Raise e, w).

Definition bind {A B} (m : M A) (f : A -> M B) : M B :=
  fun w =>
    match m w with
    | (Ret a, w') => f a w'
    | (Raise e, w') => (Raise e, w')
    end.

(** [try: m  except Exception as e: h e] *)
Definition try_except {A} (m : M A) (h : exn -> M A) : M A :=
  fun w =>
    match m w with
    | (Ret a, w') => (Ret a, w')
    | (Raise e, w') => if is_Exception e then h e w' else (Raise e, w')
    end.

Definition lift {A} (r : res A) : M A := fun w => (r, w).

Definition get {A} (f : world -> A) : M A := fun w => (Ret (f w), w).

Definition modify (f : world -> world) : M unit := fun w => (Ret tt, f w).

Declare Scope py_scope.
Delimit Scope py_scope with py.
Notation "x <- m ;; k" := (bind m (fun x => k))
  (at level 100, m at next level, right associativity) : py_scope.
Notation "m ;; k" := (bind m (fun _ => k))
  (at level 100, right associativity) : py_scope.

(** *** Values *)

(** Truth value of a Python object. *)
Definition truthy (v : json) : bool :=
  match v with
  | JNull => false
  | JBool b => b
  | JNum n => negb (n =? 0)%Z
  | JStr s => PyStr.truthy s
  | JList l => match l with [] => false | _ => true end
  | JObj kvs => match kvs with [] => false | _ => true end
  end.

Fixpoint assoc (k : string) (kvs : list (string * json)) : option json :=
  match kvs with
  | [] => None
  | (k', v) :: rest => if String.eqb k k' then Some v else assoc k rest
  end.

(** [v[k]] for a string key. *)
Definition getitem (v : json) (k : string) : res json :=
  match v with
  | JObj kvs => match assoc k kvs with Some x => Ret x | None => Raise (KeyError k) end
  | _ => Raise TypeError
  end.

Fixpoint is_substring (k s : string) : bool :=
  String.prefix k s
  || match s with
     | EmptyString => false
     | String _ s' => is_substring k s'
     end.

(** [k in v] for a string [k]. *)
Definition contains (v : json) (k : string) : res bool :=
  match v with
  | JObj kvs => Ret (match assoc k kvs with Some _ => true | None => false end)
  | JList l =>
      Ret (existsb (fun x => match x with JStr s => String.eqb s k | _ => false end) l)
  | JStr s => Ret (is_substring k s)
  | _ => Raise TypeError
  end.

Fixpoint chars (s : string) : list json :=
  match s with
  | EmptyString => []
  | String c s' => JStr (String c EmptyString) :: chars s'
  end.

(** [for item in v] *)
Definition iter (v : json) : res (list json) :=
  match v with
  | JList l => Ret l
  | JObj kvs => Ret (map (fun kv => JStr (fst kv)) kvs)
  | JStr s => Ret (chars s)
  | _ => Raise TypeError
  end.

(** *** Time, the services and the files *)

Definition Qltb (x y : Q) : bool := negb (Qle_bool y x).

(** What [time.sleep(t)] raises instead of sleeping.  It turns [t] into a
    number of nanoseconds, [t * 1e9] rounded, and raises [OverflowError] when
    that lies outside the range of a signed 64-bit integer (a little more
    than 292 years; [inf] does).  It raises [ValueError] for a negative [t].
    It sleeps for a [t] of up to 10^8 seconds.  In between, what happens
    depends on the platform: the system call may refuse the delay, and at
    the very edge of the range CPython 3.11 raises [ValueError]. *)
Definition sleep_refuses (E : env) (t : Q) : option exn :=
  let ns := PyFloat.mul t 1000000000 in
  if Qltb (inject_Z (2 ^ 63)) ns || Qltb ns (- inject_Z (2 ^ 63))
  then Some OverflowError
  else if Qltb t 0 then Some ValueError
  else if Qle_bool t 100000000 then None
  else option_map exn_of_sleep_error (long_sleep E t).

Section Primitives.
Variable E : env.

(** [time.monotonic()] *)
Definition time_monotonic : M Q :=
  fun w =>
    let now := (clock w + drift E (ticks w))%Q in
    (Ret now, set_clock now w).

(** Time spent outside the functions modelled here: the caller's own work,
    or other threads holding the lock. *)
Definition elapse (d : Q) : M unit :=
  modify (fun w => set_clock (clock w + d)%Q w).

(** [time.sleep(t)] for a [t] it accepts: at least [t] seconds pass.  The
    rate limiters and the translation loops call it with a delay of at most
    60 seconds. *)
Definition time_sleep (t : Q) : M unit :=
  fun w =>
    let now := (clock w + t + drift E (ticks w))%Q in
    (Ret tt, log_sleep t (set_clock now w)).

(** [time.sleep(t)] for any float [t]: a delay that is refused is refused
    before any time passes. *)
Definition time_sleep_or_raise (t : Q) : M unit :=
  match sleep_refuses E t with
  | Some e => raise e
  | None => time_sleep t
  end.

(** [os.makedirs(path, exist_ok=True)]: the empty path names no directory. *)
Definition makedirs (path : string) : M unit :=
  if PyStr.truthy path then ret tt else raise (FileNotFoundError path).

(** [model.generate_content(prompt)] followed by [response.text]. *)
Definition model_generate_content (prompt : list part) : M string :=
  fun w =>
    let w' := log_call prompt w in
    match generate_content E (List.length (calls w)) prompt with
    | Returns text => (Ret text, w')
    | Raises msg => (Raise (ServiceError msg), w')
    end.

(** [with open(path, 'w') as f: json.dump(v, f, ...)] *)
Definition write_json (path : string) (v : json) : M unit :=
  modify (fun w => set_files (<[path := json_dumps E v]> (files w)) w).

(** [with open(path, 'r') as f: json.load(f)] *)
Definition read_json (path : string) : M json :=
  fun w =>
    match files w !! path with
    | None => (Raise (FileNotFoundError path), w)
    | Some text =>
        match json_loads E text with
        | Some v => (Ret v, w)
        | None => (Raise JSONDecodeError, w)
        end
    end.
End Primitives.

End Py.

(** ** ocr_page.py *)

Module OcrPage.
Import Re Py.
Local Open Scope py_scope.

Definition REQUEST_INTERVAL : Q := 5.

Definition max_retries : nat := 12.

Definition base_backoff : Q := 2.

(** The number a string of the shape [[0-9]+(\.[0-9]+)?] denotes. *)
Fixpoint float_digits (s : string) (num : Z) (den : positive) (frac : bool) : Q :=
  match s with
  | EmptyString => num # den
  | String c s' =>
      if PyStr.is_digit c then
        float_digits s' (num * 10 + Z.of_N (PyStr.code c - 48)) (if frac then den * 10 else den) frac
      else float_digits s' num den true
  end.

(** [float(s)] for such a string: the float nearest to that number. *)
Definition float (s : string) : Q := PyFloat.round (float_digits s 0 1 false).

(** [re.search(r"Please retry in ([0-9]+(?:\.[0-9]+)?)s", err_text)], group 1 *)
Definition search_please_retry (err_text : string) : option string :=
  search_group
    (lit "Please retry in ")
    (Cat (Plus PyStr.is_digit) (Opt (Cat (Chr (is_char ".")) (Plus PyStr.is_digit))))
    (lit "s")
    err_text.

(** [re.search(r"retry_delay\W+seconds:\s*([0-9]+)", err_text)], group 1 *)
Definition search_retry_delay (err_text : string) : option string :=
  search_group
    (Cat (lit "retry_delay")
       (Cat (Plus (fun c => negb (PyStr.is_word c)))
          (Cat (lit "seconds:") (Star PyStr.is_space))))
    (Plus PyStr.is_digit)
    Eps
    err_text.

(** [min(60.0, base_backoff * (2 ** (attempt - 1)))] *)
Definition backoff (attempt : nat) : Q :=
  Qmin 60 (base_backoff * inject_Z (2 ^ Z.of_nat (attempt - 1)))%Q.

(** The [except] branch of the retry loop, up to the sleep: the delay the
    server suggests plus one second, else the capped exponential backoff.
    [float] cannot raise on the digits a pattern has captured, so the inner
    [try] always succeeds. *)
Definition sleep_seconds (attempt : nat) (err_text : string) : Q :=
  let sleep_seconds :=
    match search_please_retry err_text with
    | Some g => Some (PyFloat.add (float g) 1)
    | None =>
        match search_retry_delay err_text with
        | Some g => Some (PyFloat.add (float g) 1)
        | None => None
        end
    end in
  match sleep_seconds with
  | Some t => t
  | None => backoff attempt
  end.

Definition prompt (image : string) : list part :=
  [ Text "You are an expert OCR tool. Analyze the provided image and express its content following these rules:";
    Text "1. Read and understand all the text content on the page.";
    Text "2. Rewrite the entire page's content as a single, flowing paragraph in German.";
    Text "3. Make minimal adjustments to connect ideas smoothly while keeping the original meaning.";
    Text "4. Maintain all technical information, facts, and key points accurately.";
    Text "5. Exclude headers, footers, page numbers, and image captions.";
    Text "6. Keep the technical terminology exactly as written.";
    Text "7. Output only the final paragraph without any additional text or commentary.";
    Text "8. Focus on creating a natural flow while preserving the original German content.";
    Image image ].

Section WithEnv.
Variable E : env.

Definition wait_for_rate_limit : M unit :=
  now <- time_monotonic E;;
  last <- get last_request_time;;
  let elapsed := (now - last)%Q in
  if Qltb elapsed REQUEST_INTERVAL then
    let to_sleep := (REQUEST_INTERVAL - elapsed)%Q in
    time_sleep E to_sleep;;
    now <- time_monotonic E;;
    modify (set_last_request_time now)
  else
    modify (set_last_request_time now).

(** One turn of [for attempt in range(1, max_retries + 1)]: [Some text] when
    the turn returns from the function, [None] when the loop goes on. *)
Definition ocr_attempt (image : string) (attempt : nat) : M (option string) :=
  try_except
    (wait_for_rate_limit;;
     text <- model_generate_content E (prompt image);;
     ret (Some text))
    (fun e =>
       let err_text := str_of_exn e in
       time_sleep_or_raise E (sleep_seconds attempt err_text);;
       ret None).

Fixpoint ocr_attempts (image : string) (attempts : list nat) : M string :=
  match attempts with
  | [] => ret ""
  | attempt :: rest =>
      r <- ocr_attempt image attempt;;
      match r with
      | Some text => ret text
      | None => ocr_attempts image rest
      end
  end.

Definition ocr_with_gemini (image : string) : M string :=
  ocr_attempts image (seq 1 max_retries).

Definition results (total_pages : nat) (pages : list json) : json :=
  JObj [("document", JObj [("total_pages", JNum (Z.of_nat total_pages));
                           ("pages", JList pages)])].

Definition save_json_results (results : json) (output_path : string) : M unit :=
  makedirs (PyStr.dirname output_path);;
  write_json E output_path results.

Definition page_data (page_num : nat) (content : string) : json :=
  JObj [("page_number", JNum (Z.of_nat page_num)); ("content", JStr content)].

(** The loop [for page_num, image in enumerate(images, 1)]: [pages] is
    [results["document"]["pages"]] so far, [page_num] the number of the next
    page. *)
Fixpoint process_pages (total_pages : nat) (output_path : string)
    (images : list string) (page_num : nat) (pages : list json) : M (list json) :=
  match images with
  | [] => ret pages
  | image :: rest =>
      extracted_text <- ocr_with_gemini image;;
      let content := PyStr.strip extracted_text in
      let pages := pages ++ [page_data page_num content] in
      save_json_results (results total_pages pages) output_path;;
      process_pages total_pages output_path rest (S page_num) pages
  end.

Definition process_pdf_pages (images : list string) (output_path : string) : M json :=
  pages <- process_pages (List.length images) output_path images 1 [];;
  ret (results (List.length images) pages).

(** *** The script: [if __name__ == "__main__":]

    What PyMuPDF and PIL make of the file at a path: [fitz.open] raises; or
    the document opens, [images = []] is assigned and the rendering of a
    page raises; or every page is rendered into an image. *)
Inductive pdf : Type :=
| OpenRaises
| RenderRaises
| Rendered (images : list string).

(** How the script ends: it runs to its end, it calls [sys.exit(code)], or
    it dies of a [NameError] that nothing catches. *)
Inductive exit : Type :=
| Finished
| Exit (code : Z)
| NameError (name : string).

Section Script.
Variable fitz : string -> pdf.

(** The loop [for filename in os.listdir(pdf_dir)].  [images_bound] tells
    whether the global [images] has been assigned: the [finally] clause
    iterates over it, outside of any [try]. *)
Fixpoint pdf_loop (pdf_dir output_dir : string) (listing : list string)
    (images_bound : bool) : M exit :=
  match listing with
  | [] => ret Finished
  | filename :: rest =>
      if negb (PyStr.endswith (PyStr.lower_str filename) ".pdf")
      then pdf_loop pdf_dir output_dir rest images_bound
      else
        let pdf_path := PyStr.path_join pdf_dir filename in
        let base_name := PyStr.splitext_root filename in
        let json_output_path := PyStr.path_join output_dir (base_name ++ "_ocr.json") in
        match fitz pdf_path with
        | OpenRaises =>
            if images_bound then pdf_loop pdf_dir output_dir rest true
            else ret (NameError "images")
        | RenderRaises => pdf_loop pdf_dir output_dir rest true
        | Rendered images =>
            try_except
              (_ <- process_pdf_pages images json_output_path;; ret tt)
              (fun e => ret tt);;
            pdf_loop pdf_dir output_dir rest true
        end
  end.

(** [api_key] is what [os.getenv("GEMINI_API_KEY")] returns, [pdf_dir_is_dir]
    what [os.path.isdir(pdf_dir)] returns and [listing] what
    [os.listdir(pdf_dir)] returns. *)
Definition main (api_key : option string) (pdf_dir_is_dir : bool)
    (pdf_dir output_dir : string) (listing : list string) : M exit :=
  if negb (match api_key with Some key => PyStr.truthy key | None => false end)
  then ret (Exit 1)
  else if negb pdf_dir_is_dir then ret (Exit 1)
  else pdf_loop pdf_dir output_dir listing false.

End Script.

End WithEnv.
End OcrPage.

(** ** translate_json.py *)

Module TranslateJson.
Import Py.
Local Open Scope py_scope.

Definition REQUEST_INTERVAL : Q := 5.

Definition max_retries : nat := 12.

Definition base_backoff : Q := 2.

Definition prompt (german_text : string) : list part :=
  [ Text "Translate the following German paragraph to English. Rules:";
    Text "1. Maintain technical accuracy and terminology";
    Text "2. Keep the same flowing, paragraph style";
    Text "3. Preserve all technical information";
    Text "4. Output only the English translation, no additional text";
    Text "---";
    Text german_text;
    Text "---" ].

(** [min(60.0, base_backoff * (2 ** (attempt - 1)))] *)
Definition sleep_seconds (attempt : nat) : Q :=
  Qmin 60 (base_backoff * inject_Z (2 ^ Z.of_nat (attempt - 1)))%Q.

Section WithEnv.
Variable E : env.

Definition wait_for_rate_limit : M unit :=
  now <- time_monotonic E;;
  last <- get last_request_time;;
  let elapsed := (now - last)%Q in
  if Qltb elapsed REQUEST_INTERVAL then
    let to_sleep := (REQUEST_INTERVAL - elapsed)%Q in
    time_sleep E to_sleep;;
    now <- time_monotonic E;;
    modify (set_last_request_time now)
  else
    modify (set_last_request_time now).

(** One turn of the retry loop: [Some translation] when the turn returns
    from the function, [None] when the loop goes on (an empty answer, or an
    exception followed by the backoff sleep). *)
Definition translate_attempt (german_text : string) (attempt : nat) : M (option string) :=
  try_except
    (wait_for_rate_limit;;
     text <- model_generate_content E (prompt german_text);;
     let translation := PyStr.strip text in
     if PyStr.truthy translation then ret (Some translation) else ret None)
    (fun e =>
       time_sleep E (sleep_seconds attempt);;
       ret None).

Fixpoint translate_attempts (german_text : string) (attempts : list nat) : M string :=
  match attempts with
  | [] => ret "[Translation failed]"
  | attempt :: rest =>
      r <- translate_attempt german_text attempt;;
      match r with
      | Some translation => ret translation
      | None => translate_attempts german_text rest
      end
  end.

(** [german_text] is whatever the page holds under ["content"]: a value
    without [strip] raises at [german_text.strip()]. *)
Definition translate_paragraph (german_text : json) : M string :=
  if negb (truthy german_text) then ret ""
  else
    match german_text with
    | JStr s =>
        if negb (PyStr.truthy (PyStr.strip s)) then ret ""
        else translate_attempts s (seq 1 max_retries)
    | _ => raise AttributeError
    end.

Definition translations (total_pages : json) (pages : list json) : json :=
  JObj [("document", JObj [("total_pages", total_pages); ("pages", JList pages)])].

(** The loop [for page in data["document"]["pages"]]: [pages] is
    [translations["document"]["pages"]] so far, and the result is that list
    when the loop ends. *)
Fixpoint translate_pages (total_pages : json) (output_path : string)
    (todo : list json) (pages : list json) : M (list json) :=
  match todo with
  | [] => ret pages
  | page :: rest =>
      _ <- lift (getitem page "page_number");;
      german_text <- lift (getitem page "content");;
      english_text <- translate_paragraph german_text;;
      page_number <- lift (getitem page "page_number");;
      let translated_page :=
        JObj [("page_number", page_number); ("german", german_text);
              ("english", JStr english_text)] in
      let pages := pages ++ [translated_page] in
      write_json E output_path (translations total_pages pages);;
      translate_pages total_pages output_path rest pages
  end.

Definition translate_json_file (input_path output_path : string) : M unit :=
  data <- read_json E input_path;;
  document <- lift (getitem data "document");;
  total_pages <- lift (getitem document "total_pages");;
  document <- lift (getitem data "document");;
  pages <- lift (getitem document "pages");;
  todo <- lift (iter pages);;
  _ <- translate_pages total_pages output_path todo [];;
  ret tt.

(** [main] after [configure_api()]; [output_dir] is the [output] directory
    beside the script and [listing] what [os.listdir(output_dir)] returns. *)
Fixpoint main (output_dir : string) (listing : list string) : M unit :=
  match listing with
  | [] => ret tt
  | filename :: rest =>
      if negb (PyStr.endswith filename "_ocr.json") then main output_dir rest
      else
        let input_path := PyStr.path_join output_dir filename in
        let output_filename := PyStr.replace filename "_ocr.json" "_translated.json" in
        let output_path := PyStr.path_join output_dir output_filename in
        try_except (translate_json_file input_path output_path) (fun e => ret tt);;
        main output_dir rest
  end.

End WithEnv.
End TranslateJson.

(** ** translate_json_urdu.py *)

Module TranslateJsonUrdu.
Import Py.
Local Open Scope py_scope.

Definition REQUEST_INTERVAL : Q := 5.

Definition max_retries : nat := 12.

Definition base_backoff : Q := 2.

Definition prompt (english_text : string) : list part :=
  [ Text "Translate the following English paragraph into Urdu.";
    Text "Rules:";
    Text "1. Maintain full meaning and accuracy.";
    Text "2. Use fluent, natural Urdu — not transliteration.";
    Text "3. Keep the paragraph format same as original.";
    Text "4. Output only the Urdu translation, no additional comments.";
    Text "---";
    Text english_text;
    Text "---" ].

(** [min(60.0, base_backoff * (2 ** (attempt - 1)))] *)
Definition sleep_time (attempt : nat) : Q :=
  Qmin 60 (base_backoff * inject_Z (2 ^ Z.of_nat (attempt - 1)))%Q.

Section WithEnv.
Variable E : env.

Definition wait_for_rate_limit : M unit :=
  now <- time_monotonic E;;
  last <- get last_request_time;;
  let elapsed := (now - last)%Q in
  (if Qltb elapsed REQUEST_INTERVAL then time_sleep E (REQUEST_INTERVAL - elapsed)
   else ret tt);;
  now <- time_monotonic E;;
  modify (set_last_request_time now).

Definition translate_attempt (english_text : string) (attempt : nat) : M (option string) :=
  try_except
    (wait_for_rate_limit;;
     text <- model_generate_content E (prompt english_text);;
     let urdu_text := PyStr.strip text in
     if PyStr.truthy urdu_text then ret (Some urdu_text) else ret None)
    (fun e =>
       time_sleep E (sleep_time attempt);;
       ret None).

Fixpoint translate_attempts (english_text : string) (attempts : list nat) : M string :=
  match attempts with
  | [] => ret "[Urdu translation failed]"
  | attempt :: rest =>
      r <- translate_attempt english_text attempt;;
      match r with
      | Some urdu_text => ret urdu_text
      | None => translate_attempts english_text rest
      end
  end.

Definition translate_to_urdu (english_text : json) : M string :=
  if negb (truthy english_text) then ret ""
  else
    match english_text with
    | JStr s =>
        if negb (PyStr.truthy (PyStr.strip s)) then ret ""
        else translate_attempts s (seq 1 max_retries)
    | _ => raise AttributeError
    end.

Definition urdu_translations (total_pages : json) (pages : list json) : json :=
  JObj [("document", JObj [("total_pages", total_pages); ("pages", JList pages)])].

Fixpoint translate_pages (total_pages : json) (output_path : string)
    (todo : list json) (pages : list json) : M (list json) :=
  match todo with
  | [] => ret pages
  | page :: rest =>
      page_num <- lift (getitem page "page_number");;
      english_text <- lift (getitem page "english");;
      urdu_text <- translate_to_urdu english_text;;
      german <- lift (getitem page "german");;
      let translated_page :=
        JObj [("page_number", page_num); ("german", german);
              ("english", english_text); ("urdu", JStr urdu_text)] in
      let pages := pages ++ [translated_page] in
      write_json E output_path (urdu_translations total_pages pages);;
      translate_pages total_pages output_path rest pages
  end.

Definition translate_json_file (input_path output_path : string) : M unit :=
  data <- read_json E input_path;;
  document <- lift (getitem data "document");;
  total_pages <- lift (getitem document "total_pages");;
  document <- lift (getitem data "document");;
  pages <- lift (getitem document "pages");;
  todo <- lift (iter pages);;
  _ <- translate_pages total_pages output_path todo [];;
  ret tt.

(** [main] after [configure_api()]. *)
Fixpoint main (output_dir : string) (listing : list string) : M unit :=
  match listing with
  | [] => ret tt
  | filename :: rest =>
      if negb (PyStr.endswith filename "_translated.json") then main output_dir rest
      else
        let input_path := PyStr.path_join output_dir filename in
        let output_filename := PyStr.replace filename "_translated.json" "_urdu.json" in
        let output_path := PyStr.path_join output_dir output_filename in
        try_except (translate_json_file input_path output_path) (fun e => ret tt);;
        main output_dir rest
  end.

End WithEnv.
End TranslateJsonUrdu.

(** ** LLM evaluation/main.py: the response sanitizer *)

Module LlmEvaluation.
Import Re Py.

(** [^Here is the.*?translation.*?:] and the like, under
    [re.IGNORECASE | re.MULTILINE]. *)
Definition prefixes : list regex :=
  [ Cat Bol (Cat (lit_ci "Here is the") (Cat (LazyStar dot)
      (Cat (lit_ci "translation") (Cat (LazyStar dot) (lit_ci ":")))));
    Cat Bol (Cat (lit_ci "Sure, here is") (Cat (LazyStar dot) (lit_ci ":")));
    Cat Bol (lit_ci "Translation:");
    Cat Bol (Cat (lit_ci "Below is the translation") (Cat (LazyStar dot) (lit_ci ":")));
    Cat Bol (Cat (lit_ci "The translation is as follows") (Cat (LazyStar dot) (lit_ci ":")));
    Cat Bol (Cat (lit_ci "Here is the Urdu translation") (Cat (LazyStar dot) (lit_ci ":")));
    Cat Bol (Cat (lit_ci "Here is the English translation") (Cat (LazyStar dot) (lit_ci ":"))) ].

Definition suffixes : list regex :=
  [ Cat (lit_ci "Note:") (Star dot);
    Cat (lit_ci "Please let me know") (Star dot);
    Cat (lit_ci "I hope this helps") (Star dot) ].

(** One turn of either loop: [text = re.sub(p, "", text, flags=...).strip()]. *)
Definition strip_pattern (text : string) (p : regex) : string :=
  PyStr.strip (sub_empty p text).

Definition clean_response (text : string) : string :=
  if PyStr.truthy text then
    let text := fold_left strip_pattern prefixes text in
    fold_left strip_pattern suffixes text
  else "".

(** [str(v)] *)
Definition str (E : env) (v : json) : string :=
  match v with
  | JStr s => s
  | JNum n => PyStr.str_of_Z n
  | JNull => "None"
  | JBool true => "True"
  | JBool false => "False"
  | _ => repr E v
  end.

(** A model profile of [config.json]. *)
Record model_config : Type := {
  name : string;
  base_model : string;
  prompt_file : option string;    (* [None] for a missing key or [null] *)
  example_file : option string;
  file_suffix : string
}.

Definition reserved_keys : list string := ["total_pages"; "content"; "document"; "metadata"].

Section WithEnv.
Variable E : env.
Local Open Scope py_scope.

(** [base_dir]: the directory of the script. *)
Variable base_dir : string.

Definition read_file_content (filepath : option string) : M string :=
  match filepath with
  | None => ret ""
  | Some filepath =>
      if negb (PyStr.truthy filepath) then ret ""
      else
        let full_path := PyStr.path_join base_dir filepath in
        fun w =>
          match files w !! full_path with
          | Some text => (Ret (PyStr.strip text), w)
          | None => (Ret "", w)
          end
  end.

(** Case A, the loop [for item in data['document']['pages']]. *)
Fixpoint pages_segments (items : list json) (text_segments : list string)
    : res (list string) :=
  match items with
  | [] => Ret text_segments
  | item :: rest =>
      match contains item "content" with
      | Raise e => Raise e
      | Ret true =>
          match getitem item "content" with
          | Raise e => Raise e
          | Ret v => pages_segments rest (text_segments ++ [str E v])
          end
      | Ret false => pages_segments rest text_segments
      end
  end.

(** Case B, the loop [for item in data['content']]. *)
Fixpoint content_segments (items : list json) (text_segments : list string)
    : list string :=
  match items with
  | [] => text_segments
  | item :: rest =>
      match item with
      | JObj kvs =>
          match assoc "content" kvs with
          | Some v => content_segments rest (text_segments ++ [str E v])
          | None => content_segments rest text_segments
          end
      | JStr s => content_segments rest (text_segments ++ [s])
      | _ => content_segments rest text_segments
      end
  end.

(** Case C, the loop [for key in sorted(data.keys())]. *)
Fixpoint keyed_segments (kvs : list (string * json)) (keys : list string)
    (text_segments : list string) : list string :=
  match keys with
  | [] => text_segments
  | key :: rest =>
      if negb (existsb (String.eqb key) reserved_keys) then
        match assoc key kvs with
        | Some v => keyed_segments kvs rest (text_segments ++ [str E v])
        | None => keyed_segments kvs rest text_segments
        end
      else keyed_segments kvs rest text_segments
  end.

(** The body of the [try] of [extract_text_from_json], after [json.load]. *)
Definition text_segments (data : json) : res (list string) :=
  match data with
  | JObj kvs =>
      match assoc "document" kvs with
      | Some document =>
          match contains document "pages" with
          | Raise e => Raise e
          | Ret true =>
              match getitem document "pages" with
              | Raise e => Raise e
              | Ret pages =>
                  match iter pages with
                  | Raise e => Raise e
                  | Ret items => pages_segments items []
                  end
              end
          | Ret false =>
              match assoc "content" kvs with
              | Some (JList items) => Ret (content_segments items [])
              | _ => Ret (keyed_segments kvs (PyStr.sorted (map fst kvs)) [])
              end
          end
      | None =>
          match assoc "content" kvs with
          | Some (JList items) => Ret (content_segments items [])
          | _ => Ret (keyed_segments kvs (PyStr.sorted (map fst kvs)) [])
          end
      end
  | JList items => Ret (map (str E) items)
  | _ => Ret [str E data]
  end.

Definition extract_text_from_json (filepath : string) : M (list string) :=
  try_except
    (data <- read_json E filepath;;
     lift (text_segments data))
    (fun e => ret []).

(** [requests.post(url, json=payload)], [raise_for_status] and
    [response.json().get('response', '')]. *)
Definition post (url model prompt : string) : M string :=
  fun w =>
    let w' := log_post prompt w in
    match requests_post E (List.length (posts w)) url model prompt with
    | Some raw_text => (Ret raw_text, w')
    | None => (Raise (ServiceError ""), w')
    end.

(** The result is [None] where the script returns [None]. *)
Definition translate_segment (text : string) (model_config : model_config) (url : string)
    : M (option string) :=
  let model_name := base_model model_config in
  system_instruction <- read_file_content (prompt_file model_config);;
  examples <- read_file_content (example_file model_config);;
  let full_prompt := (system_instruction ++ PyStr.nl ++ PyStr.nl)%string in
  let full_prompt :=
    if PyStr.truthy examples then
      (full_prompt ++ "Here are examples of the required style:" ++ PyStr.nl
         ++ examples ++ PyStr.nl ++ PyStr.nl)%string
    else full_prompt in
  let full_prompt :=
    (full_prompt ++ "Source Text to Translate:" ++ PyStr.nl ++ text)%string in
  try_except
    (raw_text <- post url model_name full_prompt;;
     ret (Some (clean_response raw_text)))
    (fun e => ret None).

(** [with open(output_path, 'w') as f: f.write("")] *)
Definition write_empty (output_path : string) : M unit :=
  modify (fun w => set_files (<[output_path := ""]> (files w)) w).

(** [with open(output_path, 'a') as f: f.write(text)] *)
Definition append_text (output_path text : string) : M unit :=
  modify (fun w =>
    let old : string := default "" (files w !! output_path) in
    set_files (<[output_path := (old ++ text)%string]> (files w)) w).

(** [os.path.exists(path)] *)
Definition path_exists (path : string) : M bool :=
  get (fun w => match files w !! path with Some _ => true | None => false end).

(** The loop [for i, segment in enumerate(segments)]; [i] counts from 0 and
    [total] is [len(segments)]. *)
Fixpoint translate_segments (output_path : string) (selected_model_config : model_config)
    (engine_url : string) (segments : list string) (i : nat) : M unit :=
  match segments with
  | [] => ret tt
  | segment :: rest =>
      translation <- translate_segment segment selected_model_config engine_url;;
      match translation with
      | Some text =>
          (if PyStr.truthy text then
             append_text output_path
               ("--- Page " ++ PyStr.str_of_Z (Z.of_nat (i + 1)) ++ " ---" ++ PyStr.nl
                  ++ text ++ PyStr.nl ++ PyStr.nl)
           else ret tt);;
          translate_segments output_path selected_model_config engine_url rest (S i)
      | None => raise SystemExit
      end
  end.

(** The loop [for filename in files]. *)
Fixpoint process_files (data_folder result_folder : string)
    (selected_model_config : model_config) (engine_url : string)
    (files : list string) : M unit :=
  match files with
  | [] => ret tt
  | filename :: rest =>
      let input_path := PyStr.path_join data_folder filename in
      let output_filename :=
        PyStr.replace filename ".json" (file_suffix selected_model_config ++ ".txt") in
      let output_path := PyStr.path_join result_folder output_filename in
      skip <- path_exists output_path;;
      if skip then
        process_files data_folder result_folder selected_model_config engine_url rest
      else
        segments <- extract_text_from_json input_path;;
        match segments with
        | [] => process_files data_folder result_folder selected_model_config engine_url rest
        | _ =>
            write_empty output_path;;
            translate_segments output_path selected_model_config engine_url segments 0;;
            process_files data_folder result_folder selected_model_config engine_url rest
        end
  end.

(** [main] from the point where the profile has been chosen; [listing] is
    what [os.listdir(data_folder)] returns. *)
Definition main (data_folder result_folder : string)
    (selected_model_config : model_config) (engine_url : string)
    (listing : list string) : M unit :=
  let files := filter (fun f => PyStr.endswith f ".json") listing in
  match files with
  | [] => ret tt
  | _ => process_files data_folder result_folder selected_model_config engine_url files
  end.

End WithEnv.
End LlmEvaluation.

(** * Notions used in the statements *)

(** The string is empty or consists only of whitespace. *)
Fixpoint all_space (s : string) : bool :=
  match s with
  | EmptyString => true
  | String c s' => PyStr.is_space c && all_space s'
  end.

(** The text contains no match of any of the configured patterns. *)
Definition has_no_pattern (x : string) : Prop :=
  Forall (fun p => Re.search p x = None)
    (LlmEvaluation.prefixes ++ LlmEvaluation.suffixes).








(** The order of [sorted]: [String.leb], as a relation. *)
Definition str_le (a b : string) : Prop := String.leb a b = true.

(** A key that the keyed-pages branch of the format adapter takes for a
    page identifier: any key but the four reserved ones. *)
Definition page_key (key : string) : bool :=
  negb (existsb (String.eqb key) ["total_pages"; "content"; "document"; "metadata"]).

(** [str(data[key])] for a key of the object [data]. *)
Definition str_at (E : Py.env) (kvs : list (string * Py.json)) (key : string) : string :=
  match Py.assoc key kvs with
  | Some v => LlmEvaluation.str E v
  | None => ""
  end.

(** A flat object keyed by page identifiers. *)
Definition keyed_pages : Py.json :=
  Py.JObj [("p1", Py.JStr "a"); ("p2", Py.JStr "b"); ("total_pages", Py.JNum 2)].

(** The four input shapes of the format adapter, each with the segments the
    specification lists for it. *)
Definition known_shapes : list (Py.json * list string) :=
  [ (Py.JObj [("document",
        Py.JObj [("pages", Py.JList [Py.JObj [("content", Py.JStr "a")];
                                     Py.JObj [("content", Py.JStr "b")]])])],
     ["a"; "b"]);
    (Py.JObj [("content", Py.JList [Py.JStr "x"; Py.JStr "y"])], ["x"; "y"]);
    (keyed_pages, ["a"; "b"]);
    (Py.JList [Py.JNum 1; Py.JNum 2], ["1"; "2"]) ].

Section Vocabulary.
Import Py.
Local Open Scope string_scope.
Local Open Scope py_scope.


(** A translation call fails when it raises or answers with whitespace only. *)
Definition translation_fails (o : outcome) : bool :=
  match o with Raises _ => true | Returns out => all_space out end.

(** The delay of the blind backoff: [min(60, 2 * 2^(attempt-1))]. *)
Definition capped_backoff (attempt : nat) : Q :=
  Qmin 60 (2 * inject_Z (2 ^ Z.of_nat (attempt - 1))).

(** The shape the three retry loops share. *)
Fixpoint retry_loop (step : nat -> M (option string)) (terminal : string)
    (attempts : list nat) : M string :=
  match attempts with
  | [] => ret terminal
  | attempt :: rest =>
      bind (step attempt) (fun r =>
        match r with
        | Some v => ret v
        | None => retry_loop step terminal rest
        end)
  end.

(** A failed call after which the OCR loop goes on: the call raises, and the
    delay that attempt [attempt] takes from the message is one [time.sleep]
    accepts. *)
Definition ocr_retries (E : env) (attempt : nat) (o : outcome) : bool :=
  match o with
  | Raises msg =>
      match sleep_refuses E (OcrPage.sleep_seconds attempt msg) with
      | None => true
      | Some _ => false
      end
  | Returns _ => false
  end.


(** A service none of whose errors asks the OCR loop for a delay that
    [time.sleep] refuses. *)
Definition delays_accepted (E : env) : Prop :=
  forall attempt n p msg,
    Py.generate_content E n p = Raises msg ->
    sleep_refuses E (OcrPage.sleep_seconds attempt msg) = None.

(** What a translation attempt that makes call number [n] hands to its
    loop: a blank answer makes the loop go on. *)
Definition translation_answer (E : env) (prompt : list part) (n : nat) : option string :=
  match Py.generate_content E n prompt with
  | Returns out => if all_space out then None else Some (PyStr.strip out)
  | Raises _ => None
  end.

(** A compact JSON printer for the examples; strings are printed as they are. *)
Definition quote : string := String (ascii_of_nat 34) EmptyString.

Fixpoint show_json (v : json) : string :=
  match v with
  | JNull => "null"
  | JBool true => "true"
  | JBool false => "false"
  | JNum n => PyStr.str_of_Z n
  | JStr s => quote ++ s ++ quote
  | JList l =>
      "[" ++ (fix items (l : list json) : string :=
                match l with
                | [] => ""
                | [x] => show_json x
                | x :: rest => show_json x ++ "," ++ items rest
                end) l ++ "]"
  | JObj kvs =>
      "{" ++ (fix items (l : list (string * json)) : string :=
                match l with
                | [] => ""
                | [(k, x)] => quote ++ k ++ quote ++ ":" ++ show_json x
                | (k, x) :: rest => quote ++ k ++ quote ++ ":" ++ show_json x ++ "," ++ items rest
                end) kvs ++ "}"
  end.

(** An environment for the examples: the hosted model is [model], no time
    passes unseen, and the files that parse are the serialised [docs]. *)
Definition demo_env (model : nat -> list part -> outcome) (docs : list json) : env :=
  {| generate_content := model;
     requests_post := fun _ _ _ _ => None;
     drift := fun _ => 0%Q;
     long_sleep := fun _ => None;
     json_dumps := show_json;
     json_loads := fun text => find (fun v => String.eqb (show_json v) text) docs;
     repr := show_json |}.

(** A service that fails twice with a quota error and answers from then on. *)
Definition flaky_model (n : nat) (_ : list part) : outcome :=
  if (n <? 2)%nat then Raises "Please retry in 3.5s" else Returns " ok ".

(** A service that always fails with a quota error. *)
Definition quota_model (n : nat) (_ : list part) : outcome :=
  Raises "Please retry in 3.5s".


(** A service that always fails that way. *)
Definition overflow_model (n : nat) (_ : list part) : outcome :=
  Raises "Please retry in 10000000000s".

(** A document as the three stages write it:
    [{"document": {"total_pages": ..., "pages": [...]}}]. *)
Definition document (total_pages : json) (pages : list json) : json :=
  JObj [("document", JObj [("total_pages", total_pages); ("pages", JList pages)])].

(** A page as the OCR stage writes it, and the pages for the texts
    [contents], numbered from [page_num] on. *)
Definition ocr_page (page_num : nat) (content : string) : json :=
  JObj [("page_number", JNum (Z.of_nat page_num)); ("content", JStr content)].

Fixpoint ocr_pages (page_num : nat) (contents : list string) : list json :=
  match contents with
  | [] => []
  | content :: rest => ocr_page page_num content :: ocr_pages (S page_num) rest
  end.

(** A page as the first translation stage writes it, and the pages for a
    list of texts and their translations. *)
Definition translated_page (page_num : nat) (german english : string) : json :=
  JObj [("page_number", JNum (Z.of_nat page_num)); ("german", JStr german);
        ("english", JStr english)].

Fixpoint translated_pages (page_num : nat) (germans englishs : list string) : list json :=
  match germans, englishs with
  | german :: gs, english :: es =>
      translated_page page_num german english :: translated_pages (S page_num) gs es
  | _, _ => []
  end.

(** A page as the second translation stage writes it. *)
Definition urdu_page (page_num : nat) (german english urdu : string) : json :=
  JObj [("page_number", JNum (Z.of_nat page_num)); ("german", JStr german);
        ("english", JStr english); ("urdu", JStr urdu)].

Fixpoint urdu_pages (page_num : nat) (germans englishs urdus : list string) : list json :=
  match germans, englishs, urdus with
  | german :: gs, english :: es, urdu :: us =>
      urdu_page page_num german english urdu :: urdu_pages (S page_num) gs es us
  | _, _, _ => []
  end.


(** The numbers [first], [first + 1], ... of [count] pages. *)
Definition numbers (first count : nat) : list (res json) :=
  map (fun i => Ret (JNum (Z.of_nat i))) (seq first count).

(** What the output path holds after a loop over [n] pages that ends with
    the document [doc]. *)
Definition flushed (E : env) (n : nat) (out : string) (doc : json)
    (fs : gmap string string) : gmap string string :=
  match n with
  | O => fs
  | S _ => <[out := json_dumps E doc]> fs
  end.

(** One acquisition after each gap of [gaps]; the result lists the value of
    [_last_request_time] after each acquisition, the time of the grant. *)
Fixpoint grant_times (wait : M unit) (gaps : list Q) : M (list Q) :=
  match gaps with
  | [] => ret []
  | d :: rest =>
      elapse d;;
      wait;;
      t <- get last_request_time;;
      ts <- grant_times wait rest;;
      ret (t :: ts)
  end.



(** A computation that neither reads nor writes a file: run on other files,
    it does the same and leaves them as they are. *)
Definition blind {A} (m : M A) : Prop :=
  forall w fs, m (set_files fs w) = (fst (m w), set_files fs (snd (m w))).

(** What a run does to the files: nothing, or one path overwritten. *)
Definition overwrite (path : string) (upd : option string) (fs : gmap string string)
    : gmap string string :=
  match upd with
  | Some text => <[path := text]> fs
  | None => fs
  end.

(** A computation whose only use of the files is to overwrite [path]. *)
Definition writes_only {A} (path : string) (m : M A) : Prop :=
  forall w, exists r upd wc, forall fs,
    m (set_files fs w) = (r, set_files (overwrite path upd fs) wc).

(** Reading the input is the only other use of the files: a run does not
    see what the output path holds. *)
Definition ignores {A} (path : string) (m : M A) : Prop :=
  forall w prior, exists r wa wb,
    m w = (r, wa) /\
    m (set_files (<[path := prior]> (files w)) w) = (r, wb) /\
    calls wb = calls wa /\ slept wb = slept wa /\
    (files wb = files wa \/ files wb = <[path := prior]> (files wa)).

(** An environment whose local endpoint answers as [post] says. *)
Definition local_env (post : nat -> option string) (docs : list json) : env :=
  {| generate_content := fun _ _ => Raises "";
     requests_post := fun n _ _ _ => post n;
     drift := fun _ => 0%Q;
     long_sleep := fun _ => None;
     json_dumps := show_json;
     json_loads := fun text => find (fun v => String.eqb (show_json v) text) docs;
     repr := show_json |}.

(** A service whose answers differ from call to call. *)
Definition counting_model (n : nat) (_ : list part) : outcome :=
  Returns ("v" ++ PyStr.str_of_Z (Z.of_nat n)).

(** The texts of a document of five pages. *)
Definition five_contents : list string := ["eins"; "zwei"; "drei"; "vier"; "fuenf"].

(** The document the OCR stage leaves for them. *)
Definition five_pages : json := document (JNum 5) (ocr_pages 1 five_contents).

End Vocabulary.

(** ** Notions used in the further properties *)

(** [s] is what is left of [t] when some of its characters are deleted. *)
Inductive subsequence : string -> string -> Prop :=
| subsequence_nil : subsequence EmptyString EmptyString
| subsequence_skip c s t : subsequence s t -> subsequence s (String c t)
| subsequence_keep c s t : subsequence s t -> subsequence (String c s) (String c t).

(** [c] occurs in [s]. *)
Fixpoint occurs (c : ascii) (s : string) : bool :=
  match s with
  | EmptyString => false
  | String a s' => Ascii.eqb c a || occurs c s'
  end.

(** A computation that raises nothing but an [Exception]: a
    [try ... except Exception] around it catches whatever it raises. *)
Definition catchable {A} (m : Py.M A) : Prop :=
  forall w e w', m w = (Py.Raise e, w') -> Py.is_Exception e = true.

(** What one acquisition does to a world where the last grant is not in the
    future: it returns at a clock reading that becomes the new grant, and it
    sleeps at most once, for more than zero and at most five seconds. *)
Definition acquires_within (wait : Py.M unit) : Prop :=
  forall w, (Py.last_request_time w <= Py.clock w)%Q ->
    exists w', wait w = (Py.Ret tt, w') /\
      Py.last_request_time w' = Py.clock w' /\
      (Py.clock w <= Py.clock w')%Q /\
      (Py.slept w' = Py.slept w \/
       exists t, Py.slept w' = t :: Py.slept w /\ (0 < t <= 5)%Q).

(** The seconds a process has asked [time.sleep] for so far. *)
Definition asleep (w : Py.world) : Q := fold_right Qplus 0%Q (Py.slept w).

(** What the rate limiter sleeps when [gap] seconds have passed since the
    last grant. *)
Definition wait_cost (gap : Q) : Q := Qmax 0 (5 - gap).

(** The longest the retry loop of a translation stage can sleep over
    [attempts], entered [gap] seconds after the last grant: every attempt
    waits for the limiter, and then either goes on at once (an empty answer)
    or backs off (an exception), whichever is worse. *)
Fixpoint longest_sleep (attempts : list nat) (gap : Q) : Q :=
  match attempts with
  | [] => 0
  | attempt :: rest =>
      wait_cost gap
      + Qmax (longest_sleep rest 0)
             (capped_backoff attempt + longest_sleep rest (capped_backoff attempt))
  end.

(** A computation that returns, keeps the last grant in the past and
    sleeps [bound] seconds at most. *)
Definition sleeps_at_most {A} (bound : Q) (m : Py.M A) (w : Py.world) : Prop :=
  exists r w',
    m w = (Py.Ret r, w') /\
    (Py.last_request_time w' <= Py.clock w')%Q /\
    (asleep w' <= asleep w + bound)%Q.

(** One attempt entered at least [g] seconds after the last grant: it ends
    just after a grant having slept the wait, or it ends after the backoff. *)
Definition attempt_costs (step : nat -> Py.M (option string)) : Prop :=
  forall a w g, (0 <= g)%Q -> (g <= Py.clock w - Py.last_request_time w)%Q ->
    exists r w',
      step a w = (Py.Ret r, w') /\
      ((0 <= Py.clock w' - Py.last_request_time w' /\
        asleep w' <= asleep w + wait_cost g)%Q \/
       (r = None /\
        (capped_backoff a <= Py.clock w' - Py.last_request_time w')%Q /\
        (asleep w' <= asleep w + wait_cost g + capped_backoff a)%Q)).

(** A profile of the local pipeline, for the examples. *)
Definition general_profile : LlmEvaluation.model_config :=
  {| LlmEvaluation.name := "General"; LlmEvaluation.base_model := "llama3";
     LlmEvaluation.prompt_file := Some "prompts/general.txt";
     LlmEvaluation.example_file := None;
     LlmEvaluation.file_suffix := "_general" |}.

(** An endpoint that always answers, and a data folder with one document of
    two segments. *)
Definition steady_local_env : Py.env :=
  local_env (fun _ => Some "Translation: Hallo") [Py.JList [Py.JStr "x"; Py.JStr "y"]].

Definition one_document : Py.world :=
  Py.start 0 {[ "data/a.json" := show_json (Py.JList [Py.JStr "x"; Py.JStr "y"]) ]}.

(** A service and a parser for a document of two pages that goes through
    the three stages: the parser knows the documents the first two stages
    write. *)
Definition chain_env : Py.env :=
  demo_env counting_model
    [ document (Py.JNum 2) (ocr_pages 1 ["v0"; "v1"]);
      document (Py.JNum 2) (translated_pages 1 ["v0"; "v1"] ["v2"; "v3"]) ].

(** A service that is down, and a parser that knows the document the OCR
    stage writes for one page then. *)
Definition outage_env : Py.env :=
  demo_env quota_model [ document (Py.JNum 1) (ocr_pages 1 [""]) ].

(** The PDF files of a listing, in its order. *)
Definition pdf_files (listing : list string) : list string :=
  List.filter (fun filename => PyStr.endswith (PyStr.lower_str filename) ".pdf") listing.

(** A reader that opens the second of two files only. *)
Definition second_only (path : string) : OcrPage.pdf :=
  if String.eqb path "pdfs/b.pdf" then OcrPage.Rendered ["scan"] else OcrPage.OpenRaises.

(** * Properties *)

(** ** Stripping and substitution *)

Section StringFacts.
Import PyStr.

Lemma rstrip_rstrip (s : string) : rstrip (rstrip s) = rstrip s.
Proof.
  induction s as [|c s IH]; simpl; [reflexivity|].
  destruct (rstrip s) as [|a r] eqn:Hr.
  - destruct (is_space c) eqn:Hc; simpl; [reflexivity|].
    rewrite Hc. reflexivity.
  - change (rstrip (String c (String a r))) with
      (match rstrip (String a r) with
       | EmptyString => if is_space c then EmptyString else String c EmptyString
       | r0 => String c r0
       end).
    rewrite IH. reflexivity.
Qed.

Lemma lstrip_head (s : string) :
  lstrip s = EmptyString \/
  exists c s', lstrip s = String c s' /\ is_space c = false.
Proof.
  induction s as [|c s IH]; simpl; [now left|].
  destruct (is_space c) eqn:Hc; [exact IH|].
  right. exists c, s. split; [reflexivity | exact Hc].
Qed.

Lemma rstrip_head (c : ascii) (s : string) :
  is_space c = false -> exists r, rstrip (String c s) = String c r.
Proof.
  intros Hc. simpl. destruct (rstrip s) as [|a r].
  - rewrite Hc. now exists EmptyString.
  - now exists (String a r).
Qed.

Lemma strip_strip (s : string) : strip (strip s) = strip s.
Proof.
  unfold strip.
  destruct (lstrip_head s) as [H | (c & s' & H & Hc)]; rewrite H.
  - reflexivity.
  - destruct (rstrip_head c s' Hc) as [r Hr].
    rewrite Hr. simpl lstrip. rewrite Hc. rewrite <- Hr. apply rstrip_rstrip.
Qed.

Lemma strip_all_space (s : string) : all_space s = true -> strip s = EmptyString.
Proof.
  unfold strip. induction s as [|c s IH]; simpl; [reflexivity|].
  intros H. apply andb_prop in H as [Hc Hs]. rewrite Hc. now apply IH.
Qed.

Lemma strip_not_all_space (s : string) :
  all_space s = false -> truthy (strip s) = true.
Proof.
  unfold strip. induction s as [|c s IH]; simpl; [discriminate|].
  destruct (is_space c) eqn:Hc; simpl; [exact IH|].
  intros _. destruct (rstrip s); [rewrite Hc|]; reflexivity.
Qed.

Lemma sub_from_no_match (r : Re.regex) (s : string) :
  forall prev, Re.search_from r prev s = None -> Re.sub_from r prev s 0 = s.
Proof.
  induction s as [|c s IH]; intros prev H; simpl in *; [reflexivity|].
  destruct (Re.match_at r prev (String c s)); [discriminate|].
  f_equal. now apply IH.
Qed.

Lemma sub_empty_no_match (r : Re.regex) (s : string) :
  Re.search r s = None -> Re.sub_empty r s = s.
Proof. apply sub_from_no_match. Qed.

End StringFacts.

(** ** The response sanitizer *)

Section Sanitizer.
Import LlmEvaluation.

Lemma strip_pattern_no_match (p : Re.regex) (t : string) :
  Re.search p t = None -> strip_pattern t p = PyStr.strip t.
Proof. intros H. unfold strip_pattern. now rewrite sub_empty_no_match. Qed.

Lemma fold_strip_pattern_no_match (ps : list Re.regex) :
  forall t,
    Forall (fun p => Re.search p t = None) ps ->
    Forall (fun p => Re.search p (PyStr.strip t) = None) ps ->
    fold_left strip_pattern ps t = match ps with [] => t | _ => PyStr.strip t end.
Proof.
  induction ps as [|p ps IH]; intros t H1 H2; [reflexivity|].
  inversion H1 as [|? ? Hp H1']; subst. inversion H2 as [|? ? Hq H2']; subst.
  simpl. rewrite (strip_pattern_no_match p t Hp).
  rewrite IH.
  - destruct ps; [reflexivity | apply strip_strip].
  - exact H2'.
  - now rewrite strip_strip.
Qed.

Lemma clean_response_no_match (x : string) :
  has_no_pattern x -> has_no_pattern (PyStr.strip x) ->
  clean_response x = PyStr.strip x.
Proof.
  unfold has_no_pattern. intros H1 H2.
  apply Forall_app in H1 as [H1p H1s]. apply Forall_app in H2 as [H2p H2s].
  unfold clean_response. destruct x as [|c x]; [reflexivity|].
  cbn [PyStr.truthy].
  rewrite (fold_strip_pattern_no_match prefixes _ H1p H2p).
  cbn [prefixes].
  rewrite (fold_strip_pattern_no_match suffixes).
  - cbn [suffixes]. apply strip_strip.
  - exact H2s.
  - now rewrite strip_strip.
Qed.

Lemma clean_response_stripped (x : string) :
  PyStr.strip (clean_response x) = clean_response x.
Proof.
  unfold clean_response. destruct (PyStr.truthy x); [|reflexivity].
  cbn [suffixes fold_left]. unfold strip_pattern at 1. apply strip_strip.
Qed.

End Sanitizer.

(** C8, as stated, fails: the text [" hi"] contains none of the patterns and
    is returned without its leading space. *)
Lemma clean_response_not_identity :
  has_no_pattern " hi" /\ LlmEvaluation.clean_response " hi" <> " hi".
Proof.
  split.
  - unfold has_no_pattern. repeat constructor.
  - vm_compute. discriminate.
Qed.

(** C8, amended: for every text that contains none of the leading-phrase or
    trailing-phrase patterns, before and after its surrounding whitespace is
    removed, [clean_response] returns the text stripped of its surrounding
    whitespace. *)
Theorem clean_response_without_patterns (x : string) :
  has_no_pattern x -> has_no_pattern (PyStr.strip x) ->
  LlmEvaluation.clean_response x = PyStr.strip x.
Proof. apply clean_response_no_match. Qed.

Lemma clean_response_without_patterns_witness :
  has_no_pattern " hi" /\ has_no_pattern (PyStr.strip " hi") /\
  LlmEvaluation.clean_response " hi" = "hi".
Proof.
  assert (H1 : has_no_pattern " hi") by (unfold has_no_pattern; repeat constructor).
  assert (H2 : has_no_pattern (PyStr.strip " hi")) by (unfold has_no_pattern; repeat constructor).
  split; [exact H1 | split; [exact H2|]].
  exact (clean_response_without_patterns " hi" H1 H2).
Defined.

(** Stripping can uncover a leading phrase: the second hypothesis of the
    amended C8 is needed. *)
Example clean_response_uncovers_prefix :
  has_no_pattern " Translation:" /\
  LlmEvaluation.clean_response " Translation:" = "".
Proof.
  split; [unfold has_no_pattern; repeat constructor | reflexivity].
Qed.

(** C9, as stated, fails: each pattern is removed in one pass, so a phrase
    uncovered by the removal of another one stays until the next call. *)
Lemma clean_response_not_idempotent :
  LlmEvaluation.clean_response "Translation: Translation: hi" = "Translation: hi" /\
  LlmEvaluation.clean_response
    (LlmEvaluation.clean_response "Translation: Translation: hi") = "hi" /\
  LlmEvaluation.clean_response
    (LlmEvaluation.clean_response "Translation: Translation: hi")
  <> LlmEvaluation.clean_response "Translation: Translation: hi".
Proof. repeat split; try reflexivity. vm_compute. discriminate. Qed.

(** C9, amended: for every text [x] whose cleaned form contains none of the
    patterns, cleaning again changes nothing:
    [clean(clean(x)) = clean(x)]. *)
Theorem clean_response_idempotent_when_clean (x : string) :
  has_no_pattern (LlmEvaluation.clean_response x) ->
  LlmEvaluation.clean_response (LlmEvaluation.clean_response x)
  = LlmEvaluation.clean_response x.
Proof.
  intros H.
  rewrite clean_response_no_match.
  - apply clean_response_stripped.
  - exact H.
  - now rewrite clean_response_stripped.
Qed.

Lemma clean_response_idempotent_when_clean_witness :
  has_no_pattern (LlmEvaluation.clean_response "Translation: hi Note: x") /\
  LlmEvaluation.clean_response (LlmEvaluation.clean_response "Translation: hi Note: x")
  = LlmEvaluation.clean_response "Translation: hi Note: x".
Proof.
  assert (H : has_no_pattern (LlmEvaluation.clean_response "Translation: hi Note: x"))
    by (unfold has_no_pattern; repeat constructor).
  split; [exact H|].
  exact (clean_response_idempotent_when_clean "Translation: hi Note: x" H).
Defined.

(** ** The format adapter *)

Section KeyOrder.
Import Py.

Lemma ascii_compare_N a b : Ascii.compare a b = N.compare (N_of_ascii a) (N_of_ascii b).
Proof. reflexivity. Qed.

Lemma str_le_trans : forall a b c, str_le a b -> str_le b c -> str_le a c.
Proof.
  unfold str_le, String.leb.
  induction a as [|x a IH]; intros [|y b] [|z c]; simpl; try congruence.
  rewrite !ascii_compare_N.
  destruct (N.compare_spec (N_of_ascii x) (N_of_ascii y)) as [Hxy|Hxy|Hxy];
    destruct (N.compare_spec (N_of_ascii y) (N_of_ascii z)) as [Hyz|Hyz|Hyz];
    destruct (N.compare_spec (N_of_ascii x) (N_of_ascii z)) as [Hxz|Hxz|Hxz];
    try congruence; try lia.
  apply IH.
Qed.

#[local] Instance str_le_transitive : Transitive str_le.
Proof. intros a b c. apply str_le_trans. Qed.

#[local] Instance str_le_antisym : AntiSymm (=) str_le.
Proof. intros a b Hab Hba. now apply String.leb_antisym. Qed.

Lemma str_le_total a b : str_le a b \/ str_le b a.
Proof. apply String.leb_total. Qed.

Lemma insert_sorted_perm k l : Permutation (PyStr.insert_sorted k l) (k :: l).
Proof.
  induction l as [|x l IH]; simpl; [reflexivity|].
  destruct (String.leb k x); [reflexivity|].
  rewrite IH. apply perm_swap.
Qed.

Lemma insert_sorted_sorted k l :
  Sorted str_le l -> Sorted str_le (PyStr.insert_sorted k l).
Proof.
  induction l as [|x l IH]; intros Hs; simpl.
  - repeat constructor.
  - destruct (String.leb k x) eqn:Hkx.
    + constructor; [exact Hs|]. constructor. exact Hkx.
    + inversion Hs as [|? ? Hl Hhd]; subst.
      constructor; [apply IH, Hl|].
      assert (Hxk : str_le x k).
      { destruct (str_le_total k x) as [H|H]; [unfold str_le in H; congruence | exact H]. }
      destruct l as [|y l]; simpl.
      * constructor. exact Hxk.
      * destruct (String.leb k y); constructor; [exact Hxk|].
        inversion Hhd; subst. assumption.
Qed.

Lemma sorted_perm l : Permutation (PyStr.sorted l) l.
Proof.
  induction l as [|k l IH]; simpl; [reflexivity|].
  rewrite insert_sorted_perm. now constructor.
Qed.

Lemma sorted_sorted l : Sorted str_le (PyStr.sorted l).
Proof.
  induction l as [|k l IH]; simpl; [constructor|]. now apply insert_sorted_sorted.
Qed.

Lemma sorted_permutation l1 l2 :
  Permutation l1 l2 -> PyStr.sorted l1 = PyStr.sorted l2.
Proof.
  intros Hp. apply (Sorted_unique str_le).
  - apply sorted_sorted.
  - apply sorted_sorted.
  - rewrite !sorted_perm. exact Hp.
Qed.

Lemma assoc_permutation kvs1 kvs2 :
  Permutation kvs1 kvs2 -> NoDup (map fst kvs1) ->
  forall k, assoc k kvs1 = assoc k kvs2.
Proof.
  induction 1 as [|[k1 v1] l1 l2 Hp IH|[k1 v1] [k2 v2] l|l1 l2 l3 Hp1 IH1 Hp2 IH2];
    intros Hnd k; simpl.
  - reflexivity.
  - inversion Hnd; subst. destruct (String.eqb k k1); [reflexivity | now apply IH].
  - inversion Hnd as [|? ? Hin Hnd']; subst.
    destruct (String.eqb_spec k k2) as [H2|H2]; destruct (String.eqb_spec k k1) as [H1|H1];
      try reflexivity.
    exfalso. apply Hin. replace k2 with k1 by congruence. left.
  - rewrite IH1 by exact Hnd. apply IH2.
    assert (Hp' : Permutation (map fst l1) (map fst l2)) by now apply Permutation_map.
    rewrite <- Hp'. exact Hnd.
Qed.

Lemma keyed_segments_ext E kvs1 kvs2 :
  (forall k, assoc k kvs1 = assoc k kvs2) ->
  forall keys acc,
    LlmEvaluation.keyed_segments E kvs1 keys acc
    = LlmEvaluation.keyed_segments E kvs2 keys acc.
Proof.
  intros Ha. induction keys as [|key rest IH]; intros acc; simpl; [reflexivity|].
  destruct (negb _); [|apply IH]. rewrite Ha. destruct (assoc key kvs2); apply IH.
Qed.

Lemma text_segments_key_order (E : env) (kvs1 kvs2 : list (string * json)) :
  NoDup (map fst kvs1) -> Permutation kvs1 kvs2 ->
  LlmEvaluation.text_segments E (JObj kvs1) = LlmEvaluation.text_segments E (JObj kvs2).
Proof.
  intros Hnd Hp.
  pose proof (assoc_permutation kvs1 kvs2 Hp Hnd) as Ha.
  assert (Hk : PyStr.sorted (map fst kvs1) = PyStr.sorted (map fst kvs2))
    by (apply sorted_permutation; now apply Permutation_map).
  unfold LlmEvaluation.text_segments.
  rewrite <- !Ha, <- Hk.
  rewrite (keyed_segments_ext E kvs1 kvs2 Ha).
  reflexivity.
Qed.
Lemma filter_strongly_sorted (f : string -> bool) l :
  StronglySorted str_le l -> StronglySorted str_le (List.filter f l).
Proof.
  induction 1 as [|x l Hl IH Hx]; simpl; [constructor|].
  destruct (f x); [|exact IH].
  constructor; [exact IH|].
  rewrite List.Forall_forall in *. intros y Hy. apply Hx.
  apply List.filter_In in Hy. tauto.
Qed.

Lemma filter_sorted (f : string -> bool) l :
  Sorted str_le l -> Sorted str_le (List.filter f l).
Proof.
  intros H. apply StronglySorted_Sorted, filter_strongly_sorted.
  now apply Sorted_StronglySorted; [apply str_le_transitive|].
Qed.

Lemma filter_permutation (f : string -> bool) l1 l2 :
  Permutation l1 l2 -> Permutation (List.filter f l1) (List.filter f l2).
Proof.
  induction 1 as [|x l1 l2 Hp IH|x y l|l1 l2 l3 Hp1 IH1 Hp2 IH2]; simpl.
  - reflexivity.
  - destruct (f x); [now constructor|exact IH].
  - destruct (f x), (f y); try reflexivity. apply perm_swap.
  - now rewrite IH1.
Qed.

Lemma assoc_in k kvs : In k (map fst kvs) -> exists v, assoc k kvs = Some v.
Proof.
  induction kvs as [|[k' v'] kvs IH]; simpl; [tauto|].
  intros [->|Hin].
  - rewrite String.eqb_refl. now exists v'.
  - destruct (String.eqb k k'); [now exists v'|now apply IH].
Qed.

Lemma keyed_segments_spec E kvs : forall keys acc,
  (forall k, In k keys -> In k (map fst kvs)) ->
  LlmEvaluation.keyed_segments E kvs keys acc
  = acc ++ map (str_at E kvs) (List.filter page_key keys).
Proof.
  induction keys as [|key rest IH]; intros acc Hin.
  - simpl. now rewrite app_nil_r.
  - cbn [LlmEvaluation.keyed_segments List.filter].
    change (negb (existsb (String.eqb key) LlmEvaluation.reserved_keys)) with (page_key key).
    destruct (page_key key).
    + destruct (assoc_in key kvs (Hin key (or_introl eq_refl))) as (v & Hv).
      rewrite Hv, IH by (intros k Hk; apply Hin; now right).
      cbn [map]. unfold str_at at 2. rewrite Hv. now rewrite <- app_assoc.
    + apply IH. intros k Hk. apply Hin. now right.
Qed.

(** The keyed-pages branch: the page identifiers in sorted order. *)
Lemma text_segments_keyed E kvs :
  assoc "document" kvs = None ->
  (forall items, assoc "content" kvs <> Some (JList items)) ->
  exists keys,
    Sorted str_le keys /\
    Permutation keys (List.filter page_key (map fst kvs)) /\
    LlmEvaluation.text_segments E (JObj kvs) = Ret (map (str_at E kvs) keys).
Proof.
  intros Hdoc Hcontent.
  exists (List.filter page_key (PyStr.sorted (map fst kvs))).
  split; [apply filter_sorted, sorted_sorted|].
  split; [apply filter_permutation, sorted_perm|].
  unfold LlmEvaluation.text_segments. rewrite Hdoc.
  assert (Hk : LlmEvaluation.keyed_segments E kvs (PyStr.sorted (map fst kvs)) []
               = map (str_at E kvs) (List.filter page_key (PyStr.sorted (map fst kvs)))).
  { rewrite keyed_segments_spec; [reflexivity|].
    intros k Hk. pose proof (sorted_perm (map fst kvs)) as Hp.
    eapply Permutation_in; [exact Hp|exact Hk]. }
  destruct (assoc "content" kvs) as [[| | | |items|]|]; try (now rewrite Hk).
  exfalso. now apply (Hcontent items).
Qed.

Lemma pages_segments_contents E : forall contents acc,
  LlmEvaluation.pages_segments E (map (fun c => JObj [("content", JStr c)]) contents) acc
  = Ret (acc ++ contents).
Proof.
  induction contents as [|c rest IH]; intros acc; simpl.
  - now rewrite app_nil_r.
  - rewrite IH, <- app_assoc. reflexivity.
Qed.

Lemma content_segments_strings E : forall xs acc,
  LlmEvaluation.content_segments E (map JStr xs) acc = acc ++ xs.
Proof.
  induction xs as [|x rest IH]; intros acc; simpl.
  - now rewrite app_nil_r.
  - rewrite IH, <- app_assoc. reflexivity.
Qed.
End KeyOrder.

(** C7: [extract_text_from_json] on a file holding one of the four known
    shapes returns the segments listed for it:
    [{"document":{"pages":[{"content":"a"},{"content":"b"}]}}] gives
    [["a","b"]], [{"content":["x","y"]}] gives [["x","y"]],
    [{"p1":"a","p2":"b","total_pages":2}] gives [["a","b"]] and [[1,2]] gives
    [["1","2"]].  So it is for every file of these shapes: a document whose
    pages each hold a text under ["content"] gives the texts in the order of
    the pages; a ["content"] list of strings gives the strings; an object
    without ["document"] and without a ["content"] list gives [str] of the
    values of its keys other than ["total_pages"], ["content"],
    ["document"] and ["metadata"], the keys taken in sorted order; and a
    list gives [str] of its items. *)
Theorem extract_text_from_json_known_shapes
    (E : Py.env) (filepath text : string) (w : Py.world) (data : Py.json) :
  Py.files w !! filepath = Some text ->
  Py.json_loads E text = Some data ->
  (forall segments,
     In (data, segments) known_shapes ->
     LlmEvaluation.extract_text_from_json E filepath w = (Py.Ret segments, w)) /\
  (forall contents,
     data = Py.JObj [("document",
              Py.JObj [("pages",
                 Py.JList (map (fun c => Py.JObj [("content", Py.JStr c)]) contents))])] ->
     LlmEvaluation.extract_text_from_json E filepath w = (Py.Ret contents, w)) /\
  (forall items,
     data = Py.JObj [("content", Py.JList (map Py.JStr items))] ->
     LlmEvaluation.extract_text_from_json E filepath w = (Py.Ret items, w)) /\
  (forall kvs,
     data = Py.JObj kvs ->
     Py.assoc "document" kvs = None ->
     (forall items, Py.assoc "content" kvs <> Some (Py.JList items)) ->
     exists keys,
       Sorted str_le keys /\
       Permutation keys (List.filter page_key (map fst kvs)) /\
       LlmEvaluation.extract_text_from_json E filepath w
       = (Py.Ret (map (str_at E kvs) keys), w)) /\
  (forall items,
     data = Py.JList items ->
     LlmEvaluation.extract_text_from_json E filepath w
     = (Py.Ret (map (LlmEvaluation.str E) items), w)) /\
  (forall numbers,
     data = Py.JList (map Py.JNum numbers) ->
     LlmEvaluation.extract_text_from_json E filepath w
     = (Py.Ret (map PyStr.str_of_Z numbers), w)).
Proof.
  intros Hfile Hload.
  assert (Hread : forall segments,
            LlmEvaluation.text_segments E data = Py.Ret segments ->
            LlmEvaluation.extract_text_from_json E filepath w = (Py.Ret segments, w)).
  { intros segments Hseg.
    unfold LlmEvaluation.extract_text_from_json, Py.try_except, Py.bind, Py.read_json.
    rewrite Hfile, Hload. unfold Py.lift. now rewrite Hseg. }
  split; [|split; [|split; [|split; [|split]]]].
  - intros segments Hin. apply Hread. simpl in Hin.
    destruct Hin as [H | [H | [H | [H | []]]]]; inversion H; subst; reflexivity.
  - intros contents ->. apply Hread.
    cbn [LlmEvaluation.text_segments Py.assoc String.eqb Ascii.eqb Bool.eqb
         Py.contains Py.getitem Py.iter].
    apply (pages_segments_contents E contents []).
  - intros items ->. apply Hread.
    cbn [LlmEvaluation.text_segments Py.assoc String.eqb Ascii.eqb Bool.eqb].
    now rewrite (content_segments_strings E items []).
  - intros kvs -> Hdoc Hcontent.
    destruct (text_segments_keyed E kvs Hdoc Hcontent) as (keys & Hs & Hp & Hseg).
    exists keys. split; [exact Hs|]. split; [exact Hp|]. now apply Hread.
  - intros items ->. now apply Hread.
  - intros numbers ->. apply Hread. cbn [LlmEvaluation.text_segments].
    now rewrite map_map.
Qed.

Lemma extract_text_from_json_known_shapes_witness :
  Py.files (Py.start 0 {[ "data/in.json" := show_json keyed_pages ]}) !! "data/in.json"
  = Some (show_json keyed_pages) /\
  Py.json_loads (demo_env flaky_model [keyed_pages]) (show_json keyed_pages)
  = Some keyed_pages /\
  In (keyed_pages, ["a"; "b"]) known_shapes /\
  LlmEvaluation.extract_text_from_json (demo_env flaky_model [keyed_pages]) "data/in.json"
    (Py.start 0 {[ "data/in.json" := show_json keyed_pages ]})
  = (Py.Ret ["a"; "b"], Py.start 0 {[ "data/in.json" := show_json keyed_pages ]}) /\
  exists keys,
    Sorted str_le keys /\
    Permutation keys ["p1"; "p2"] /\
    LlmEvaluation.extract_text_from_json (demo_env flaky_model [keyed_pages]) "data/in.json"
      (Py.start 0 {[ "data/in.json" := show_json keyed_pages ]})
    = (Py.Ret (map (str_at (demo_env flaky_model [keyed_pages])
                      [("p1", Py.JStr "a"); ("p2", Py.JStr "b"); ("total_pages", Py.JNum 2)])
                 keys),
       Py.start 0 {[ "data/in.json" := show_json keyed_pages ]}).
Proof.
  assert (H1 : In (keyed_pages, ["a"; "b"]) known_shapes) by (simpl; tauto).
  assert (H2 : Py.files (Py.start 0 {[ "data/in.json" := show_json keyed_pages ]})
               !! "data/in.json" = Some (show_json keyed_pages))
    by apply lookup_singleton_eq.
  assert (H3 : Py.json_loads (demo_env flaky_model [keyed_pages]) (show_json keyed_pages)
               = Some keyed_pages) by reflexivity.
  split; [exact H2|]. split; [exact H3|]. split; [exact H1|].
  destruct (extract_text_from_json_known_shapes _ _ _ _ _ H2 H3)
    as (Hknown & _ & _ & Hkeyed & _).
  split; [exact (Hknown _ H1)|].
  apply (Hkeyed _ eq_refl eq_refl). intros items. discriminate.
Defined.

(** An object whose keys the file lists out of order, with a reserved key
    among them, and an object whose ["content"] is not a list. *)
Example extract_text_from_json_unsorted :
  LlmEvaluation.extract_text_from_json
    (demo_env flaky_model
       [Py.JObj [("p2", Py.JStr "b"); ("metadata", Py.JStr "m"); ("p10", Py.JStr "c");
                 ("p1", Py.JStr "a")]])
    "data/in.json"
    (Py.start 0 {[ "data/in.json" :=
       show_json (Py.JObj [("p2", Py.JStr "b"); ("metadata", Py.JStr "m");
                           ("p10", Py.JStr "c"); ("p1", Py.JStr "a")]) ]})
  = (Py.Ret ["a"; "c"; "b"],
     Py.start 0 {[ "data/in.json" :=
       show_json (Py.JObj [("p2", Py.JStr "b"); ("metadata", Py.JStr "m");
                           ("p10", Py.JStr "c"); ("p1", Py.JStr "a")]) ]}) /\
  LlmEvaluation.text_segments (demo_env flaky_model [])
    (Py.JObj [("b", Py.JNum 2); ("content", Py.JStr "text"); ("a", Py.JNum 1)])
  = Py.Ret ["1"; "2"].
Proof. split; vm_compute; reflexivity. Qed.

(** The keys of a flat object are taken in sorted order, whatever order the
    file lists them in. *)
Example extract_text_from_json_sorts_keys (E : Py.env) :
  LlmEvaluation.text_segments E
    (Py.JObj [("p2", Py.JStr "b"); ("total_pages", Py.JNum 2); ("p1", Py.JStr "a")])
  = Py.Ret ["a"; "b"].
Proof. reflexivity. Qed.

(** ** Floats and delays *)

Section FloatFacts.
Import PyFloat.
Local Open Scope Q_scope.

Lemma two_pos e : 0 < two e.
Proof. apply Qpower_0_lt. reflexivity. Qed.

Lemma two_plus a b : two (a + b) == two a * two b.
Proof. apply Qpower_plus. discriminate. Qed.

Lemma two_le a b : (a <= b)%Z -> two a <= two b.
Proof. intros H. apply Qpower_le_compat_l; [exact H|]. discriminate. Qed.

Lemma two_lt a b : (a < b)%Z -> two a < two b.
Proof. intros H. apply Qpower_lt_compat_l; [exact H|]. reflexivity. Qed.

Lemma two_Z k : (0 <= k)%Z -> two k == inject_Z (2 ^ k).
Proof. intros H. unfold two. rewrite Zpower_Qpower by exact H. reflexivity. Qed.

Lemma round_half_even_ge (x : Q) (lo : Z) : inject_Z lo <= x -> (lo <= round_half_even x)%Z.
Proof.
  intros H. apply Qfloor_resp_le in H. rewrite Qfloor_Z in H.
  unfold round_half_even. destruct (_ ?= _); [destruct (Z.even _)| |]; lia.
Qed.

Lemma round_half_even_le (x : Q) (hi : Z) : x <= inject_Z hi -> (round_half_even x <= hi)%Z.
Proof.
  intros H. unfold round_half_even.
  pose proof (Qfloor_le x) as Hf.
  assert (Hle : (Qfloor x <= hi)%Z) by (rewrite Zle_Qle; lra).
  destruct (Qcompare_spec (x - inject_Z (Qfloor x)) (1 # 2)) as [He|Hl|Hg].
  - assert (Hne : (Qfloor x < hi)%Z).
    { destruct (Z.eq_dec (Qfloor x) hi) as [Heq|]; [|lia].
      exfalso. rewrite Heq in He, Hf. lra. }
    destruct (Z.even _); lia.
  - exact Hle.
  - assert (Hne : (Qfloor x < hi)%Z).
    { destruct (Z.eq_dec (Qfloor x) hi) as [Heq|]; [|lia].
      exfalso. rewrite Heq in Hg, Hf. lra. }
    lia.
Qed.

Lemma log2_floor_spec (q : Q) : 0 < q -> two (log2_floor q) <= q /\ q < two (log2_floor q + 1).
Proof.
  intros Hq. destruct q as [n d].
  assert (Hn : (0 < n)%Z) by (unfold Qlt in Hq; simpl in Hq; lia).
  unfold log2_floor. cbn [Qnum Qden].
  set (ln := Z.log2 n). set (ld := Z.log2 (Z.pos d)).
  pose proof (Z.log2_spec n Hn) as [Hn1 Hn2]. fold ln in Hn1, Hn2.
  pose proof (Z.log2_spec (Z.pos d) eq_refl) as [Hd1 Hd2]. fold ld in Hd1, Hd2.
  assert (Hln : (0 <= ln)%Z) by apply Z.log2_nonneg.
  assert (Hld : (0 <= ld)%Z) by apply Z.log2_nonneg.
  assert (Hq' : n # d == inject_Z n / inject_Z (Z.pos d)) by apply Qmake_Qdiv.
  assert (Hdpos : 0 < inject_Z (Z.pos d)) by reflexivity.
  rewrite Zle_Qle, <- two_Z in Hn1 by lia.
  rewrite Zlt_Qlt, <- two_Z in Hn2 by lia.
  rewrite Zle_Qle, <- two_Z in Hd1 by lia.
  rewrite Zlt_Qlt, <- two_Z in Hd2 by lia.
  pose proof (two_pos ld) as Pld. pose proof (two_pos (ln - ld)) as Pl.
  pose proof (two_pos (ln - ld - 1)) as Pl1. pose proof (two_pos (ln - ld + 1)) as Pl2.
  assert (E1 : two ln == two (ln - ld) * two ld) by (rewrite <- two_plus; f_equiv; lia).
  assert (E2 : two (Z.succ ln) == two (ln - ld + 1) * two ld)
    by (rewrite <- two_plus; f_equiv; lia).
  assert (E3 : two ln == two (ln - ld - 1) * two (Z.succ ld))
    by (rewrite <- two_plus; f_equiv; lia).
  set (x := n # d) in *.
  assert (Hx : x * inject_Z (Z.pos d) == inject_Z n).
  { rewrite Hq'. field. discriminate. }
  destruct (Qle_bool (two (ln - ld)) x) eqn:Ht.
  - apply Qle_bool_iff in Ht. split; [exact Ht|].
    (* x < two (l+1): x * d = n < 2^(ln+1) = two(l+1) * two ld <= two (l+1) * d *)
    apply Qnot_le_lt. intros Hc.
    assert (two (ln - ld + 1) * two ld <= x * inject_Z (Z.pos d)).
    { apply Qmult_le_compat_nonneg; split; lra. }
    lra.
  - assert (Hlt : x < two (ln - ld)).
    { apply Qnot_le_lt. intros Hc. apply Qle_bool_iff in Hc. congruence. }
    replace (ln - ld - 1 + 1)%Z with (ln - ld)%Z by lia. split; [|exact Hlt].
    apply Qnot_lt_le. intros Hc.
    assert (x * inject_Z (Z.pos d) <= two (ln - ld - 1) * inject_Z (Z.pos d))
      by (apply Qmult_le_compat_r; lra).
    assert (two (ln - ld - 1) * inject_Z (Z.pos d) < two (ln - ld - 1) * two (Z.succ ld))
      by (apply Qmult_lt_l; lra).
    lra.
Qed.

Lemma round_pos_ge_two (q : Q) (k : Z) :
  (-1022 <= k <= 1024)%Z -> two k <= q -> two k <= round_pos q.
Proof.
  intros Hk Hq. assert (Hpos : 0 < q) by (pose proof (two_pos k); lra).
  destruct (log2_floor_spec q Hpos) as [HL1 HL2].
  set (L := log2_floor q) in *.
  assert (HL : (k <= L)%Z).
  { destruct (Z_le_gt_dec k L) as [|Hneg]; [assumption|].
    exfalso. assert (two (L + 1) <= two k) by (apply two_le; lia). lra. }
  unfold round_pos. fold L.
  replace (Z.max (L - 52) (-1074)) with (L - 52)%Z by lia.
  set (e := (L - 52)%Z).
  set (m := round_half_even (q / two e)).
  assert (Hm : (2 ^ 52 <= m)%Z).
  { apply round_half_even_ge. rewrite <- two_Z by lia.
    pose proof (two_pos e) as Pe.
    apply Qle_shift_div_l; [exact Pe|]. rewrite <- two_plus.
    replace (52 + e)%Z with L by (unfold e; lia). exact HL1. }
  assert (Hr : two k <= inject_Z m * two e).
  { rewrite Zle_Qle, <- two_Z in Hm by lia.
    pose proof (two_pos e) as Pe.
    assert (two 52 * two e <= inject_Z m * two e) by (apply Qmult_le_compat_r; lra).
    rewrite <- two_plus in H. replace (52 + e)%Z with L in H by (unfold e; lia).
    assert (two k <= two L) by (apply two_le; lia). lra. }
  destruct (Qle_bool _ _).
  - apply two_le. lia.
  - rewrite Qred_correct. exact Hr.
Qed.

Lemma round_pos_ge_1 (q : Q) : 1 <= q -> 1 <= round_pos q.
Proof. intros Hq. apply (round_pos_ge_two q 0); [lia|exact Hq]. Qed.

Lemma round_pos_le_two (q : Q) (k : Z) :
  0 < q -> (-1074 <= k)%Z -> q <= two k -> round_pos q <= two k.
Proof.
  intros Hpos Hk Hq.
  destruct (log2_floor_spec q Hpos) as [HL1 HL2].
  set (L := log2_floor q) in *.
  assert (HL : (L <= k)%Z).
  { destruct (Z_le_gt_dec L k) as [|Hgt]; [assumption|].
    exfalso. assert (two (k + 1) <= two L) by (apply two_le; lia).
    assert (two k < two (k + 1)) by (apply two_lt; lia). lra. }
  unfold round_pos. fold L.
  set (e := Z.max (L - 52) (-1074)).
  assert (He : (e <= k)%Z) by (unfold e; lia).
  set (m := round_half_even (q / two e)).
  pose proof (two_pos e) as Pe.
  assert (Hm : (m <= 2 ^ (k - e))%Z).
  { apply round_half_even_le. rewrite <- two_Z by lia.
    apply Qle_shift_div_r; [exact Pe|]. rewrite <- two_plus.
    replace (k - e + e)%Z with k by lia. exact Hq. }
  assert (Hr : inject_Z m * two e <= two k).
  { rewrite Zle_Qle, <- two_Z in Hm by lia.
    assert (inject_Z m * two e <= two (k - e) * two e) by (apply Qmult_le_compat_r; lra).
    rewrite <- two_plus in H. replace (k - e + e)%Z with k in H by lia. exact H. }
  destruct (Qle_bool inf _) eqn:Hinf.
  - apply Qle_bool_iff in Hinf. rewrite Qred_correct in Hinf. unfold inf in *. lra.
  - rewrite Qred_correct. exact Hr.
Qed.

Lemma round_pos_nonneg (q : Q) : 0 < q -> 0 <= round_pos q.
Proof.
  intros Hpos. unfold round_pos.
  set (e := Z.max _ _). pose proof (two_pos e) as Pe.
  assert (Hm : (0 <= round_half_even (q / two e))%Z).
  { apply round_half_even_ge. apply Qle_shift_div_l; [exact Pe|].
    change (inject_Z 0) with 0. lra. }
  destruct (Qle_bool _ _).
  - apply Qlt_le_weak, two_pos.
  - rewrite Qred_correct. apply Qmult_le_0_compat; [|lra].
    rewrite Zle_Qle in Hm. exact Hm.
Qed.

Lemma round_ge_1 (q : Q) : 1 <= q -> 1 <= round q.
Proof.
  intros Hq. unfold round.
  destruct (Qcompare_spec q 0) as [H|H|H]; [lra|lra|].
  now apply round_pos_ge_1.
Qed.

Lemma round_ge_two (q : Q) (k : Z) :
  (-1022 <= k <= 1024)%Z -> two k <= q -> two k <= round q.
Proof.
  intros Hk Hq. pose proof (two_pos k). unfold round.
  destruct (Qcompare_spec q 0) as [H0|H0|H0]; [lra|lra|].
  now apply round_pos_ge_two.
Qed.

Lemma round_nonneg (q : Q) : 0 <= q -> 0 <= round q.
Proof.
  intros Hq. unfold round.
  destruct (Qcompare_spec q 0) as [H|H|H]; [lra|lra|].
  now apply round_pos_nonneg.
Qed.

Lemma round_le_two (q : Q) (k : Z) :
  0 <= q -> (-1074 <= k)%Z -> q <= two k -> round q <= two k.
Proof.
  intros Hq Hk Hle. unfold round.
  destruct (Qcompare_spec q 0) as [H|H|H]; [|lra|].
  - apply Qlt_le_weak, two_pos.
  - now apply round_pos_le_two.
Qed.
End FloatFacts.

Section Delays.
Import Py.

Lemma float_digits_nonneg s : forall num den frac,
  (0 <= num)%Z -> (0 <= OcrPage.float_digits s num den frac)%Q.
Proof.
  induction s as [|c s IH]; intros num den frac Hnum; simpl.
  - unfold Qle. simpl. lia.
  - destruct (PyStr.is_digit c); apply IH; lia.
Qed.

Lemma float_nonneg s : (0 <= OcrPage.float s)%Q.
Proof. apply round_nonneg, float_digits_nonneg. lia. Qed.

Lemma pow2_ge_1 n : (1 <= 2 ^ Z.of_nat n)%Z.
Proof. pose proof (Z.pow_pos_nonneg 2 (Z.of_nat n)). lia. Qed.

Lemma capped_backoff_bounds attempt :
  (2 <= capped_backoff attempt <= 60)%Q.
Proof.
  unfold capped_backoff. split.
  - apply Q.min_glb; [unfold Qle; simpl; lia|].
    pose proof (pow2_ge_1 (attempt - 1)) as H.
    rewrite Zle_Qle in H.
    change (1 <= inject_Z (2 ^ Z.of_nat (attempt - 1)))%Q in H. lra.
  - apply Q.le_min_l.
Qed.

Lemma capped_backoff_mono a b : a <= b -> (capped_backoff a <= capped_backoff b)%Q.
Proof.
  intros Hab. unfold capped_backoff. apply Q.min_le_compat_l.
  assert (H : (2 ^ Z.of_nat (a - 1) <= 2 ^ Z.of_nat (b - 1))%Z)
    by (apply Z.pow_le_mono_r; lia).
  rewrite Zle_Qle in H. lra.
Qed.

Lemma ocr_sleep_seconds_positive attempt msg :
  (1 <= OcrPage.sleep_seconds attempt msg)%Q.
Proof.
  unfold OcrPage.sleep_seconds.
  destruct (OcrPage.search_please_retry msg) as [g|].
  - apply round_ge_1. pose proof (float_nonneg g). lra.
  - destruct (OcrPage.search_retry_delay msg) as [g|].
    + apply round_ge_1. pose proof (float_nonneg g). lra.
    + pose proof (capped_backoff_bounds attempt) as [H _].
      unfold capped_backoff in H. unfold OcrPage.backoff, OcrPage.base_backoff. lra.
Qed.

Lemma Qle_bool_false_intro x y : (y < x)%Q -> Qle_bool x y = false.
Proof.
  intros H. destruct (Qle_bool x y) eqn:Hb; [|reflexivity].
  apply Qle_bool_iff in Hb. lra.
Qed.

Lemma Qltb_false_intro x y : (y <= x)%Q -> Qltb x y = false.
Proof. intros H. unfold Qltb. apply Qle_bool_iff in H. now rewrite H. Qed.

(** A delay of up to [10^8] seconds is one [time.sleep] accepts. *)
Lemma sleep_refuses_small E t :
  (0 <= t)%Q -> (t <= 100000000)%Q -> sleep_refuses E t = None.
Proof.
  intros H0 H1. unfold sleep_refuses, PyFloat.mul.
  set (ns := PyFloat.round (t * 1000000000)).
  assert (Hlo : (0 <= ns)%Q) by (apply round_nonneg; lra).
  assert (Hhi : (ns <= PyFloat.two 57)%Q).
  { apply round_le_two; [lra|lia|].
    assert (100000000 * 1000000000 <= PyFloat.two 57)%Q by (vm_compute; discriminate).
    lra. }
  assert (H63 : (PyFloat.two 57 < inject_Z (2 ^ 63))%Q) by reflexivity.
  assert (Hn63 : (- inject_Z (2 ^ 63) < 0)%Q) by reflexivity.
  rewrite !Qltb_false_intro by lra. cbn [orb].
  apply Qle_bool_iff in H1. now rewrite H1.
Qed.

(** The three exceptions of a refused delay. *)
Lemma sleep_refuses_kinds E t e :
  sleep_refuses E t = Some e -> e = OverflowError \/ e = ValueError \/ e = OSError.
Proof.
  unfold sleep_refuses.
  destruct (_ || _); [intros [= <-]; now left|].
  destruct (Qltb t 0); [intros [= <-]; right; now left|].
  destruct (Qle_bool _ _); [discriminate|].
  destruct (long_sleep E t) as [[]|]; simpl; intros [= <-]; auto.
Qed.

Lemma sleep_refuses_Exception E t e : sleep_refuses E t = Some e -> is_Exception e = true.
Proof. intros H. now destruct (sleep_refuses_kinds E t e H) as [-> | [-> | ->]]. Qed.

(** A delay of [2^64] nanoseconds or more is refused on every platform. *)
Lemma sleep_refuses_large E t :
  (18446744074 <= t)%Q -> sleep_refuses E t = Some OverflowError.
Proof.
  intros H. unfold sleep_refuses, PyFloat.mul.
  set (ns := PyFloat.round (t * 1000000000)).
  assert (Hns : (PyFloat.two 64 <= ns)%Q).
  { apply round_ge_two; [lia|].
    assert (PyFloat.two 64 <= 18446744074 * 1000000000)%Q by (vm_compute; discriminate).
    lra. }
  assert (H63 : (inject_Z (2 ^ 63) < PyFloat.two 64)%Q) by reflexivity.
  assert (Hb : Qltb (inject_Z (2 ^ 63)) ns = true).
  { unfold Qltb. rewrite Qle_bool_false_intro by lra. reflexivity. }
  now rewrite Hb.
Qed.

Lemma backoff_accepted E attempt : sleep_refuses E (OcrPage.backoff attempt) = None.
Proof.
  pose proof (capped_backoff_bounds attempt) as [Hlo Hhi].
  apply sleep_refuses_small; unfold capped_backoff in *;
    unfold OcrPage.backoff, OcrPage.base_backoff; lra.
Qed.

(** Whether the delay taken from a message is accepted does not depend on
    the attempt: the attempt only enters the backoff. *)
Lemma sleep_refuses_any_attempt E a b msg :
  sleep_refuses E (OcrPage.sleep_seconds a msg)
  = sleep_refuses E (OcrPage.sleep_seconds b msg).
Proof.
  unfold OcrPage.sleep_seconds.
  destruct (OcrPage.search_please_retry msg); [reflexivity|].
  destruct (OcrPage.search_retry_delay msg); [reflexivity|].
  now rewrite !backoff_accepted.
Qed.

(** The delays the rate limiters and the translation loops ask for are
    accepted: [time.sleep] returns for them as [time_sleep] does. *)
Lemma limiter_sleep_accepted E (elapsed : Q) :
  (0 <= elapsed)%Q -> (elapsed < 5)%Q -> sleep_refuses E (5 - elapsed) = None.
Proof. intros H0 H1. apply sleep_refuses_small; lra. Qed.

Lemma capped_backoff_accepted E attempt : sleep_refuses E (capped_backoff attempt) = None.
Proof.
  pose proof (capped_backoff_bounds attempt) as [Hlo Hhi].
  apply sleep_refuses_small; lra.
Qed.

Lemma delays_accepted_demo model docs :
  (forall n p msg, model n p = Raises msg ->
     sleep_refuses (demo_env model docs) (OcrPage.sleep_seconds 1 msg) = None) ->
  delays_accepted (demo_env model docs).
Proof.
  intros H attempt n p msg Hg. rewrite (sleep_refuses_any_attempt _ attempt 1).
  exact (H n p msg Hg).
Qed.

Lemma delays_accepted_flaky docs : delays_accepted (demo_env flaky_model docs).
Proof.
  apply delays_accepted_demo. intros n p msg. unfold flaky_model.
  destruct (n <? 2)%nat; [|discriminate]. intros [= <-]. vm_compute. reflexivity.
Qed.

Lemma delays_accepted_quota docs : delays_accepted (demo_env quota_model docs).
Proof.
  apply delays_accepted_demo. intros n p msg [= <-]. vm_compute. reflexivity.
Qed.

Lemma delays_accepted_counting docs : delays_accepted (demo_env counting_model docs).
Proof. apply delays_accepted_demo. intros n p msg. discriminate. Qed.
End Delays.

(** ** The two patterns for a suggested delay *)

Section RegexFacts.
Import Re.
Local Open Scope string_scope.

Lemma string_app_cons c (a b : string) : (String c a ++ b) = String c (a ++ b).
Proof. reflexivity. Qed.


























End RegexFacts.

(** ** The rate limiter and one attempt of each retry loop *)

Section Attempts.
Import Py.

Lemma ocr_wait_frame E w :
  exists w', OcrPage.wait_for_rate_limit E w = (Ret tt, w') /\ calls w' = calls w
     /\ files w' = files w /\ posts w' = posts w.
Proof.
  unfold OcrPage.wait_for_rate_limit, bind, time_monotonic, get, modify, time_sleep.
  cbn [clock ticks last_request_time set_clock].
  destruct (Qltb _ _); eexists; (split; [reflexivity|]); repeat split.
Qed.

Lemma ocr_attempt_spec E image a w :
  exists w1, calls w1 = calls w /\ files w1 = files w /\ posts w1 = posts w /\
    OcrPage.ocr_attempt E image a w =
      match generate_content E (List.length (calls w)) (OcrPage.prompt image) with
      | Returns text => (Ret (Some text), log_call (OcrPage.prompt image) w1)
      | Raises msg =>
          match sleep_refuses E (OcrPage.sleep_seconds a msg) with
          | Some e => (Raise e, log_call (OcrPage.prompt image) w1)
          | None =>
              (Ret None, snd (time_sleep E (OcrPage.sleep_seconds a msg)
                                (log_call (OcrPage.prompt image) w1)))
          end
      end.
Proof.
  destruct (ocr_wait_frame E w) as (w1 & Hw & Hc & Hf & Hp).
  exists w1. repeat split; try assumption.
  unfold OcrPage.ocr_attempt, try_except, bind. rewrite Hw.
  unfold model_generate_content. rewrite Hc.
  destruct (generate_content E _ _) as [text|msg]; [reflexivity|].
  cbn [is_Exception str_of_exn]. unfold time_sleep_or_raise.
  destruct (sleep_refuses E _); reflexivity.
Qed.

Lemma tj_wait_frame E w :
  exists w', TranslateJson.wait_for_rate_limit E w = (Ret tt, w') /\ calls w' = calls w
     /\ files w' = files w /\ posts w' = posts w.
Proof.
  unfold TranslateJson.wait_for_rate_limit, bind, time_monotonic, get, modify, time_sleep.
  cbn [clock ticks last_request_time set_clock].
  destruct (Qltb _ _); eexists; (split; [reflexivity|]); repeat split.
Qed.

Lemma urdu_wait_frame E w :
  exists w', TranslateJsonUrdu.wait_for_rate_limit E w = (Ret tt, w') /\ calls w' = calls w
     /\ files w' = files w /\ posts w' = posts w.
Proof.
  unfold TranslateJsonUrdu.wait_for_rate_limit, bind, time_monotonic, get, modify,
    time_sleep, ret.
  cbn [clock ticks last_request_time set_clock].
  destruct (Qltb _ _); eexists; (split; [reflexivity|]); repeat split.
Qed.

Lemma tj_attempt_spec E text a w :
  exists w1, calls w1 = calls w /\ files w1 = files w /\ posts w1 = posts w /\
    TranslateJson.translate_attempt E text a w =
      match generate_content E (List.length (calls w)) (TranslateJson.prompt text) with
      | Returns out =>
          (Ret (if PyStr.truthy (PyStr.strip out) then Some (PyStr.strip out) else None),
           log_call (TranslateJson.prompt text) w1)
      | Raises msg =>
          (Ret None, snd (time_sleep E (TranslateJson.sleep_seconds a)
                            (log_call (TranslateJson.prompt text) w1)))
      end.
Proof.
  destruct (tj_wait_frame E w) as (w1 & Hw & Hc & Hf & Hp).
  exists w1. repeat split; try assumption.
  unfold TranslateJson.translate_attempt, try_except, bind. rewrite Hw.
  unfold model_generate_content. rewrite Hc.
  destruct (generate_content E _ _); [|reflexivity].
  destruct (PyStr.truthy _); reflexivity.
Qed.

Lemma urdu_attempt_spec E text a w :
  exists w1, calls w1 = calls w /\ files w1 = files w /\ posts w1 = posts w /\
    TranslateJsonUrdu.translate_attempt E text a w =
      match generate_content E (List.length (calls w)) (TranslateJsonUrdu.prompt text) with
      | Returns out =>
          (Ret (if PyStr.truthy (PyStr.strip out) then Some (PyStr.strip out) else None),
           log_call (TranslateJsonUrdu.prompt text) w1)
      | Raises msg =>
          (Ret None, snd (time_sleep E (TranslateJsonUrdu.sleep_time a)
                            (log_call (TranslateJsonUrdu.prompt text) w1)))
      end.
Proof.
  destruct (urdu_wait_frame E w) as (w1 & Hw & Hc & Hf & Hp).
  exists w1. repeat split; try assumption.
  unfold TranslateJsonUrdu.translate_attempt, try_except, bind. rewrite Hw.
  unfold model_generate_content. rewrite Hc.
  destruct (generate_content E _ _); [|reflexivity].
  destruct (PyStr.truthy _); reflexivity.
Qed.

Section RetryLoop.
Variable step : nat -> M (option string).
Variable terminal : string.
(** What the attempt that makes call number [n] returns. *)
Variable answer : nat -> option string.
Hypothesis step_spec : forall a w, exists w',
  step a w = (Ret (answer (List.length (calls w))), w') /\
  List.length (calls w') = S (List.length (calls w)) /\ files w' = files w.


Lemma retry_loop_exhausted : forall attempts w,
  (forall i, i < List.length attempts -> answer (List.length (calls w) + i) = None) ->
  exists w', retry_loop step terminal attempts w = (Ret terminal, w') /\
    List.length (calls w') = List.length (calls w) + List.length attempts /\ files w' = files w.
Proof.
  induction attempts as [|a rest IH]; intros w Hfail.
  - exists w. simpl. split; [reflexivity|]. split; [lia|reflexivity].
  - destruct (step_spec a w) as (w1 & Hs & Hc & Hf).
    destruct (IH w1) as (w' & Hr & Hc' & Hf').
    + intros i Hi. rewrite Hc. replace (S (List.length (calls w)) + i) with (List.length (calls w) + S i) by lia.
      apply Hfail. simpl. lia.
    + exists w'. simpl. unfold bind. rewrite Hs.
      rewrite <- (Nat.add_0_r (List.length (calls w))), Hfail by (simpl; lia).
      split; [exact Hr|]. split; [simpl; lia | congruence].
Qed.
End RetryLoop.

Section Retry.
Variable E : env.

Lemma tj_attempts_retry_loop text attempts w :
  TranslateJson.translate_attempts E text attempts w
  = retry_loop (TranslateJson.translate_attempt E text) "[Translation failed]" attempts w.
Proof.
  revert w. induction attempts as [|a rest IH]; intros w; simpl; [reflexivity|].
  unfold bind. destruct (TranslateJson.translate_attempt E text a w) as [[[v|]|e] w']; auto.
Qed.

Lemma urdu_attempts_retry_loop text attempts w :
  TranslateJsonUrdu.translate_attempts E text attempts w
  = retry_loop (TranslateJsonUrdu.translate_attempt E text) "[Urdu translation failed]"
      attempts w.
Proof.
  revert w. induction attempts as [|a rest IH]; intros w; simpl; [reflexivity|].
  unfold bind. destruct (TranslateJsonUrdu.translate_attempt E text a w) as [[[v|]|e] w']; auto.
Qed.


Lemma ocr_attempt_retries image a w :
  ocr_retries E a (generate_content E (List.length (calls w)) (OcrPage.prompt image)) = true ->
  exists w', OcrPage.ocr_attempt E image a w = (Ret None, w') /\
    List.length (calls w') = S (List.length (calls w)) /\ files w' = files w /\
    posts w' = posts w.
Proof.
  intros Hg. destruct (ocr_attempt_spec E image a w) as (w1 & Hc & Hf & Hp & Hs).
  rewrite Hs. unfold ocr_retries in Hg.
  destruct (generate_content E _ _) as [text|msg]; [discriminate|].
  destruct (sleep_refuses _); [discriminate|].
  eexists. split; [reflexivity|]. simpl. rewrite Hc, Hf, Hp. auto.
Qed.


(** Whatever the service does, one attempt makes one call, leaves the files
    alone, and raises nothing but what [time.sleep] raises. *)
Lemma ocr_attempt_outcome image a w : exists r w',
  OcrPage.ocr_attempt E image a w = (r, w') /\
  List.length (calls w') = S (List.length (calls w)) /\ files w' = files w /\
  posts w' = posts w /\
  (forall e, r = Raise e -> e = OverflowError \/ e = ValueError \/ e = OSError).
Proof.
  destruct (ocr_attempt_spec E image a w) as (w1 & Hc & Hf & Hp & Hs).
  rewrite Hs.
  destruct (generate_content E _ _) as [text|msg].
  - do 2 eexists. split; [reflexivity|]. simpl. rewrite Hc, Hf, Hp.
    repeat split. discriminate.
  - destruct (sleep_refuses _) as [e|] eqn:Hr.
    + do 2 eexists. split; [reflexivity|]. simpl. rewrite Hc, Hf, Hp.
      repeat split. intros e' [= <-]. exact (sleep_refuses_kinds _ _ e Hr).
    + do 2 eexists. split; [reflexivity|]. simpl. rewrite Hc, Hf, Hp.
      repeat split. discriminate.
Qed.


Lemma ocr_attempts_exhausted image : forall count first w,
  (forall i, i < count ->
     ocr_retries E (first + i)
       (generate_content E (List.length (calls w) + i) (OcrPage.prompt image)) = true) ->
  exists w', OcrPage.ocr_attempts E image (seq first count) w = (Ret "", w') /\
    List.length (calls w') = List.length (calls w) + count /\ files w' = files w.
Proof.
  induction count as [|count IH]; intros first w Hfail.
  - exists w. split; [reflexivity|]. split; [lia|reflexivity].
  - destruct (ocr_attempt_retries image first w) as (w1 & Hs & Hc & Hf & _).
    { specialize (Hfail 0 ltac:(lia)). now rewrite !Nat.add_0_r in Hfail. }
    destruct (IH (S first) w1) as (w' & Hr & Hc' & Hf').
    + intros i Hi. rewrite Hc.
      replace (S first + i) with (first + S i) by lia.
      replace (S (List.length (calls w)) + i) with (List.length (calls w) + S i) by lia.
      apply Hfail. lia.
    + exists w'. cbn [seq OcrPage.ocr_attempts]. unfold bind. rewrite Hs.
      split; [exact Hr|]. split; [lia|congruence].
Qed.


(** Whatever the service does, the loop over [attempts] makes at most one
    call per attempt, leaves the files alone, and returns a text or raises
    what [time.sleep] raises. *)
Lemma ocr_attempts_outcome image : forall attempts w, exists r w',
  OcrPage.ocr_attempts E image attempts w = (r, w') /\
  files w' = files w /\ posts w' = posts w /\
  List.length (calls w) + min 1 (List.length attempts) <= List.length (calls w') /\
  List.length (calls w') <= List.length (calls w) + List.length attempts /\
  (forall e, r = Raise e -> e = OverflowError \/ e = ValueError \/ e = OSError).
Proof.
  induction attempts as [|a rest IH]; intros w.
  - exists (Ret ""), w. simpl. repeat split; try lia. discriminate.
  - destruct (ocr_attempt_outcome image a w) as (r & w1 & Hs & Hc & Hf & Hp & He).
    cbn [OcrPage.ocr_attempts]. unfold bind. rewrite Hs.
    destruct r as [[text|]|e].
    + exists (Ret text), w1. simpl. repeat split; try assumption; try lia. discriminate.
    + destruct (IH w1) as (r & w' & Hr & Hf' & Hp' & Hlo & Hhi & He').
      exists r, w'. simpl. repeat split; try congruence; try lia. exact He'.
    + exists (Raise e), w1. simpl. repeat split; try assumption; try lia.
      intros e' [= <-]. now apply He.
Qed.

(** With a service whose delays are accepted the loop returns. *)
Lemma ocr_attempts_total image (Hacc : delays_accepted E) : forall attempts w,
  exists text w',
    OcrPage.ocr_attempts E image attempts w = (Ret text, w') /\
    files w' = files w /\ posts w' = posts w /\
    List.length (calls w) + min 1 (List.length attempts) <= List.length (calls w') /\
    List.length (calls w') <= List.length (calls w) + List.length attempts.
Proof.
  induction attempts as [|a rest IH]; intros w.
  - exists "", w. simpl. repeat split; lia.
  - destruct (ocr_attempt_spec E image a w) as (w1 & Hc & Hf & Hp & Hs).
    cbn [OcrPage.ocr_attempts]. unfold bind. rewrite Hs.
    destruct (generate_content E _ _) as [text|msg] eqn:Hg.
    + do 2 eexists. split; [reflexivity|]. simpl. rewrite Hc, Hf, Hp. repeat split; lia.
    + rewrite (Hacc a _ _ msg Hg).
      set (w2 := snd _).
      destruct (IH w2) as (text & w' & Hr & Hf' & Hp' & Hlo & Hhi).
      assert (Hc2 : List.length (calls w2) = S (List.length (calls w)))
        by (unfold w2; simpl; now rewrite Hc).
      assert (Hf2 : files w2 = files w) by (unfold w2; simpl; exact Hf).
      assert (Hp2 : posts w2 = posts w) by (unfold w2; simpl; exact Hp).
      exists text, w'. cbn [fst snd]. split; [exact Hr|].
      repeat split; try congruence; simpl; lia.
Qed.

Lemma tj_step_spec text a w : exists w',
  TranslateJson.translate_attempt E text a w
  = (Ret (translation_answer E (TranslateJson.prompt text) (List.length (calls w))), w') /\
  List.length (calls w') = S (List.length (calls w)) /\ files w' = files w.
Proof.
  destruct (tj_attempt_spec E text a w) as (w1 & Hc & Hf & _ & Hs).
  rewrite Hs. unfold translation_answer.
  destruct (generate_content E _ _) as [out|msg].
  - exists (log_call (TranslateJson.prompt text) w1). simpl. rewrite Hc, Hf.
    split; [|split; reflexivity].
    destruct (all_space out) eqn:Hb.
    + now rewrite (strip_all_space out Hb).
    + now rewrite (strip_not_all_space out Hb).
  - eexists; (split; [reflexivity|]); simpl; rewrite Hc, Hf; split; reflexivity.
Qed.

Lemma urdu_step_spec text a w : exists w',
  TranslateJsonUrdu.translate_attempt E text a w
  = (Ret (translation_answer E (TranslateJsonUrdu.prompt text) (List.length (calls w))), w') /\
  List.length (calls w') = S (List.length (calls w)) /\ files w' = files w.
Proof.
  destruct (urdu_attempt_spec E text a w) as (w1 & Hc & Hf & _ & Hs).
  rewrite Hs. unfold translation_answer.
  destruct (generate_content E _ _) as [out|msg].
  - exists (log_call (TranslateJsonUrdu.prompt text) w1). simpl. rewrite Hc, Hf.
    split; [|split; reflexivity].
    destruct (all_space out) eqn:Hb.
    + now rewrite (strip_all_space out Hb).
    + now rewrite (strip_not_all_space out Hb).
  - eexists; (split; [reflexivity|]); simpl; rewrite Hc, Hf; split; reflexivity.
Qed.

Lemma tj_translate_paragraph_nonblank text w :
  all_space text = false ->
  TranslateJson.translate_paragraph E (JStr text) w
  = retry_loop (TranslateJson.translate_attempt E text) "[Translation failed]"
      (seq 1 12) w.
Proof.
  intros H. unfold TranslateJson.translate_paragraph.
  assert (Ht : PyStr.truthy text = true) by (destruct text; [discriminate|reflexivity]).
  cbn [truthy]. rewrite Ht, (strip_not_all_space text H). cbn [negb].
  apply tj_attempts_retry_loop.
Qed.

Lemma urdu_translate_to_urdu_nonblank text w :
  all_space text = false ->
  TranslateJsonUrdu.translate_to_urdu E (JStr text) w
  = retry_loop (TranslateJsonUrdu.translate_attempt E text) "[Urdu translation failed]"
      (seq 1 12) w.
Proof.
  intros H. unfold TranslateJsonUrdu.translate_to_urdu.
  assert (Ht : PyStr.truthy text = true) by (destruct text; [discriminate|reflexivity]).
  cbn [truthy]. rewrite Ht, (strip_not_all_space text H). cbn [negb].
  apply urdu_attempts_retry_loop.
Qed.

End Retry.

End Attempts.

(** ** The retry loops *)

Section RetryTheorems.
Import Py.




(** C10: on an empty or whitespace-only string [translate_paragraph] and
    [translate_to_urdu] return the empty string at once; the world is left
    as it was, so no model call and no rate-limiter acquisition is made. *)
Theorem blank_input_makes_no_call (E : env) (s : string) (w : world) :
  all_space s = true ->
  TranslateJson.translate_paragraph E (JStr s) w = (Ret "", w) /\
  TranslateJsonUrdu.translate_to_urdu E (JStr s) w = (Ret "", w).
Proof.
  intros H. pose proof (strip_all_space s H) as Hs.
  unfold TranslateJson.translate_paragraph, TranslateJsonUrdu.translate_to_urdu.
  cbn [truthy]. rewrite Hs.
  destruct (PyStr.truthy s); split; reflexivity.
Qed.

Lemma blank_input_makes_no_call_witness :
  all_space "  " = true /\
  TranslateJson.translate_paragraph (demo_env flaky_model []) (JStr "  ") (start 0 ∅)
  = (Ret "", start 0 ∅) /\
  TranslateJsonUrdu.translate_to_urdu (demo_env flaky_model []) (JStr "  ") (start 0 ∅)
  = (Ret "", start 0 ∅).
Proof.
  assert (H : all_space "  " = true) by reflexivity.
  split; [exact H|].
  exact (blank_input_makes_no_call (demo_env flaky_model []) "  " (start 0 ∅) H).
Defined.




(** A refused delay ends the attempt before it is slept: the one sleep
    recorded is that of the rate limiter. *)
Example refused_delay_is_not_slept :
  exists w', OcrPage.ocr_attempt (demo_env overflow_model []) "png" 1 (start 0 ∅)
             = (Raise OverflowError, w') /\
             slept w' = [5%Q] /\ List.length (calls w') = 1.
Proof. eexists. split; [vm_compute; reflexivity|]. split; vm_compute; reflexivity. Qed.

End RetryTheorems.

(** ** The rate limiter *)

Lemma Qltb_true x y : Py.Qltb x y = true -> (x < y)%Q.
Proof.
  unfold Py.Qltb. intros H. apply negb_true_iff in H.
  apply Qnot_le_lt. intros Hle. apply Qle_bool_iff in Hle. congruence.
Qed.

Lemma Qltb_false x y : Py.Qltb x y = false -> (y <= x)%Q.
Proof.
  unfold Py.Qltb. intros H. apply negb_false_iff in H. now apply Qle_bool_iff.
Qed.

Section Limiter.
Import Py.
Variable E : env.
Hypothesis drift_nonneg : forall n, (0 <= drift E n)%Q.





End Limiter.



(** The grants of that run: the first waits out the interval counted from
    the initial [0.0], the third comes after a gap longer than the interval. *)
Example grant_times_example :
  fst (grant_times (OcrPage.wait_for_rate_limit (demo_env flaky_model []))
         [0; 1; 7]%Q (Py.start 0 ∅))
  = Py.Ret [5; 10; 17]%Q.
Proof. vm_compute. reflexivity. Qed.

(** ** The page loops *)

Section Pages.
Import Py.
Variable E : env.

Lemma retry_loop_total step terminal answer
  (step_spec : forall a w, exists w',
     step a w = (Ret (answer (List.length (calls w))), w') /\
     List.length (calls w') = S (List.length (calls w)) /\ files w' = files w) :
  forall attempts w, exists v w',
    retry_loop step terminal attempts w = (Ret v, w') /\ files w' = files w.
Proof.
  induction attempts as [|a rest IH]; intros w; simpl.
  - exists terminal, w. split; reflexivity.
  - destruct (step_spec a w) as (w1 & Hs & _ & Hf). unfold bind. rewrite Hs.
    destruct (answer _) as [v|].
    + exists v, w1. split; [reflexivity | exact Hf].
    + destruct (IH w1) as (v & w' & Hr & Hf'). exists v, w'. split; [exact Hr | congruence].
Qed.

(** Whatever the service does, [ocr_with_gemini] makes one to twelve calls,
    leaves the files alone, and returns a text or raises what [time.sleep]
    raises. *)
Lemma ocr_with_gemini_outcome image w : exists r w',
  OcrPage.ocr_with_gemini E image w = (r, w') /\
  files w' = files w /\ posts w' = posts w /\
  List.length (calls w) + 1 <= List.length (calls w') /\
  List.length (calls w') <= List.length (calls w) + 12 /\
  (forall e, r = Raise e -> e = OverflowError \/ e = ValueError \/ e = OSError).
Proof.
  destruct (ocr_attempts_outcome E image (seq 1 OcrPage.max_retries) w)
    as (r & w' & Hr & Hf & Hp & Hlo & Hhi & He).
  exists r, w'. rewrite length_seq in Hlo, Hhi. unfold OcrPage.max_retries in Hlo, Hhi.
  simpl in Hlo. repeat split; try assumption.
Qed.

Lemma ocr_with_gemini_total image w :
  delays_accepted E ->
  exists text w',
    OcrPage.ocr_with_gemini E image w = (Ret text, w') /\ files w' = files w.
Proof.
  intros Hacc.
  destruct (ocr_attempts_total E image Hacc (seq 1 OcrPage.max_retries) w)
    as (text & w' & Hr & Hf & _).
  exists text, w'. split; [exact Hr|exact Hf].
Qed.

Lemma save_json_results_ok doc out w :
  PyStr.truthy (PyStr.dirname out) = true ->
  OcrPage.save_json_results E doc out w
  = (Ret tt, set_files (<[out := json_dumps E doc]> (files w)) w).
Proof.
  intros Hdir. unfold OcrPage.save_json_results, makedirs, bind. rewrite Hdir. reflexivity.
Qed.

Lemma save_json_results_no_directory doc out w :
  PyStr.truthy (PyStr.dirname out) = false ->
  OcrPage.save_json_results E doc out w = (Raise (FileNotFoundError ""), w).
Proof.
  intros Hdir. unfold OcrPage.save_json_results, makedirs, bind.
  destruct (PyStr.dirname out); [reflexivity|discriminate].
Qed.

Lemma translate_paragraph_total s w : exists english w',
  TranslateJson.translate_paragraph E (JStr s) w = (Ret english, w') /\ files w' = files w.
Proof.
  destruct (all_space s) eqn:Hs.
  - exists "", w. split; [|reflexivity].
    unfold TranslateJson.translate_paragraph. cbn [truthy].
    rewrite (strip_all_space s Hs). destruct (PyStr.truthy s); reflexivity.
  - rewrite tj_translate_paragraph_nonblank by exact Hs.
    apply (retry_loop_total _ _ (translation_answer E (TranslateJson.prompt s))), tj_step_spec.
Qed.

Lemma translate_to_urdu_total s w : exists urdu w',
  TranslateJsonUrdu.translate_to_urdu E (JStr s) w = (Ret urdu, w') /\ files w' = files w.
Proof.
  destruct (all_space s) eqn:Hs.
  - exists "", w. split; [|reflexivity].
    unfold TranslateJsonUrdu.translate_to_urdu. cbn [truthy].
    rewrite (strip_all_space s Hs). destruct (PyStr.truthy s); reflexivity.
  - rewrite urdu_translate_to_urdu_nonblank by exact Hs.
    apply (retry_loop_total _ _ (translation_answer E (TranslateJsonUrdu.prompt s))),
      urdu_step_spec.
Qed.

Lemma process_pages_spec total out :
  delays_accepted E -> PyStr.truthy (PyStr.dirname out) = true ->
  forall images page_num pages w,
  exists contents w',
    List.length contents = List.length images /\
    OcrPage.process_pages E total out images page_num pages w
    = (Ret (pages ++ ocr_pages page_num contents), w') /\
    files w' = flushed E (List.length images) out
                 (OcrPage.results total (pages ++ ocr_pages page_num contents)) (files w).
Proof.
  intros Hacc Hdir.
  induction images as [|image rest IH]; intros page_num pages w.
  - exists [], w. simpl. rewrite app_nil_r. repeat split.
  - destruct (ocr_with_gemini_total image w Hacc) as (text & w1 & Hocr & Hf1).
    set (page := ocr_page page_num (PyStr.strip text)).
    destruct (IH (S page_num) (pages ++ [page])
                (set_files (<[out := json_dumps E (OcrPage.results total (pages ++ [page]))]>
                              (files w1)) w1))
      as (contents & w' & Hlen & Hrun & Hf').
    exists (PyStr.strip text :: contents), w'.
    split; [simpl; congruence|].
    cbn [OcrPage.process_pages ocr_pages]. fold page.
    replace (pages ++ page :: ocr_pages (S page_num) contents)
      with ((pages ++ [page]) ++ ocr_pages (S page_num) contents)
      by (rewrite <- app_assoc; reflexivity).
    split.
    + unfold bind at 1. rewrite Hocr.
      unfold bind at 1. rewrite save_json_results_ok by exact Hdir. exact Hrun.
    + rewrite Hf'. cbn [files set_files]. rewrite Hf1.
      destruct rest as [|image' rest']; simpl.
      * destruct contents; [|discriminate]. simpl. now rewrite app_nil_r.
      * apply insert_insert_eq.
Qed.


Lemma tj_pages_spec tp out : forall contents page_num pages w,
  exists englishs w',
    List.length englishs = List.length contents /\
    TranslateJson.translate_pages E tp out (ocr_pages page_num contents) pages w
    = (Ret (pages ++ translated_pages page_num contents englishs), w') /\
    files w' = flushed E (List.length contents) out
                 (TranslateJson.translations tp
                    (pages ++ translated_pages page_num contents englishs)) (files w).
Proof.
  induction contents as [|content rest IH]; intros page_num pages w.
  - exists [], w. simpl. rewrite app_nil_r. repeat split.
  - destruct (translate_paragraph_total content w) as (english & w1 & Htr & Hf1).
    set (page := translated_page page_num content english).
    destruct (IH (S page_num) (pages ++ [page])
                (set_files (<[out := json_dumps E (TranslateJson.translations tp (pages ++ [page]))]>
                              (files w1)) w1))
      as (englishs & w' & Hlen & Hrun & Hf').
    exists (english :: englishs), w'.
    split; [simpl; congruence|].
    cbn [ocr_pages translated_pages]. fold page.
    replace (pages ++ page :: translated_pages (S page_num) rest englishs)
      with ((pages ++ [page]) ++ translated_pages (S page_num) rest englishs)
      by (rewrite <- app_assoc; reflexivity).
    split.
    + cbn [TranslateJson.translate_pages]. unfold ocr_page.
      unfold bind at 1. cbn [lift getitem assoc String.eqb Ascii.eqb Bool.eqb].
      unfold bind at 1. cbn [lift getitem assoc String.eqb Ascii.eqb Bool.eqb].
      unfold bind at 1. rewrite Htr.
      unfold bind at 1. cbn [lift getitem assoc String.eqb Ascii.eqb Bool.eqb].
      exact Hrun.
    + rewrite Hf'. cbn [files set_files]. rewrite Hf1.
      destruct rest as [|content' rest']; simpl.
      * destruct englishs; [|discriminate]. simpl. now rewrite app_nil_r.
      * apply insert_insert_eq.
Qed.

Lemma urdu_pages_spec tp out : forall germans englishs page_num pages w,
  List.length englishs = List.length germans ->
  exists urdus w',
    List.length urdus = List.length germans /\
    TranslateJsonUrdu.translate_pages E tp out
      (translated_pages page_num germans englishs) pages w
    = (Ret (pages ++ urdu_pages page_num germans englishs urdus), w') /\
    files w' = flushed E (List.length germans) out
                 (TranslateJsonUrdu.urdu_translations tp
                    (pages ++ urdu_pages page_num germans englishs urdus)) (files w).
Proof.
  induction germans as [|german rest IH]; intros englishs page_num pages w Hlen.
  - exists [], w. simpl. rewrite app_nil_r. repeat split.
  - destruct englishs as [|english englishs]; [discriminate|].
    destruct (translate_to_urdu_total english w) as (urdu & w1 & Htr & Hf1).
    set (page := urdu_page page_num german english urdu).
    destruct (IH englishs (S page_num) (pages ++ [page])
                (set_files (<[out := json_dumps E
                                       (TranslateJsonUrdu.urdu_translations tp (pages ++ [page]))]>
                              (files w1)) w1))
      as (urdus & w' & Hlen' & Hrun & Hf'); [simpl in Hlen; lia|].
    exists (urdu :: urdus), w'.
    split; [simpl; congruence|].
    cbn [translated_pages urdu_pages]. fold page.
    replace (pages ++ page :: urdu_pages (S page_num) rest englishs urdus)
      with ((pages ++ [page]) ++ urdu_pages (S page_num) rest englishs urdus)
      by (rewrite <- app_assoc; reflexivity).
    split.
    + cbn [TranslateJsonUrdu.translate_pages]. unfold translated_page.
      unfold bind at 1. cbn [lift getitem assoc String.eqb Ascii.eqb Bool.eqb].
      unfold bind at 1. cbn [lift getitem assoc String.eqb Ascii.eqb Bool.eqb].
      unfold bind at 1. rewrite Htr.
      unfold bind at 1. cbn [lift getitem assoc String.eqb Ascii.eqb Bool.eqb].
      exact Hrun.
    + rewrite Hf'. cbn [files set_files]. rewrite Hf1.
      destruct rest as [|german' rest']; simpl.
      * destruct urdus; [|discriminate]. simpl. now rewrite app_nil_r.
      * apply insert_insert_eq.
Qed.

(** *** A loop over a list is the loop over its first pages, then the rest *)

Lemma bind_assoc {A B C} (m : M A) (f : A -> M B) (g : B -> M C) w :
  bind (bind m f) g w = bind m (fun a => bind (f a) g) w.
Proof. unfold bind. destruct (m w) as [[a|e] w1]; reflexivity. Qed.

Lemma bind_ext {A B} (m : M A) (f g : A -> M B) w :
  (forall a w1, f a w1 = g a w1) -> bind m f w = bind m g w.
Proof. intros H. unfold bind. destruct (m w) as [[a|e] w1]; [apply H | reflexivity]. Qed.


Lemma tj_pages_app tp out l2 : forall l1 pages w,
  TranslateJson.translate_pages E tp out (l1 ++ l2) pages w
  = bind (TranslateJson.translate_pages E tp out l1 pages)
      (fun done => TranslateJson.translate_pages E tp out l2 done) w.
Proof.
  induction l1 as [|page rest IH]; intros pages w.
  - reflexivity.
  - cbn [app TranslateJson.translate_pages].
    repeat (rewrite bind_assoc; apply bind_ext; intros ? ?).
    apply IH.
Qed.


Lemma ocr_pages_app l2 : forall l1 page_num,
  ocr_pages page_num (l1 ++ l2)
  = ocr_pages page_num l1 ++ ocr_pages (page_num + List.length l1) l2.
Proof.
  induction l1 as [|c rest IH]; intros page_num; simpl.
  - now rewrite Nat.add_0_r.
  - rewrite IH. now rewrite Nat.add_succ_r.
Qed.

Lemma translated_pages_app gs2 es2 : forall gs1 es1 page_num,
  List.length es1 = List.length gs1 ->
  translated_pages page_num (gs1 ++ gs2) (es1 ++ es2)
  = translated_pages page_num gs1 es1
    ++ translated_pages (page_num + List.length gs1) gs2 es2.
Proof.
  induction gs1 as [|g rest IH]; intros es1 page_num Hlen.
  - destruct es1; [|discriminate]. simpl. now rewrite Nat.add_0_r.
  - destruct es1 as [|e es1]; [discriminate|]. simpl.
    rewrite IH by (simpl in Hlen; lia). now rewrite Nat.add_succ_r.
Qed.



End Pages.

Section Prefix.
Import Py.
Variable E : env.

Lemma flushed_lookup n out doc fs :
  1 <= n -> flushed E n out doc fs !! out = Some (json_dumps E doc).
Proof. intros H. destruct n; [lia|]. apply lookup_insert_eq. Qed.

Lemma tj_file_unfold input out text contents w :
  files w !! input = Some text ->
  json_loads E text
  = Some (OcrPage.results (List.length contents) (ocr_pages 1 contents)) ->
  TranslateJson.translate_json_file E input out w
  = bind (TranslateJson.translate_pages E (JNum (Z.of_nat (List.length contents))) out
            (ocr_pages 1 contents) [])
      (fun _ => ret tt) w.
Proof.
  intros Hfile Hload. unfold TranslateJson.translate_json_file.
  unfold bind at 1. unfold read_json. rewrite Hfile, Hload. reflexivity.
Qed.

Lemma urdu_file_unfold input out text germans englishs w :
  files w !! input = Some text ->
  json_loads E text
  = Some (TranslateJson.translations (JNum (Z.of_nat (List.length germans)))
            (translated_pages 1 germans englishs)) ->
  TranslateJsonUrdu.translate_json_file E input out w
  = bind (TranslateJsonUrdu.translate_pages E (JNum (Z.of_nat (List.length germans))) out
            (translated_pages 1 germans englishs) [])
      (fun _ => ret tt) w.
Proof.
  intros Hfile Hload. unfold TranslateJsonUrdu.translate_json_file.
  unfold bind at 1. unfold read_json. rewrite Hfile, Hload. reflexivity.
Qed.






End Prefix.



(** The OCR stage after the second page of three, with a service that fails
    twice before it answers: the file holds pages 1 and 2.  With an output
    path that has no directory part nothing is written: [os.makedirs('')]
    raises after the calls for the first page. *)
Example ocr_flush_after_second_page :
  (exists pages wk,
     OcrPage.process_pages (demo_env flaky_model []) 3 "out/doc_ocr.json"
       ["png1"; "png2"] 1 [] (Py.start 0 ∅)
     = (Py.Ret pages, wk) /\
     Py.files wk !! "out/doc_ocr.json"
     = Some (show_json (document (Py.JNum 3) (ocr_pages 1 ["ok"; "ok"])))) /\
  (exists wk,
     OcrPage.process_pdf_pages (demo_env flaky_model []) ["png1"; "png2"; "png3"]
       "doc_ocr.json" (Py.start 0 ∅)
     = (Py.Raise (Py.FileNotFoundError ""), wk) /\
     List.length (Py.calls wk) = 3 /\ Py.files wk = ∅).
Proof.
  split.
  - eexists _, _. split; vm_compute; reflexivity.
  - eexists. split; [vm_compute; reflexivity|]. split; vm_compute; reflexivity.
Qed.

(** The file after the second page of five, in that run. *)
Example flush_after_second_page :
  exists pages wk,
    TranslateJson.translate_pages (demo_env counting_model [five_pages]) (Py.JNum 5)
      "out/doc_translated.json" (firstn 2 (ocr_pages 1 five_contents)) []
      (Py.start 0 {[ "out/doc_ocr.json" := show_json five_pages ]})
    = (Py.Ret pages, wk) /\
    Py.files wk !! "out/doc_translated.json"
    = Some (show_json
              (document (Py.JNum 5)
                 (translated_pages 1 ["eins"; "zwei"] ["v0"; "v1"]))).
Proof. eexists _, _. split; vm_compute; reflexivity. Qed.

(** ** Runs and the files they find *)

Section Frames.
Import Py.
Variable E : env.

Lemma set_files_files w : set_files (files w) w = w.
Proof. destruct w; reflexivity. Qed.

Lemma blind_ret {A} (a : A) : blind (ret a).
Proof. intros w fs. reflexivity. Qed.

Lemma blind_raise {A} e : blind (@raise A e).
Proof. intros w fs. reflexivity. Qed.

Lemma blind_lift {A} (r : res A) : blind (lift r).
Proof. intros w fs. reflexivity. Qed.

Lemma blind_bind {A B} (m : M A) (f : A -> M B) :
  blind m -> (forall a, blind (f a)) -> blind (bind m f).
Proof.
  intros Hm Hf w fs. unfold bind. rewrite (Hm w fs).
  destruct (m w) as [[a|e] w1]; simpl; [apply Hf | reflexivity].
Qed.

Lemma blind_try_except {A} (m : M A) (h : exn -> M A) :
  blind m -> (forall e, blind (h e)) -> blind (try_except m h).
Proof.
  intros Hm Hh w fs. unfold try_except. rewrite (Hm w fs).
  destruct (m w) as [[a|e] w1]; simpl; [reflexivity|].
  destruct (is_Exception e); [apply Hh | reflexivity].
Qed.

Lemma blind_time_monotonic : blind (time_monotonic E).
Proof. intros w fs. reflexivity. Qed.

Lemma blind_time_sleep t : blind (time_sleep E t).
Proof. intros w fs. reflexivity. Qed.

Lemma blind_time_sleep_or_raise t : blind (time_sleep_or_raise E t).
Proof.
  unfold time_sleep_or_raise.
  destruct (sleep_refuses E t); [apply blind_raise|apply blind_time_sleep].
Qed.

Lemma blind_makedirs path : blind (makedirs path).
Proof. unfold makedirs. destruct (PyStr.truthy path); [apply blind_ret|apply blind_raise]. Qed.

Lemma blind_last_request_time : blind (get last_request_time).
Proof. intros w fs. reflexivity. Qed.

Lemma blind_set_last_request_time t : blind (modify (set_last_request_time t)).
Proof. intros w fs. reflexivity. Qed.

Lemma blind_model_generate_content p : blind (model_generate_content E p).
Proof.
  intros w fs. unfold model_generate_content. cbn [calls set_files].
  destruct (generate_content E _ p); reflexivity.
Qed.

Ltac blind_step :=
  first
    [ apply blind_ret | apply blind_raise | apply blind_lift
    | apply blind_time_monotonic | apply blind_time_sleep
    | apply blind_time_sleep_or_raise | apply blind_makedirs
    | apply blind_last_request_time | apply blind_set_last_request_time
    | apply blind_model_generate_content
    | apply blind_bind | apply blind_try_except
    | match goal with
      | |- blind (if ?b then _ else _) => destruct b
      end
    | intro ].

Lemma blind_ocr_wait : blind (OcrPage.wait_for_rate_limit E).
Proof. unfold OcrPage.wait_for_rate_limit. repeat blind_step. Qed.

Lemma blind_tj_wait : blind (TranslateJson.wait_for_rate_limit E).
Proof. unfold TranslateJson.wait_for_rate_limit. repeat blind_step. Qed.

Lemma blind_urdu_wait : blind (TranslateJsonUrdu.wait_for_rate_limit E).
Proof. unfold TranslateJsonUrdu.wait_for_rate_limit. repeat blind_step. Qed.

Lemma blind_ocr_with_gemini image : blind (OcrPage.ocr_with_gemini E image).
Proof.
  unfold OcrPage.ocr_with_gemini. generalize (seq 1 OcrPage.max_retries).
  intros attempts. induction attempts as [|a rest IH]; simpl; [apply blind_ret|].
  apply blind_bind.
  - unfold OcrPage.ocr_attempt. apply blind_try_except.
    + apply blind_bind; [apply blind_ocr_wait|]. repeat blind_step.
    + repeat blind_step.
  - intros [v|]; [apply blind_ret | exact IH].
Qed.

Lemma blind_translate_paragraph v : blind (TranslateJson.translate_paragraph E v).
Proof.
  unfold TranslateJson.translate_paragraph.
  destruct (negb (truthy v)); [apply blind_ret|].
  destruct v; try apply blind_raise.
  destruct (negb _); [apply blind_ret|].
  generalize (seq 1 TranslateJson.max_retries).
  intros attempts. induction attempts as [|a rest IH]; simpl; [apply blind_ret|].
  apply blind_bind.
  - unfold TranslateJson.translate_attempt. apply blind_try_except.
    + apply blind_bind; [apply blind_tj_wait|]. repeat blind_step.
    + repeat blind_step.
  - intros [t|]; [apply blind_ret | exact IH].
Qed.

Lemma blind_translate_to_urdu v : blind (TranslateJsonUrdu.translate_to_urdu E v).
Proof.
  unfold TranslateJsonUrdu.translate_to_urdu.
  destruct (negb (truthy v)); [apply blind_ret|].
  destruct v; try apply blind_raise.
  destruct (negb _); [apply blind_ret|].
  generalize (seq 1 TranslateJsonUrdu.max_retries).
  intros attempts. induction attempts as [|a rest IH]; simpl; [apply blind_ret|].
  apply blind_bind.
  - unfold TranslateJsonUrdu.translate_attempt. apply blind_try_except.
    + apply blind_bind; [apply blind_urdu_wait|]. repeat blind_step.
    + repeat blind_step.
  - intros [t|]; [apply blind_ret | exact IH].
Qed.

(** *** Computations that only overwrite one path *)

Lemma writes_only_blind {A} path (m : M A) : blind m -> writes_only path m.
Proof.
  intros Hm w. exists (fst (m w)), None, (snd (m w)). intros fs. apply Hm.
Qed.

Lemma writes_only_write_json path v : writes_only path (write_json E path v).
Proof.
  intros w. exists (Ret tt), (Some (json_dumps E v)), w. intros fs. reflexivity.
Qed.

Lemma overwrite_overwrite path u1 u2 fs :
  overwrite path u2 (overwrite path u1 fs)
  = overwrite path (match u2 with Some _ => u2 | None => u1 end) fs.
Proof.
  destruct u2 as [t2|], u1 as [t1|]; simpl; try reflexivity.
  apply insert_insert_eq.
Qed.

Lemma writes_only_bind {A B} path (m : M A) (f : A -> M B) :
  writes_only path m -> (forall a, writes_only path (f a)) ->
  writes_only path (bind m f).
Proof.
  intros Hm Hf w. destruct (Hm w) as (r & u1 & w1 & H1).
  destruct r as [a|e].
  - destruct (Hf a w1) as (r2 & u2 & w2 & H2).
    exists r2, (match u2 with Some _ => u2 | None => u1 end), w2. intros fs.
    unfold bind. rewrite H1.
    replace (set_files (overwrite path u1 fs) w1)
      with (set_files (overwrite path u1 fs) (set_files (overwrite path u1 fs) w1))
      by reflexivity.
    change (set_files (overwrite path u1 fs) (set_files (overwrite path u1 fs) w1))
      with (set_files (overwrite path u1 fs) w1).
    rewrite H2. now rewrite overwrite_overwrite.
  - exists (Raise e), u1, w1. intros fs. unfold bind. now rewrite H1.
Qed.

Lemma writes_only_tj_pages tp out todo :
  forall pages, writes_only out (TranslateJson.translate_pages E tp out todo pages).
Proof.
  induction todo as [|page rest IH]; intros pages; simpl.
  - apply writes_only_blind, blind_ret.
  - apply writes_only_bind; [apply writes_only_blind, blind_lift|]. intros _.
    apply writes_only_bind; [apply writes_only_blind, blind_lift|]. intros german_text.
    apply writes_only_bind; [apply writes_only_blind, blind_translate_paragraph|].
    intros english_text.
    apply writes_only_bind; [apply writes_only_blind, blind_lift|]. intros page_number.
    apply writes_only_bind; [apply writes_only_write_json|]. intros _.
    apply IH.
Qed.

Lemma writes_only_urdu_pages tp out todo :
  forall pages, writes_only out (TranslateJsonUrdu.translate_pages E tp out todo pages).
Proof.
  induction todo as [|page rest IH]; intros pages; simpl.
  - apply writes_only_blind, blind_ret.
  - apply writes_only_bind; [apply writes_only_blind, blind_lift|]. intros page_num.
    apply writes_only_bind; [apply writes_only_blind, blind_lift|]. intros english_text.
    apply writes_only_bind; [apply writes_only_blind, blind_translate_to_urdu|].
    intros urdu_text.
    apply writes_only_bind; [apply writes_only_blind, blind_lift|]. intros german.
    apply writes_only_bind; [apply writes_only_write_json|]. intros _.
    apply IH.
Qed.

Lemma writes_only_ocr_pages total out images :
  forall num pages, writes_only out (OcrPage.process_pages E total out images num pages).
Proof.
  induction images as [|image rest IH]; intros num pages; simpl.
  - apply writes_only_blind, blind_ret.
  - apply writes_only_bind; [apply writes_only_blind, blind_ocr_with_gemini|].
    intros extracted_text.
    apply writes_only_bind; [|intros _; apply IH].
    unfold OcrPage.save_json_results.
    apply writes_only_bind; [apply writes_only_blind, blind_makedirs|]. intros _.
    apply writes_only_write_json.
Qed.

Lemma writes_only_ignores {A} path (m : M A) : writes_only path m -> ignores path m.
Proof.
  intros Hm w prior. destruct (Hm w) as (r & upd & wc & H).
  exists r, (set_files (overwrite path upd (files w)) wc),
    (set_files (overwrite path upd (<[path := prior]> (files w))) wc).
  split; [rewrite <- (H (files w)), set_files_files; reflexivity|].
  split; [apply H|]. split; [reflexivity|]. split; [reflexivity|].
  cbn [files set_files]. destruct upd as [text|]; simpl.
  - left. apply insert_insert_eq.
  - right. reflexivity.
Qed.

Lemma ignores_bind_read_json {A} input output (f : json -> M A) :
  input <> output -> (forall data, writes_only output (f data)) ->
  ignores output (bind (read_json E input) f).
Proof.
  intros Hne Hf w prior. unfold bind, read_json. cbn [files set_files].
  rewrite lookup_insert_ne by congruence.
  destruct (files w !! input) as [text|];
    [|eexists _, _, _; repeat split; try reflexivity; now right].
  destruct (json_loads E text) as [data|];
    [|eexists _, _, _; repeat split; try reflexivity; now right].
  apply (writes_only_ignores output _ (Hf data) w prior).
Qed.

Lemma ignores_tj_file input output :
  input <> output -> ignores output (TranslateJson.translate_json_file E input output).
Proof.
  intros Hne. unfold TranslateJson.translate_json_file.
  apply ignores_bind_read_json; [exact Hne|]. intros data.
  repeat (apply writes_only_bind; [apply writes_only_blind, blind_lift|]; intro).
  apply writes_only_bind; [apply writes_only_tj_pages|]. intros _.
  apply writes_only_blind, blind_ret.
Qed.

Lemma ignores_urdu_file input output :
  input <> output -> ignores output (TranslateJsonUrdu.translate_json_file E input output).
Proof.
  intros Hne. unfold TranslateJsonUrdu.translate_json_file.
  apply ignores_bind_read_json; [exact Hne|]. intros data.
  repeat (apply writes_only_bind; [apply writes_only_blind, blind_lift|]; intro).
  apply writes_only_bind; [apply writes_only_urdu_pages|]. intros _.
  apply writes_only_blind, blind_ret.
Qed.

Lemma ignores_process_pdf_pages images output :
  ignores output (OcrPage.process_pdf_pages E images output).
Proof.
  apply writes_only_ignores. unfold OcrPage.process_pdf_pages.
  apply writes_only_bind; [apply writes_only_ocr_pages|]. intros pages.
  apply writes_only_blind, blind_ret.
Qed.
End Frames.

(** C1, as stated, fails: the stage keeps no record of finished pages.  A
    first run over five pages that is stopped after the second page has made
    two calls and left pages 1-2 in the file; the second run calls the model
    for all five pages again, page 1 first, and the file then holds the
    second run's answers for pages 1-2, not the first run's. *)
Lemma second_run_calls_every_page :
  exists pages w2 w3,
    TranslateJson.translate_pages (demo_env counting_model [five_pages]) (Py.JNum 5)
      "out/doc_translated.json" (firstn 2 (ocr_pages 1 five_contents)) []
      (Py.start 0 {[ "out/doc_ocr.json" := show_json five_pages ]})
    = (Py.Ret pages, w2) /\
    Py.calls w2 = [TranslateJson.prompt "zwei"; TranslateJson.prompt "eins"] /\
    Py.files w2 !! "out/doc_translated.json"
    = Some (show_json (TranslateJson.translations (Py.JNum 5)
                         (translated_pages 1 ["eins"; "zwei"] ["v0"; "v1"]))) /\
    TranslateJson.translate_json_file (demo_env counting_model [five_pages])
      "out/doc_ocr.json" "out/doc_translated.json" w2
    = (Py.Ret tt, w3) /\
    Py.calls w3
    = map TranslateJson.prompt ["fuenf"; "vier"; "drei"; "zwei"; "eins"] ++ Py.calls w2 /\
    Py.files w3 !! "out/doc_translated.json"
    = Some (show_json (TranslateJson.translations (Py.JNum 5)
                         (translated_pages 1 five_contents ["v2"; "v3"; "v4"; "v5"; "v6"]))).
Proof.
  eexists _, _, _.
  split; [vm_compute; reflexivity|].
  split; [vm_compute; reflexivity|].
  split; [vm_compute; reflexivity|].
  split; [vm_compute; reflexivity|].
  split; vm_compute; reflexivity.
Qed.

(** C1, amended: a run of a page-level stage does not look at the output an
    earlier run left behind.  Run with or without earlier content at the
    output path, it returns the same result and makes the same model calls
    and the same sleeps, page 1 first; afterwards the files are the same,
    unless no page was flushed at all and the earlier content is still
    there. *)
Theorem rerun_starts_over (E : Py.env) (input output : string) (images : list string) :
  input <> output ->
  ignores output (TranslateJson.translate_json_file E input output) /\
  ignores output (TranslateJsonUrdu.translate_json_file E input output) /\
  ignores output (OcrPage.process_pdf_pages E images output).
Proof.
  intros Hne. split; [|split].
  - apply ignores_tj_file, Hne.
  - apply ignores_urdu_file, Hne.
  - apply ignores_process_pdf_pages.
Qed.

Lemma rerun_starts_over_witness :
  "out/doc_ocr.json" <> "out/doc_translated.json" /\
  ignores "out/doc_translated.json"
    (TranslateJson.translate_json_file (demo_env counting_model [five_pages])
       "out/doc_ocr.json" "out/doc_translated.json").
Proof.
  assert (H : "out/doc_ocr.json" <> "out/doc_translated.json") by discriminate.
  split; [exact H|].
  exact (proj1 (rerun_starts_over (demo_env counting_model [five_pages])
                  "out/doc_ocr.json" "out/doc_translated.json" [] H)).
Defined.

(** ** Terminal failures *)

Section Failure.
Import Py.
Variable E : env.
Variable base_dir : string.

Lemma translate_segments_app out cfg url s2 : forall s1 i w,
  LlmEvaluation.translate_segments E base_dir out cfg url (s1 ++ s2) i w
  = bind (LlmEvaluation.translate_segments E base_dir out cfg url s1 i)
      (fun _ => LlmEvaluation.translate_segments E base_dir out cfg url s2
                  (i + List.length s1)) w.
Proof.
  induction s1 as [|seg rest IH]; intros i w.
  - simpl. unfold bind, ret. now rewrite Nat.add_0_r.
  - cbn [app LlmEvaluation.translate_segments List.length].
    rewrite bind_assoc. apply bind_ext. intros [text|] w1; [|reflexivity].
    rewrite bind_assoc. apply bind_ext. intros _ w2.
    rewrite IH. now rewrite Nat.add_succ_r.
Qed.

Lemma process_files_app data_folder result_folder cfg url l2 : forall l1 w,
  LlmEvaluation.process_files E base_dir data_folder result_folder cfg url (l1 ++ l2) w
  = bind (LlmEvaluation.process_files E base_dir data_folder result_folder cfg url l1)
      (fun _ => LlmEvaluation.process_files E base_dir data_folder result_folder cfg url l2) w.
Proof.
  induction l1 as [|filename rest IH]; intros w.
  - reflexivity.
  - cbn [app LlmEvaluation.process_files].
    rewrite bind_assoc. apply bind_ext. intros skip w1.
    destruct skip; [apply IH|].
    rewrite bind_assoc. apply bind_ext. intros segments w2.
    destruct segments; [apply IH|].
    repeat (rewrite bind_assoc; apply bind_ext; intros ? ?).
    apply IH.
Qed.

Lemma read_file_content_pure filepath w :
  exists text, LlmEvaluation.read_file_content base_dir filepath w = (Ret text, w).
Proof.
  unfold LlmEvaluation.read_file_content.
  destruct filepath as [filepath|]; [|eexists; reflexivity].
  destruct (negb _); [eexists; reflexivity|].
  destruct (files w !! _); eexists; reflexivity.
Qed.

Lemma translate_segment_spec seg cfg url w :
  exists prompt,
    LlmEvaluation.translate_segment E base_dir seg cfg url w
    = (Ret (option_map LlmEvaluation.clean_response
              (requests_post E (List.length (posts w)) url
                 (LlmEvaluation.base_model cfg) prompt)),
       log_post prompt w).
Proof.
  unfold LlmEvaluation.translate_segment.
  destruct (read_file_content_pure (LlmEvaluation.prompt_file cfg) w) as (sys & Hsys).
  destruct (read_file_content_pure (LlmEvaluation.example_file cfg) w) as (ex & Hex).
  unfold bind at 1. rewrite Hsys. unfold bind at 1. rewrite Hex.
  unfold try_except, bind, LlmEvaluation.post.
  match goal with |- context [log_post ?p w] => exists p end.
  destruct (requests_post E _ _ _ _); reflexivity.
Qed.

Lemma translate_segment_none seg cfg url w w' :
  LlmEvaluation.translate_segment E base_dir seg cfg url w = (Ret None, w') ->
  files w' = files w /\ List.length (posts w') = S (List.length (posts w)).
Proof.
  destruct (translate_segment_spec seg cfg url w) as (prompt & ->).
  intros H. inversion H; subst. split; reflexivity.
Qed.

Lemma hard_failure_stops_file out cfg url segs1 seg segs2 w w2 w3 :
  LlmEvaluation.translate_segments E base_dir out cfg url segs1 0 w = (Ret tt, w2) ->
  LlmEvaluation.translate_segment E base_dir seg cfg url w2 = (Ret None, w3) ->
  LlmEvaluation.translate_segments E base_dir out cfg url (segs1 ++ seg :: segs2) 0 w
  = (Raise SystemExit, w3).
Proof.
  intros H1 H2. rewrite translate_segments_app. unfold bind at 1. rewrite H1.
  cbn [LlmEvaluation.translate_segments]. unfold bind at 1. rewrite H2. reflexivity.
Qed.

Lemma hard_failure_stops_batch data_folder result_folder cfg url
    files1 filename files2 segs1 seg segs2 w w1 w2 w3 :
  let input_path := PyStr.path_join data_folder filename in
  let output_path :=
    PyStr.path_join result_folder
      (PyStr.replace filename ".json" (LlmEvaluation.file_suffix cfg ++ ".txt")) in
  LlmEvaluation.process_files E base_dir data_folder result_folder cfg url files1 w
  = (Ret tt, w1) ->
  files w1 !! output_path = None ->
  LlmEvaluation.extract_text_from_json E input_path w1 = (Ret (segs1 ++ seg :: segs2), w1) ->
  LlmEvaluation.translate_segments E base_dir output_path cfg url segs1 0
    (set_files (<[output_path := ""]> (files w1)) w1) = (Ret tt, w2) ->
  LlmEvaluation.translate_segment E base_dir seg cfg url w2 = (Ret None, w3) ->
  LlmEvaluation.process_files E base_dir data_folder result_folder cfg url
    (files1 ++ filename :: files2) w
  = (Raise SystemExit, w3).
Proof.
  intros input_path output_path H1 Hnew Hseg H2 H3.
  rewrite process_files_app. unfold bind at 1. rewrite H1.
  cbn [LlmEvaluation.process_files]. fold input_path. fold output_path.
  unfold bind at 1. unfold LlmEvaluation.path_exists, get. rewrite Hnew.
  unfold bind at 1. rewrite Hseg.
  assert (Hne : exists s l, segs1 ++ seg :: segs2 = s :: l)
    by (destruct segs1; simpl; eauto).
  destruct Hne as (s & l & Hsl). rewrite Hsl. rewrite <- Hsl.
  unfold bind at 1. unfold LlmEvaluation.write_empty, modify.
  unfold bind at 1.
  rewrite (hard_failure_stops_file output_path cfg url segs1 seg segs2 _ w2 w3 H2 H3).
  reflexivity.
Qed.
End Failure.

Section Sentinel.
Import Py.
Variable E : env.

Lemma tj_sentinel_step tp out content page_num rest pages w :
  all_space content = false ->
  (forall i, i < 12 ->
     translation_fails (generate_content E (List.length (calls w) + i)
                          (TranslateJson.prompt content)) = true) ->
  exists w1,
    TranslateJson.translate_paragraph E (JStr content) w = (Ret "[Translation failed]", w1) /\
    List.length (calls w1) = List.length (calls w) + 12 /\
    TranslateJson.translate_pages E tp out (ocr_page page_num content :: rest) pages w
    = TranslateJson.translate_pages E tp out rest
        (pages ++ [translated_page page_num content "[Translation failed]"])
        (set_files
           (<[out := json_dumps E
                       (TranslateJson.translations tp
                          (pages ++ [translated_page page_num content "[Translation failed]"]))]>
              (files w)) w1).
Proof.
  intros Hc Hfail.
  destruct (retry_loop_exhausted (TranslateJson.translate_attempt E content)
              "[Translation failed]" (translation_answer E (TranslateJson.prompt content))
              (tj_step_spec E content) (seq 1 12) w) as (w1 & Hr & Hcalls & Hf).
  { rewrite length_seq. intros i Hi. unfold translation_answer.
    specialize (Hfail i Hi). destruct (generate_content E _ _); simpl in Hfail;
      [now rewrite Hfail | reflexivity]. }
  rewrite <- tj_translate_paragraph_nonblank in Hr by exact Hc.
  exists w1. split; [exact Hr|]. split; [rewrite Hcalls, length_seq; reflexivity|].
  cbn [TranslateJson.translate_pages]. unfold ocr_page.
  unfold bind at 1. cbn [lift getitem assoc String.eqb Ascii.eqb Bool.eqb].
  unfold bind at 1. cbn [lift getitem assoc String.eqb Ascii.eqb Bool.eqb].
  unfold bind at 1. rewrite Hr.
  unfold bind at 1. cbn [lift getitem assoc String.eqb Ascii.eqb Bool.eqb].
  unfold bind at 1. unfold write_json, modify. rewrite Hf. reflexivity.
Qed.

Lemma urdu_sentinel_step tp out german english page_num rest pages w :
  all_space english = false ->
  (forall i, i < 12 ->
     translation_fails (generate_content E (List.length (calls w) + i)
                          (TranslateJsonUrdu.prompt english)) = true) ->
  exists w1,
    TranslateJsonUrdu.translate_to_urdu E (JStr english) w
    = (Ret "[Urdu translation failed]", w1) /\
    List.length (calls w1) = List.length (calls w) + 12 /\
    TranslateJsonUrdu.translate_pages E tp out
      (translated_page page_num german english :: rest) pages w
    = TranslateJsonUrdu.translate_pages E tp out rest
        (pages ++ [urdu_page page_num german english "[Urdu translation failed]"])
        (set_files
           (<[out := json_dumps E
                       (TranslateJsonUrdu.urdu_translations tp
                          (pages ++ [urdu_page page_num german english
                                       "[Urdu translation failed]"]))]>
              (files w)) w1).
Proof.
  intros Hc Hfail.
  destruct (retry_loop_exhausted (TranslateJsonUrdu.translate_attempt E english)
              "[Urdu translation failed]"
              (translation_answer E (TranslateJsonUrdu.prompt english))
              (urdu_step_spec E english) (seq 1 12) w) as (w1 & Hr & Hcalls & Hf).
  { rewrite length_seq. intros i Hi. unfold translation_answer.
    specialize (Hfail i Hi). destruct (generate_content E _ _); simpl in Hfail;
      [now rewrite Hfail | reflexivity]. }
  rewrite <- urdu_translate_to_urdu_nonblank in Hr by exact Hc.
  exists w1. split; [exact Hr|]. split; [rewrite Hcalls, length_seq; reflexivity|].
  cbn [TranslateJsonUrdu.translate_pages]. unfold translated_page.
  unfold bind at 1. cbn [lift getitem assoc String.eqb Ascii.eqb Bool.eqb].
  unfold bind at 1. cbn [lift getitem assoc String.eqb Ascii.eqb Bool.eqb].
  unfold bind at 1. rewrite Hr.
  unfold bind at 1. cbn [lift getitem assoc String.eqb Ascii.eqb Bool.eqb].
  unfold bind at 1. unfold write_json, modify. rewrite Hf. reflexivity.
Qed.
End Sentinel.

(** C6: the two policies for a terminal failure.  In the local-model
    pipeline, when [translate_segment] returns [None] for a segment, [main]
    ends with [SystemExit] in the world that call left: one request more
    than before the segment, the files as they were, no later segment and no
    later file touched.  In the two hosted translation stages, a page whose
    twelve attempts all fail gets the sentinel string as its value: the
    page [{"page_number": i, "german": ..., "english": "[Translation failed]"}]
    (with ["urdu": "[Urdu translation failed]"] in the Urdu stage) is added
    to the pages, the document with that page is written to the output
    file, and the loop goes on with the next page. *)
Theorem failure_policies (E : Py.env) :
  (forall base_dir data_folder result_folder cfg url listing
          files1 filename files2 segs1 seg segs2 w w1 w2 w3,
     let input_path := PyStr.path_join data_folder filename in
     let output_path :=
       PyStr.path_join result_folder
         (PyStr.replace filename ".json" (LlmEvaluation.file_suffix cfg ++ ".txt")) in
     filter (fun f => PyStr.endswith f ".json") listing = files1 ++ filename :: files2 ->
     LlmEvaluation.process_files E base_dir data_folder result_folder cfg url files1 w
     = (Py.Ret tt, w1) ->
     Py.files w1 !! output_path = None ->
     LlmEvaluation.extract_text_from_json E input_path w1
     = (Py.Ret (segs1 ++ seg :: segs2), w1) ->
     LlmEvaluation.translate_segments E base_dir output_path cfg url segs1 0
       (Py.set_files (<[output_path := ""]> (Py.files w1)) w1) = (Py.Ret tt, w2) ->
     LlmEvaluation.translate_segment E base_dir seg cfg url w2 = (Py.Ret None, w3) ->
     LlmEvaluation.main E base_dir data_folder result_folder cfg url listing w
     = (Py.Raise Py.SystemExit, w3) /\
     Py.files w3 = Py.files w2 /\
     List.length (Py.posts w3) = S (List.length (Py.posts w2))) /\
  (forall total_pages out content page_num rest pages w,
     all_space content = false ->
     (forall i, i < 12 ->
        translation_fails
          (Py.generate_content E (List.length (Py.calls w) + i)
             (TranslateJson.prompt content)) = true) ->
     let page :=
       Py.JObj [("page_number", Py.JNum (Z.of_nat page_num)); ("german", Py.JStr content);
                ("english", Py.JStr "[Translation failed]")] in
     exists w1 w2,
       TranslateJson.translate_paragraph E (Py.JStr content) w
       = (Py.Ret "[Translation failed]", w1) /\
       List.length (Py.calls w1) = List.length (Py.calls w) + 12 /\
       w2 = Py.set_files
              (<[out := Py.json_dumps E (document total_pages (pages ++ [page]))]>
                 (Py.files w)) w1 /\
       Py.files w2 !! out = Some (Py.json_dumps E (document total_pages (pages ++ [page]))) /\
       TranslateJson.translate_pages E total_pages out
         (ocr_page page_num content :: rest) pages w
       = TranslateJson.translate_pages E total_pages out rest (pages ++ [page]) w2) /\
  (forall total_pages out german english page_num rest pages w,
     all_space english = false ->
     (forall i, i < 12 ->
        translation_fails
          (Py.generate_content E (List.length (Py.calls w) + i)
             (TranslateJsonUrdu.prompt english)) = true) ->
     let page :=
       Py.JObj [("page_number", Py.JNum (Z.of_nat page_num)); ("german", Py.JStr german);
                ("english", Py.JStr english);
                ("urdu", Py.JStr "[Urdu translation failed]")] in
     exists w1 w2,
       TranslateJsonUrdu.translate_to_urdu E (Py.JStr english) w
       = (Py.Ret "[Urdu translation failed]", w1) /\
       List.length (Py.calls w1) = List.length (Py.calls w) + 12 /\
       w2 = Py.set_files
              (<[out := Py.json_dumps E (document total_pages (pages ++ [page]))]>
                 (Py.files w)) w1 /\
       Py.files w2 !! out = Some (Py.json_dumps E (document total_pages (pages ++ [page]))) /\
       TranslateJsonUrdu.translate_pages E total_pages out
         (translated_page page_num german english :: rest) pages w
       = TranslateJsonUrdu.translate_pages E total_pages out rest (pages ++ [page]) w2).
Proof.
  split; [|split].
  - intros base_dir data_folder result_folder cfg url listing files1 filename files2
      segs1 seg segs2 w w1 w2 w3 input_path output_path Hlist H1 Hnew Hseg H2 H3.
    split; [|exact (translate_segment_none E base_dir seg cfg url w2 w3 H3)].
    unfold LlmEvaluation.main. rewrite Hlist.
    pose proof (hard_failure_stops_batch E base_dir data_folder result_folder cfg url
                  files1 filename files2 segs1 seg segs2 w w1 w2 w3 H1 Hnew Hseg H2 H3)
      as Hstop.
    destruct (files1 ++ filename :: files2) eqn:Hfs; [|exact Hstop].
    destruct files1; discriminate.
  - intros total_pages out content page_num rest pages w Hc Hfail page.
    destruct (tj_sentinel_step E total_pages out content page_num rest pages w Hc Hfail)
      as (w1 & Hr & Hcalls & Hrun).
    exists w1. eexists. split; [exact Hr|]. split; [exact Hcalls|].
    split; [reflexivity|]. split; [apply lookup_insert_eq|exact Hrun].
  - intros total_pages out german english page_num rest pages w Hc Hfail page.
    destruct (urdu_sentinel_step E total_pages out german english page_num rest pages w
                Hc Hfail) as (w1 & Hr & Hcalls & Hrun).
    exists w1. eexists. split; [exact Hr|]. split; [exact Hcalls|].
    split; [reflexivity|]. split; [apply lookup_insert_eq|exact Hrun].
Qed.

Lemma failure_policies_witness :
  all_space "eins" = false /\
  exists w1 w2,
    TranslateJson.translate_paragraph (demo_env quota_model []) (Py.JStr "eins")
      (Py.start 0 ∅)
    = (Py.Ret "[Translation failed]", w1) /\
    List.length (Py.calls w1) = 12 /\
    Py.files w2 !! "out/doc_translated.json"
    = Some (show_json
              (document (Py.JNum 2)
                 [Py.JObj [("page_number", Py.JNum 1); ("german", Py.JStr "eins");
                           ("english", Py.JStr "[Translation failed]")]])) /\
    TranslateJson.translate_pages (demo_env quota_model []) (Py.JNum 2)
      "out/doc_translated.json" (ocr_pages 1 ["eins"; "zwei"]) [] (Py.start 0 ∅)
    = TranslateJson.translate_pages (demo_env quota_model []) (Py.JNum 2)
        "out/doc_translated.json" (ocr_pages 2 ["zwei"])
        [Py.JObj [("page_number", Py.JNum 1); ("german", Py.JStr "eins");
                  ("english", Py.JStr "[Translation failed]")]]
        w2.
Proof.
  assert (H : all_space "eins" = false) by reflexivity.
  split; [exact H|].
  destruct (failure_policies (demo_env quota_model [])) as (_ & Htj & _).
  destruct (Htj (Py.JNum 2) "out/doc_translated.json" "eins" 1 (ocr_pages 2 ["zwei"]) []
              (Py.start 0 ∅) H) as (w1 & w2 & Hr & Hc & _ & Hfile & Hrun).
  - intros i Hi. reflexivity.
  - exists w1, w2. split; [exact Hr|]. split; [exact Hc|]. split; [exact Hfile|exact Hrun].
Defined.

(** A batch of two files with two segments each, where the endpoint answers
    the first request and then goes away: the first page of the first file
    is saved, the second request fails, and nothing else happens. *)
Example hard_failure_stops_batch_example :
  exists w3,
    LlmEvaluation.main
      (local_env (fun n => if (n <? 1)%nat then Some "Translation: Hallo" else None)
         [Py.JList [Py.JStr "x"; Py.JStr "y"]])
      "app" "data" "results"
      {| LlmEvaluation.name := "General"; LlmEvaluation.base_model := "llama3";
         LlmEvaluation.prompt_file := None; LlmEvaluation.example_file := None;
         LlmEvaluation.file_suffix := "_general" |}
      "http://localhost:11434/api/generate"
      ["a.json"; "notes.txt"; "b.json"]
      (Py.start 0 {[ "data/a.json" := show_json (Py.JList [Py.JStr "x"; Py.JStr "y"]);
                     "data/b.json" := show_json (Py.JList [Py.JStr "x"; Py.JStr "y"]) ]})
    = (Py.Raise Py.SystemExit, w3) /\
    List.length (Py.posts w3) = 2 /\
    Py.files w3 !! "results/a_general.txt"
    = Some ("--- Page 1 ---" ++ PyStr.nl ++ "Hallo" ++ PyStr.nl ++ PyStr.nl)%string /\
    Py.files w3 !! "results/b_general.txt" = None.
Proof.
  eexists. split; [vm_compute; reflexivity|].
  split; [|split]; vm_compute; reflexivity.
Qed.

(** A document of two pages and a service that never answers: both pages
    are written, each with the sentinel, after 24 calls. *)
Example sentinel_recorded_example :
  exists w',
    TranslateJson.translate_json_file
      (demo_env quota_model [document (Py.JNum 2) (ocr_pages 1 ["eins"; "zwei"])])
      "out/doc_ocr.json" "out/doc_translated.json"
      (Py.start 0 {[ "out/doc_ocr.json" :=
                       show_json (document (Py.JNum 2) (ocr_pages 1 ["eins"; "zwei"])) ]})
    = (Py.Ret tt, w') /\
    List.length (Py.calls w') = 24 /\
    Py.files w' !! "out/doc_translated.json"
    = Some (show_json
              (document (Py.JNum 2)
                 [Py.JObj [("page_number", Py.JNum 1); ("german", Py.JStr "eins");
                           ("english", Py.JStr "[Translation failed]")];
                  Py.JObj [("page_number", Py.JNum 2); ("german", Py.JStr "zwei");
                           ("english", Py.JStr "[Translation failed]")]])).
Proof.
  eexists. split; [vm_compute; reflexivity|].
  split; vm_compute; reflexivity.
Qed.

(** * Further properties *)

(** ** The format adapter: errors *)

Section Adapter.
Import Py.
Variable E : env.

Lemma contains_exception v k e : contains v k = Raise e -> is_Exception e = true.
Proof. destruct v; simpl; intros H; inversion H; reflexivity. Qed.

Lemma getitem_exception v k e : getitem v k = Raise e -> is_Exception e = true.
Proof.
  destruct v; simpl; intros H; try (inversion H; reflexivity).
  destruct (assoc k kvs); inversion H; reflexivity.
Qed.

Lemma iter_exception v e : iter v = Raise e -> is_Exception e = true.
Proof. destruct v; simpl; intros H; inversion H; reflexivity. Qed.

Lemma pages_segments_exception items : forall acc e,
  LlmEvaluation.pages_segments E items acc = Raise e -> is_Exception e = true.
Proof.
  induction items as [|item rest IH]; intros acc e; simpl; [discriminate|].
  destruct (contains item "content") as [[|]|e1] eqn:Hc.
  - destruct (getitem item "content") as [v|e2] eqn:Hg.
    + apply IH.
    + intros H. inversion H; subst. exact (getitem_exception _ _ _ Hg).
  - apply IH.
  - intros H. inversion H; subst. exact (contains_exception _ _ _ Hc).
Qed.

Lemma text_segments_exception data e :
  LlmEvaluation.text_segments E data = Raise e -> is_Exception e = true.
Proof.
  unfold LlmEvaluation.text_segments.
  destruct data as [| | | |items|kvs]; try discriminate.
  destruct (assoc "document" kvs) as [document|].
  - destruct (contains document "pages") as [[|]|e1] eqn:Hc.
    + destruct (getitem document "pages") as [pages|e2] eqn:Hg.
      * destruct (iter pages) as [items|e3] eqn:Hi.
        -- apply pages_segments_exception.
        -- intros H. inversion H; subst. exact (iter_exception _ _ Hi).
      * intros H. inversion H; subst. exact (getitem_exception _ _ _ Hg).
    + destruct (assoc "content" kvs) as [[]|]; discriminate.
    + intros H. inversion H; subst. exact (contains_exception _ _ _ Hc).
  - destruct (assoc "content" kvs) as [[]|]; discriminate.
Qed.

Lemma extract_text_from_json_returns filepath w :
  exists segments,
    LlmEvaluation.extract_text_from_json E filepath w = (Ret segments, w) /\
    (files w !! filepath = None -> segments = []) /\
    (forall text, files w !! filepath = Some text -> json_loads E text = None ->
                  segments = []) /\
    (forall text data, files w !! filepath = Some text -> json_loads E text = Some data ->
                       segments = match LlmEvaluation.text_segments E data with
                                  | Ret l => l
                                  | Raise _ => []
                                  end).
Proof.
  unfold LlmEvaluation.extract_text_from_json, try_except, bind, read_json, lift, ret.
  destruct (files w !! filepath) as [text|].
  - destruct (json_loads E text) as [data|] eqn:Hload.
    + destruct (LlmEvaluation.text_segments E data) as [l|e] eqn:Hs.
      * exists l. split; [reflexivity|]. split; [discriminate|]. split.
        -- intros t Ht Hd. inversion Ht; subst. congruence.
        -- intros t d Ht Hd. inversion Ht; subst.
           rewrite Hload in Hd. inversion Hd; subst. now rewrite Hs.
      * rewrite (text_segments_exception data e Hs).
        exists []. split; [reflexivity|]. split; [reflexivity|]. split.
        -- reflexivity.
        -- intros t d Ht Hd. inversion Ht; subst.
           rewrite Hload in Hd. inversion Hd; subst. now rewrite Hs.
    + exists []. split; [reflexivity|]. split; [reflexivity|]. split.
      * reflexivity.
      * intros t d Ht Hd. inversion Ht; subst. congruence.
  - exists []. split; [reflexivity|]. split; [reflexivity|]. split.
    + reflexivity.
    + discriminate.
Qed.
End Adapter.

(** ** The format adapter: the order of the keys *)


(** ** The response sanitizer only deletes *)

Section Deletions.
Import PyStr.

Lemma subsequence_refl s : subsequence s s.
Proof. induction s; constructor; assumption. Qed.

Lemma subsequence_empty t : subsequence EmptyString t.
Proof. induction t; constructor; assumption. Qed.

Lemma subsequence_trans s t u : subsequence s t -> subsequence t u -> subsequence s u.
Proof.
  intros Hst Htu. revert s Hst.
  induction Htu as [|c t u Htu IH|c t u Htu IH]; intros s Hst.
  - exact Hst.
  - apply subsequence_skip, IH, Hst.
  - inversion Hst as [|c' s' t' Hs|c' s' t' Hs]; subst.
    + apply subsequence_skip, IH, Hs.
    + apply subsequence_keep, IH, Hs.
Qed.

Lemma subsequence_length s t : subsequence s t -> String.length s <= String.length t.
Proof. induction 1; simpl; lia. Qed.

Lemma lstrip_subsequence s : subsequence (lstrip s) s.
Proof.
  induction s as [|c s IH]; simpl; [constructor|].
  destruct (is_space c); [apply subsequence_skip, IH | apply subsequence_refl].
Qed.

Lemma rstrip_subsequence s : subsequence (rstrip s) s.
Proof.
  induction s as [|c s IH]; simpl; [constructor|].
  destruct (rstrip s) as [|a r].
  - destruct (is_space c); [apply subsequence_empty|].
    apply subsequence_keep, subsequence_empty.
  - apply subsequence_keep, IH.
Qed.

Lemma strip_subsequence s : subsequence (strip s) s.
Proof.
  unfold strip. eapply subsequence_trans; [apply rstrip_subsequence | apply lstrip_subsequence].
Qed.

Lemma sub_from_subsequence r s : forall prev skip,
  subsequence (Re.sub_from r prev s skip) s.
Proof.
  induction s as [|c s IH]; intros prev skip; simpl; [constructor|].
  destruct skip as [|n].
  - destruct (Re.match_at r prev (String c s)) as [rest|].
    + destruct (_ - _) as [|n].
      * apply subsequence_keep, IH.
      * apply subsequence_skip, IH.
    + apply subsequence_keep, IH.
  - apply subsequence_skip, IH.
Qed.

Lemma strip_pattern_subsequence t p : subsequence (LlmEvaluation.strip_pattern t p) t.
Proof.
  unfold LlmEvaluation.strip_pattern, Re.sub_empty.
  eapply subsequence_trans; [apply strip_subsequence | apply sub_from_subsequence].
Qed.

Lemma fold_strip_pattern_subsequence ps : forall t,
  subsequence (fold_left LlmEvaluation.strip_pattern ps t) t.
Proof.
  induction ps as [|p ps IH]; intros t; simpl; [apply subsequence_refl|].
  eapply subsequence_trans; [apply IH | apply strip_pattern_subsequence].
Qed.
End Deletions.

(** X3: [clean_response] only deletes: its result consists of characters of
    its argument, in their order, so it is never longer than the argument;
    and the result has no surrounding whitespace. *)
Theorem clean_response_deletes_only (x : string) :
  subsequence (LlmEvaluation.clean_response x) x /\
  String.length (LlmEvaluation.clean_response x) <= String.length x /\
  PyStr.strip (LlmEvaluation.clean_response x) = LlmEvaluation.clean_response x.
Proof.
  assert (H : subsequence (LlmEvaluation.clean_response x) x).
  { unfold LlmEvaluation.clean_response. destruct (PyStr.truthy x).
    - eapply subsequence_trans; apply fold_strip_pattern_subsequence.
    - apply subsequence_empty. }
  split; [exact H|]. split; [apply subsequence_length, H | apply clean_response_stripped].
Qed.

(** ** The local pipeline: what a batch does to the files *)

Section LocalBatch.
Import Py.
Variable E : env.
Variable base_dir : string.

Lemma string_app_assoc (a b c : string) : ((a ++ b) ++ c = a ++ (b ++ c))%string.
Proof.
  induction a as [|x a IH]; [reflexivity|].
  apply (f_equal (String x)) in IH. exact IH.
Qed.

Lemma string_app_empty (a : string) : (a ++ "" = a)%string.
Proof.
  induction a as [|x a IH]; [reflexivity|].
  apply (f_equal (String x)) in IH. exact IH.
Qed.

Lemma bind_inv {A B} (m : M A) (f : A -> M B) w r w' :
  bind m f w = (r, w') ->
  (exists a w1, m w = (Ret a, w1) /\ f a w1 = (r, w')) \/
  (exists e, m w = (Raise e, w') /\ r = Raise e).
Proof.
  unfold bind. destruct (m w) as [[a|e] w1]; intros H.
  - left. eauto.
  - right. inversion H; subst. eauto.
Qed.

(** The segment loop only appends to its output file. *)
Lemma translate_segments_appends out cfg url segments : forall i w old r w',
  files w !! out = Some old ->
  LlmEvaluation.translate_segments E base_dir out cfg url segments i w = (r, w') ->
  exists added, files w' = <[out := (old ++ added)%string]> (files w).
Proof.
  induction segments as [|segment rest IH]; intros i w old r w' Hold Hrun.
  - simpl in Hrun. inversion Hrun; subst. exists "".
    rewrite string_app_empty. symmetry. now apply insert_id.
  - cbn [LlmEvaluation.translate_segments] in Hrun.
    destruct (translate_segment_spec E base_dir segment cfg url w) as (prompt & Hseg).
    unfold bind at 1 in Hrun. rewrite Hseg in Hrun.
    destruct (requests_post E _ _ _ _) as [raw|]; simpl in Hrun.
    + destruct (PyStr.truthy (LlmEvaluation.clean_response raw)).
      * unfold bind at 1 in Hrun. unfold LlmEvaluation.append_text, modify in Hrun.
        cbn [files log_post set_files] in Hrun. rewrite Hold in Hrun. simpl default in Hrun.
        match type of Hrun with
        | LlmEvaluation.translate_segments _ _ _ _ _ _ _ ?w1 = _ =>
            match w1 with
            | context [<[out := (old ++ ?b)%string]> _] =>
                destruct (IH (S i) w1 (old ++ b)%string r w') as (added & Hadd);
                  [ | exact Hrun | exists (b ++ added)%string ]
            end
        end.
        -- cbn [files set_files]. apply lookup_insert_eq.
        -- rewrite Hadd. cbn [files set_files log_post].
           rewrite insert_insert_eq. now rewrite string_app_assoc.
      * unfold bind at 1, ret in Hrun.
        destruct (IH (S i) (log_post prompt w) old r w') as (added & Hadd);
          [exact Hold | exact Hrun | ].
        exists added. exact Hadd.
    + unfold raise in Hrun. inversion Hrun; subst. exists "".
      rewrite string_app_empty. symmetry. now apply insert_id.
Qed.

Lemma process_files_keeps data_folder result_folder cfg url fl : forall w r w',
  LlmEvaluation.process_files E base_dir data_folder result_folder cfg url fl w = (r, w') ->
  files w ⊆ files w'.
Proof.
  induction fl as [|filename rest IH]; intros w r w' Hrun.
  - simpl in Hrun. inversion Hrun; subst. reflexivity.
  - cbn [LlmEvaluation.process_files] in Hrun.
    set (out := PyStr.path_join result_folder _) in Hrun.
    unfold bind at 1 in Hrun. unfold LlmEvaluation.path_exists, get in Hrun.
    destruct (files w !! out) as [c|] eqn:Hout.
    + exact (IH w r w' Hrun).
    + destruct (extract_text_from_json_returns E (PyStr.path_join data_folder filename) w)
        as (segments & Hext & _).
      unfold bind at 1 in Hrun. rewrite Hext in Hrun.
      destruct segments as [|s segs].
      * exact (IH w r w' Hrun).
      * unfold bind at 1 in Hrun. unfold LlmEvaluation.write_empty, modify in Hrun.
        apply bind_inv in Hrun as [(a & w1 & Hseg & Hrest) | (e & Hseg & ->)].
        -- destruct (translate_segments_appends out cfg url (s :: segs) 0 _ "" _ _
                       (lookup_insert_eq _ _ _) Hseg) as (added & Hadd).
           cbn [files set_files] in Hadd. rewrite insert_insert_eq in Hadd.
           transitivity (files w1); [|exact (IH w1 r w' Hrest)].
           rewrite Hadd. now apply insert_subseteq.
        -- destruct (translate_segments_appends out cfg url (s :: segs) 0 _ "" _ _
                       (lookup_insert_eq _ _ _) Hseg) as (added & Hadd).
           cbn [files set_files] in Hadd. rewrite insert_insert_eq in Hadd.
           rewrite Hadd. now apply insert_subseteq.
Qed.

Lemma extract_same filepath w1 w2 :
  files w1 !! filepath = files w2 !! filepath ->
  fst (LlmEvaluation.extract_text_from_json E filepath w1)
  = fst (LlmEvaluation.extract_text_from_json E filepath w2).
Proof.
  intros H.
  unfold LlmEvaluation.extract_text_from_json, try_except, bind, read_json. rewrite H.
  destruct (files w2 !! filepath) as [text|]; [|reflexivity].
  destruct (json_loads E text) as [data|]; [|reflexivity].
  unfold lift. destruct (LlmEvaluation.text_segments E data) as [l|e]; [reflexivity|].
  destruct (is_Exception e); reflexivity.
Qed.

Lemma process_files_again data_folder result_folder cfg url fl : forall w w',
  LlmEvaluation.process_files E base_dir data_folder result_folder cfg url fl w
  = (Ret tt, w') ->
  (forall f, In f fl -> is_Some (files w !! PyStr.path_join data_folder f)) ->
  forall w'', files w' ⊆ files w'' ->
    LlmEvaluation.process_files E base_dir data_folder result_folder cfg url fl w''
    = (Ret tt, w'').
Proof.
  induction fl as [|filename rest IH]; intros w w' Hrun Hin w'' Hsub; [reflexivity|].
  pose proof (process_files_keeps _ _ _ _ _ _ _ _ Hrun) as Hkeep.
  cbn [LlmEvaluation.process_files] in Hrun |- *.
  set (out := PyStr.path_join result_folder _) in *.
  set (input := PyStr.path_join data_folder filename) in *.
  assert (Hrest_in : forall w1, files w ⊆ files w1 ->
            forall f, In f rest -> is_Some (files w1 !! PyStr.path_join data_folder f)).
  { intros w1 H1 f Hf. destruct (Hin f (or_intror Hf)) as [c Hc].
    exists c. exact (lookup_weaken _ _ _ _ Hc H1). }
  unfold bind at 1 in Hrun. unfold LlmEvaluation.path_exists, get in Hrun.
  unfold bind at 1. unfold LlmEvaluation.path_exists, get.
  destruct (files w !! out) as [c|] eqn:Hout.
  - assert (Hout'' : files w'' !! out = Some c).
    { apply (lookup_weaken (files w)); [exact Hout|]. now transitivity (files w'). }
    rewrite Hout''.
    apply (IH w w' Hrun); [apply Hrest_in; reflexivity | exact Hsub].
  - destruct (extract_text_from_json_returns E input w) as (segments & Hext & _).
    unfold bind at 1 in Hrun. rewrite Hext in Hrun.
    destruct segments as [|s segs].
    + destruct (files w'' !! out) as [c''|] eqn:Hout''.
      * apply (IH w w' Hrun); [apply Hrest_in; reflexivity | exact Hsub].
      * destruct (extract_text_from_json_returns E input w'') as (segments'' & Hext'' & _).
        unfold bind at 1. rewrite Hext''.
        assert (Hlook : files w !! input = files w'' !! input).
        { destruct (Hin filename (or_introl eq_refl)) as [ci Hci]. fold input in Hci.
          rewrite Hci. symmetry. apply (lookup_weaken (files w)); [exact Hci|].
          now transitivity (files w'). }
        assert (Hsame : segments'' = []).
        { pose proof (extract_same input w w'' Hlook) as Hs. rewrite Hext, Hext'' in Hs.
          simpl in Hs. now inversion Hs. }
        rewrite Hsame.
        apply (IH w w' Hrun); [apply Hrest_in; reflexivity | exact Hsub].
    + unfold bind at 1 in Hrun. unfold LlmEvaluation.write_empty, modify in Hrun.
      apply bind_inv in Hrun as [(a & w1 & Hseg & Hrest) | (e & Hseg & Hr)]; [|discriminate].
      destruct (translate_segments_appends out cfg url (s :: segs) 0 _ "" _ _
                  (lookup_insert_eq _ _ _) Hseg) as (added & Hadd).
      cbn [files set_files] in Hadd. rewrite insert_insert_eq in Hadd.
      pose proof (process_files_keeps _ _ _ _ _ _ _ _ Hrest) as Hkeep1.
      assert (Hout'' : files w'' !! out = Some ("" ++ added)%string).
      { apply (lookup_weaken (files w1)); [rewrite Hadd; apply lookup_insert_eq|].
        now transitivity (files w'). }
      rewrite Hout''.
      apply (IH w1 w' Hrest); [|exact Hsub].
      apply Hrest_in. rewrite Hadd. now apply insert_subseteq.
Qed.
End LocalBatch.

(** ** The batches of the translation stages *)

Section Catchable.
Import Py.
Variable E : env.

Lemma catchable_ret {A} (a : A) : catchable (ret a).
Proof. intros w e w' H. discriminate. Qed.

Lemma catchable_bind {A B} (m : M A) (f : A -> M B) :
  catchable m -> (forall a, catchable (f a)) -> catchable (bind m f).
Proof.
  intros Hm Hf w e w' H.
  apply bind_inv in H as [(a & w1 & H1 & H2) | (e' & H1 & He)].
  - exact (Hf a w1 e w' H2).
  - inversion He; subst. exact (Hm w e' w' H1).
Qed.

Lemma catchable_lift_getitem v k : catchable (lift (getitem v k)).
Proof.
  intros w e w' H. unfold lift in H. inversion H; subst.
  eapply getitem_exception; eassumption.
Qed.

Lemma catchable_lift_iter v : catchable (lift (iter v)).
Proof.
  intros w e w' H. unfold lift in H. inversion H; subst.
  eapply iter_exception; eassumption.
Qed.

Lemma catchable_read_json path : catchable (read_json E path).
Proof.
  intros w e w' H. unfold read_json in H.
  destruct (files w !! path) as [text|]; [destruct (json_loads E text)|];
    inversion H; reflexivity.
Qed.

Lemma catchable_write_json path v : catchable (write_json E path v).
Proof. intros w e w' H. discriminate. Qed.

Lemma catchable_try_except {A} (m : M A) (h : exn -> M A) :
  catchable m -> (forall e, catchable (h e)) -> catchable (try_except m h).
Proof.
  intros Hm Hh w e w' H. unfold try_except in H.
  destruct (m w) as [[a|e1] w1] eqn:Hmw; [discriminate|].
  rewrite (Hm w e1 w1 Hmw) in H. exact (Hh e1 w1 e w' H).
Qed.

Lemma translate_paragraph_catchable v : catchable (TranslateJson.translate_paragraph E v).
Proof.
  intros w e w' H.
  destruct v as [|b|n|s|l|kvs].
  - discriminate.
  - destruct b; inversion H; reflexivity.
  - unfold TranslateJson.translate_paragraph in H. cbn [truthy] in H.
    destruct (negb (negb (n =? 0)%Z)); inversion H; reflexivity.
  - destruct (translate_paragraph_total E s w) as (english & w1 & Hr & _).
    rewrite Hr in H. discriminate.
  - destruct l; inversion H; reflexivity.
  - destruct kvs; inversion H; reflexivity.
Qed.

Lemma translate_to_urdu_catchable v : catchable (TranslateJsonUrdu.translate_to_urdu E v).
Proof.
  intros w e w' H.
  destruct v as [|b|n|s|l|kvs].
  - discriminate.
  - destruct b; inversion H; reflexivity.
  - unfold TranslateJsonUrdu.translate_to_urdu in H. cbn [truthy] in H.
    destruct (negb (negb (n =? 0)%Z)); inversion H; reflexivity.
  - destruct (translate_to_urdu_total E s w) as (urdu & w1 & Hr & _).
    rewrite Hr in H. discriminate.
  - destruct l; inversion H; reflexivity.
  - destruct kvs; inversion H; reflexivity.
Qed.

Lemma tj_pages_catchable tp out todo : forall pages,
  catchable (TranslateJson.translate_pages E tp out todo pages).
Proof.
  induction todo as [|page rest IH]; intros pages; simpl; [apply catchable_ret|].
  apply catchable_bind; [apply catchable_lift_getitem|]. intros _.
  apply catchable_bind; [apply catchable_lift_getitem|]. intros german_text.
  apply catchable_bind; [apply translate_paragraph_catchable|]. intros english_text.
  apply catchable_bind; [apply catchable_lift_getitem|]. intros page_number.
  apply catchable_bind; [apply catchable_write_json|]. intros _. apply IH.
Qed.

Lemma urdu_pages_catchable tp out todo : forall pages,
  catchable (TranslateJsonUrdu.translate_pages E tp out todo pages).
Proof.
  induction todo as [|page rest IH]; intros pages; simpl; [apply catchable_ret|].
  apply catchable_bind; [apply catchable_lift_getitem|]. intros page_num.
  apply catchable_bind; [apply catchable_lift_getitem|]. intros english_text.
  apply catchable_bind; [apply translate_to_urdu_catchable|]. intros urdu_text.
  apply catchable_bind; [apply catchable_lift_getitem|]. intros german.
  apply catchable_bind; [apply catchable_write_json|]. intros _. apply IH.
Qed.

Lemma tj_file_catchable input output :
  catchable (TranslateJson.translate_json_file E input output).
Proof.
  unfold TranslateJson.translate_json_file.
  apply catchable_bind; [apply catchable_read_json|]. intros data.
  repeat (apply catchable_bind; [apply catchable_lift_getitem|]; intro).
  apply catchable_bind; [apply catchable_lift_iter|]. intros todo.
  apply catchable_bind; [apply tj_pages_catchable|]. intros _. apply catchable_ret.
Qed.

Lemma urdu_file_catchable input output :
  catchable (TranslateJsonUrdu.translate_json_file E input output).
Proof.
  unfold TranslateJsonUrdu.translate_json_file.
  apply catchable_bind; [apply catchable_read_json|]. intros data.
  repeat (apply catchable_bind; [apply catchable_lift_getitem|]; intro).
  apply catchable_bind; [apply catchable_lift_iter|]. intros todo.
  apply catchable_bind; [apply urdu_pages_catchable|]. intros _. apply catchable_ret.
Qed.

Lemma guarded_unit (m : M unit) w :
  catchable m -> exists w', try_except m (fun _ => ret tt) w = (Ret tt, w').
Proof.
  intros Hm. unfold try_except.
  destruct (m w) as [[[]|e] w1] eqn:H.
  - exists w1. reflexivity.
  - rewrite (Hm w e w1 H). exists w1. reflexivity.
Qed.
End Catchable.

(** X13: once [configure_api()] has returned, [main] of either translation
    stage always comes to its end: a document that is missing, does not
    parse, or lacks a key is given up (every exception a document raises is
    an [Exception], which the loop catches) and the loop goes on with the
    next file of the listing. *)
Theorem translation_batches_never_raise (E : Py.env) (output_dir : string)
    (listing : list string) (w : Py.world) :
  (exists w', TranslateJson.main E output_dir listing w = (Py.Ret tt, w')) /\
  (exists w', TranslateJsonUrdu.main E output_dir listing w = (Py.Ret tt, w')).
Proof.
  split.
  - revert w. induction listing as [|filename rest IH]; intros w; simpl.
    + exists w. reflexivity.
    + destruct (negb _); [apply IH|].
      unfold Py.bind.
      destruct (guarded_unit
                  (TranslateJson.translate_json_file E
                     (PyStr.path_join output_dir filename)
                     (PyStr.path_join output_dir
                        (PyStr.replace filename "_ocr.json" "_translated.json"))) w
                  (tj_file_catchable E _ _)) as (w1 & ->).
      apply IH.
  - revert w. induction listing as [|filename rest IH]; intros w; simpl.
    + exists w. reflexivity.
    + destruct (negb _); [apply IH|].
      unfold Py.bind.
      destruct (guarded_unit
                  (TranslateJsonUrdu.translate_json_file E
                     (PyStr.path_join output_dir filename)
                     (PyStr.path_join output_dir
                        (PyStr.replace filename "_translated.json" "_urdu.json"))) w
                  (urdu_file_catchable E _ _)) as (w1 & ->).
      apply IH.
Qed.

(** ** Calls per invocation and per page *)

Section Budget.
Import Py.
Variable E : env.

Lemma retry_loop_budget step terminal answer
  (step_spec : forall a w, exists w',
     step a w = (Ret (answer (List.length (calls w))), w') /\
     List.length (calls w') = S (List.length (calls w)) /\ files w' = files w) :
  forall attempts w, exists v w',
    retry_loop step terminal attempts w = (Ret v, w') /\ files w' = files w /\
    List.length (calls w) <= List.length (calls w')
      <= List.length (calls w) + List.length attempts /\
    (attempts <> [] -> List.length (calls w) + 1 <= List.length (calls w')).
Proof.
  induction attempts as [|a rest IH]; intros w; simpl.
  - exists terminal, w. split; [reflexivity|]. split; [reflexivity|].
    split; [lia | congruence].
  - destruct (step_spec a w) as (w1 & Hs & Hc & Hf). unfold bind. rewrite Hs.
    destruct (answer _) as [v|].
    + exists v, w1. split; [reflexivity|]. split; [exact Hf|]. split; lia.
    + destruct (IH w1) as (v & w' & Hr & Hf' & Hle & _).
      exists v, w'. split; [exact Hr|]. split; [congruence|]. split; lia.
Qed.

Lemma ocr_with_gemini_budget image w :
  delays_accepted E ->
  exists text w',
    OcrPage.ocr_with_gemini E image w = (Ret text, w') /\ files w' = files w /\
    List.length (calls w) + 1 <= List.length (calls w') <= List.length (calls w) + 12.
Proof.
  intros Hacc.
  destruct (ocr_attempts_total E image Hacc (seq 1 OcrPage.max_retries) w)
    as (text & w' & Hr & Hf & _ & Hlo & Hhi).
  exists text, w'. split; [exact Hr|]. split; [exact Hf|].
  rewrite length_seq in Hlo, Hhi. unfold OcrPage.max_retries in *. simpl in Hlo. lia.
Qed.

Lemma translate_paragraph_budget v w : exists r w',
  TranslateJson.translate_paragraph E v w = (r, w') /\ files w' = files w /\
  List.length (calls w) <= List.length (calls w') <= List.length (calls w) + 12.
Proof.
  assert (Hnone : forall r : res string, exists r0 w', (r, w) = (r0, w') /\ files w' = files w /\
            List.length (calls w) <= List.length (calls w') <= List.length (calls w) + 12)
    by (intros r; exists r, w; repeat split; lia).
  destruct v as [|b|n|s|l|kvs].
  - apply Hnone.
  - destruct b; apply Hnone.
  - unfold TranslateJson.translate_paragraph. cbn [truthy].
    destruct (negb (negb (n =? 0)%Z)); apply Hnone.
  - destruct (all_space s) eqn:Hs.
    + unfold TranslateJson.translate_paragraph. cbn [truthy].
      rewrite (strip_all_space s Hs). destruct (PyStr.truthy s); apply Hnone.
    + rewrite tj_translate_paragraph_nonblank by exact Hs.
      destruct (retry_loop_budget (TranslateJson.translate_attempt E s) "[Translation failed]"
                  (translation_answer E (TranslateJson.prompt s))
                  (tj_step_spec E s) (seq 1 12) w) as (t & w' & Hr & Hf & Hle & Hge).
      exists (Ret t), w'. rewrite length_seq in Hle.
      split; [exact Hr|]. split; [exact Hf|]. exact Hle.
  - destruct l; apply Hnone.
  - destruct kvs; apply Hnone.
Qed.

Lemma translate_to_urdu_budget v w : exists r w',
  TranslateJsonUrdu.translate_to_urdu E v w = (r, w') /\ files w' = files w /\
  List.length (calls w) <= List.length (calls w') <= List.length (calls w) + 12.
Proof.
  assert (Hnone : forall r : res string, exists r0 w', (r, w) = (r0, w') /\ files w' = files w /\
            List.length (calls w) <= List.length (calls w') <= List.length (calls w) + 12)
    by (intros r; exists r, w; repeat split; lia).
  destruct v as [|b|n|s|l|kvs].
  - apply Hnone.
  - destruct b; apply Hnone.
  - unfold TranslateJsonUrdu.translate_to_urdu. cbn [truthy].
    destruct (negb (negb (n =? 0)%Z)); apply Hnone.
  - destruct (all_space s) eqn:Hs.
    + unfold TranslateJsonUrdu.translate_to_urdu. cbn [truthy].
      rewrite (strip_all_space s Hs). destruct (PyStr.truthy s); apply Hnone.
    + rewrite urdu_translate_to_urdu_nonblank by exact Hs.
      destruct (retry_loop_budget (TranslateJsonUrdu.translate_attempt E s)
                  "[Urdu translation failed]"
                  (translation_answer E (TranslateJsonUrdu.prompt s))
                  (urdu_step_spec E s) (seq 1 12) w) as (t & w' & Hr & Hf & Hle & Hge).
      exists (Ret t), w'. rewrite length_seq in Hle.
      split; [exact Hr|]. split; [exact Hf|]. exact Hle.
  - destruct l; apply Hnone.
  - destruct kvs; apply Hnone.
Qed.

Lemma tj_pages_budget tp out todo : forall pages w r w',
  TranslateJson.translate_pages E tp out todo pages w = (r, w') ->
  List.length (calls w) <= List.length (calls w') <=
    List.length (calls w) + 12 * List.length todo.
Proof.
  induction todo as [|page rest IH]; intros pages w r w' Hrun.
  - simpl in Hrun. inversion Hrun; subst. simpl. lia.
  - cbn [TranslateJson.translate_pages] in Hrun. cbn [List.length].
    apply bind_inv in Hrun as [(x & w1 & H1 & Hrun) | (e & H1 & _)];
      [|unfold lift in H1; inversion H1; subst; lia].
    unfold lift in H1. inversion H1; subst w1. clear H1.
    apply bind_inv in Hrun as [(german & w1 & H1 & Hrun) | (e & H1 & _)];
      [|unfold lift in H1; inversion H1; subst; lia].
    unfold lift in H1. inversion H1; subst w1. clear H1.
    destruct (translate_paragraph_budget german w) as (r1 & w1 & Htr & _ & Hb).
    apply bind_inv in Hrun as [(english & w2 & H1 & Hrun) | (e & H1 & _)];
      [|rewrite Htr in H1; inversion H1; subst; lia].
    rewrite Htr in H1. inversion H1; subst w2. clear H1.
    apply bind_inv in Hrun as [(number & w2 & H1 & Hrun) | (e & H1 & _)];
      [|unfold lift in H1; inversion H1; subst; lia].
    unfold lift in H1. inversion H1; subst w2. clear H1.
    apply bind_inv in Hrun as [(u & w2 & H1 & Hrun) | (e & H1 & _)]; [|discriminate].
    unfold write_json, modify in H1. inversion H1; subst w2. clear H1.
    apply IH in Hrun. cbn [calls set_files] in Hrun. lia.
Qed.

Lemma urdu_pages_budget tp out todo : forall pages w r w',
  TranslateJsonUrdu.translate_pages E tp out todo pages w = (r, w') ->
  List.length (calls w) <= List.length (calls w') <=
    List.length (calls w) + 12 * List.length todo.
Proof.
  induction todo as [|page rest IH]; intros pages w r w' Hrun.
  - simpl in Hrun. inversion Hrun; subst. simpl. lia.
  - cbn [TranslateJsonUrdu.translate_pages] in Hrun. cbn [List.length].
    apply bind_inv in Hrun as [(x & w1 & H1 & Hrun) | (e & H1 & _)];
      [|unfold lift in H1; inversion H1; subst; lia].
    unfold lift in H1. inversion H1; subst w1. clear H1.
    apply bind_inv in Hrun as [(english & w1 & H1 & Hrun) | (e & H1 & _)];
      [|unfold lift in H1; inversion H1; subst; lia].
    unfold lift in H1. inversion H1; subst w1. clear H1.
    destruct (translate_to_urdu_budget english w) as (r1 & w1 & Htr & _ & Hb).
    apply bind_inv in Hrun as [(urdu & w2 & H1 & Hrun) | (e & H1 & _)];
      [|rewrite Htr in H1; inversion H1; subst; lia].
    rewrite Htr in H1. inversion H1; subst w2. clear H1.
    apply bind_inv in Hrun as [(german & w2 & H1 & Hrun) | (e & H1 & _)];
      [|unfold lift in H1; inversion H1; subst; lia].
    unfold lift in H1. inversion H1; subst w2. clear H1.
    apply bind_inv in Hrun as [(u & w2 & H1 & Hrun) | (e & H1 & _)]; [|discriminate].
    unfold write_json, modify in H1. inversion H1; subst w2. clear H1.
    apply IH in Hrun. cbn [calls set_files] in Hrun. lia.
Qed.

Lemma process_pages_full total out :
  delays_accepted E -> PyStr.truthy (PyStr.dirname out) = true ->
  forall images page_num pages w,
  exists contents w',
    List.length contents = List.length images /\
    Forall (fun c => PyStr.strip c = c) contents /\
    OcrPage.process_pages E total out images page_num pages w
    = (Ret (pages ++ ocr_pages page_num contents), w') /\
    files w' = flushed E (List.length images) out
                 (OcrPage.results total (pages ++ ocr_pages page_num contents)) (files w) /\
    List.length (calls w) + List.length images <= List.length (calls w')
      <= List.length (calls w) + 12 * List.length images.
Proof.
  intros Hacc Hdir.
  induction images as [|image rest IH]; intros page_num pages w.
  - exists [], w. simpl. rewrite app_nil_r. repeat split; [constructor | lia | lia].
  - destruct (ocr_with_gemini_budget image w Hacc) as (text & w1 & Hocr & Hf1 & Hb).
    set (page := ocr_page page_num (PyStr.strip text)).
    destruct (IH (S page_num) (pages ++ [page])
                (set_files (<[out := json_dumps E (OcrPage.results total (pages ++ [page]))]>
                              (files w1)) w1))
      as (contents & w' & Hlen & Hst & Hrun & Hf' & Hb').
    exists (PyStr.strip text :: contents), w'.
    split; [simpl; congruence|].
    split; [constructor; [apply strip_strip | exact Hst]|].
    cbn [OcrPage.process_pages ocr_pages]. fold page.
    replace (pages ++ page :: ocr_pages (S page_num) contents)
      with ((pages ++ [page]) ++ ocr_pages (S page_num) contents)
      by (rewrite <- app_assoc; reflexivity).
    split.
    { unfold bind at 1. rewrite Hocr.
      unfold bind at 1. rewrite save_json_results_ok by exact Hdir. exact Hrun. }
    split.
    + rewrite Hf'. cbn [files set_files]. rewrite Hf1.
      destruct rest as [|image' rest']; simpl.
      * destruct contents; [|discriminate]. simpl. now rewrite app_nil_r.
      * apply insert_insert_eq.
    + cbn [calls set_files] in Hb'. cbn [List.length]. lia.
Qed.
End Budget.

(** ** Pages that lack a key; delays; the limiter *)

Section Progress.
Import Py.
Variable E : env.

Lemma tj_malformed_page tp out contents kvs rest w :
  assoc "page_number" kvs <> None ->
  assoc "content" kvs = None ->
  exists englishs wk,
    List.length englishs = List.length contents /\
    TranslateJson.translate_pages E tp out (ocr_pages 1 contents) [] w
    = (Ret (translated_pages 1 contents englishs), wk) /\
    TranslateJson.translate_pages E tp out (ocr_pages 1 contents ++ JObj kvs :: rest) [] w
    = (Raise (KeyError "content"), wk) /\
    files wk = flushed E (List.length contents) out
                 (TranslateJson.translations tp (translated_pages 1 contents englishs))
                 (files w).
Proof.
  intros Hnum Hcontent.
  destruct (tj_pages_spec E tp out contents 1 [] w) as (englishs & wk & Hlen & Hrun & Hf).
  simpl in Hrun, Hf.
  exists englishs, wk. split; [exact Hlen|]. split; [exact Hrun|]. split; [|exact Hf].
  rewrite tj_pages_app. unfold bind at 1. rewrite Hrun.
  cbn [TranslateJson.translate_pages]. unfold bind at 1, lift at 1. cbn [getitem].
  destruct (assoc "page_number" kvs); [|congruence].
  unfold bind at 1, lift at 1. cbn [getitem]. rewrite Hcontent. reflexivity.
Qed.

Lemma translate_to_urdu_nonblank_budget s w :
  all_space s = false ->
  exists urdu w1,
    TranslateJsonUrdu.translate_to_urdu E (JStr s) w = (Ret urdu, w1) /\
    files w1 = files w /\
    List.length (calls w) + 1 <= List.length (calls w1) <= List.length (calls w) + 12.
Proof.
  intros Hs. rewrite urdu_translate_to_urdu_nonblank by exact Hs.
  destruct (retry_loop_budget (TranslateJsonUrdu.translate_attempt E s)
              "[Urdu translation failed]"
              (translation_answer E (TranslateJsonUrdu.prompt s))
              (urdu_step_spec E s) (seq 1 12) w) as (t & w' & Hr & Hf & Hle & Hge).
  exists t, w'. rewrite length_seq in Hle.
  split; [exact Hr|]. split; [exact Hf|]. split; [apply Hge; discriminate | apply Hle].
Qed.

Lemma urdu_missing_german tp out kvs english rest pages w :
  assoc "page_number" kvs <> None ->
  assoc "english" kvs = Some (JStr english) ->
  all_space english = false ->
  assoc "german" kvs = None ->
  exists w1,
    TranslateJsonUrdu.translate_pages E tp out (JObj kvs :: rest) pages w
    = (Raise (KeyError "german"), w1) /\
    files w1 = files w /\
    List.length (calls w) + 1 <= List.length (calls w1) <= List.length (calls w) + 12.
Proof.
  intros Hnum Heng Hs Hger.
  destruct (translate_to_urdu_nonblank_budget english w Hs) as (urdu & w1 & Hr & Hf & Hb).
  exists w1. split; [|split; assumption].
  cbn [TranslateJsonUrdu.translate_pages]. unfold bind at 1, lift at 1. cbn [getitem].
  destruct (assoc "page_number" kvs); [|congruence].
  unfold bind at 1, lift at 1. cbn [getitem]. rewrite Heng.
  unfold bind at 1. rewrite Hr.
  unfold bind at 1, lift at 1. cbn [getitem]. rewrite Hger. reflexivity.
Qed.

End Progress.

Section LimiterBounds.
Import Py.
Variable E : env.
Hypothesis drift_nonneg : forall n, (0 <= drift E n)%Q.

Lemma ocr_acquires_within : acquires_within (OcrPage.wait_for_rate_limit E).
Proof.
  intros w Hinv.
  unfold OcrPage.wait_for_rate_limit, bind, time_monotonic, get, modify, time_sleep.
  cbn [clock ticks last_request_time set_clock log_sleep].
  pose proof (drift_nonneg (ticks w)). pose proof (drift_nonneg (S (ticks w))).
  pose proof (drift_nonneg (S (S (ticks w)))).
  destruct (Qltb _ _) eqn:Hlt; eexists; (split; [reflexivity|]);
    cbn [clock ticks last_request_time slept set_clock log_sleep set_last_request_time];
    unfold OcrPage.REQUEST_INTERVAL in *.
  - apply Qltb_true in Hlt.
    split; [reflexivity|]. split; [lra|]. right. eexists. split; [reflexivity|]. lra.
  - split; [reflexivity|]. split; [lra|]. left. reflexivity.
Qed.

Lemma tj_acquires_within : acquires_within (TranslateJson.wait_for_rate_limit E).
Proof.
  intros w Hinv.
  unfold TranslateJson.wait_for_rate_limit, bind, time_monotonic, get, modify, time_sleep.
  cbn [clock ticks last_request_time set_clock log_sleep].
  pose proof (drift_nonneg (ticks w)). pose proof (drift_nonneg (S (ticks w))).
  pose proof (drift_nonneg (S (S (ticks w)))).
  destruct (Qltb _ _) eqn:Hlt; eexists; (split; [reflexivity|]);
    cbn [clock ticks last_request_time slept set_clock log_sleep set_last_request_time];
    unfold TranslateJson.REQUEST_INTERVAL in *.
  - apply Qltb_true in Hlt.
    split; [reflexivity|]. split; [lra|]. right. eexists. split; [reflexivity|]. lra.
  - split; [reflexivity|]. split; [lra|]. left. reflexivity.
Qed.

Lemma urdu_acquires_within : acquires_within (TranslateJsonUrdu.wait_for_rate_limit E).
Proof.
  intros w Hinv.
  unfold TranslateJsonUrdu.wait_for_rate_limit, bind, time_monotonic, get, modify,
    time_sleep, ret.
  cbn [clock ticks last_request_time set_clock log_sleep].
  pose proof (drift_nonneg (ticks w)). pose proof (drift_nonneg (S (ticks w))).
  pose proof (drift_nonneg (S (S (ticks w)))).
  destruct (Qltb _ _) eqn:Hlt; eexists; (split; [reflexivity|]);
    cbn [clock ticks last_request_time slept set_clock log_sleep set_last_request_time];
    unfold TranslateJsonUrdu.REQUEST_INTERVAL in *.
  - apply Qltb_true in Hlt.
    split; [reflexivity|]. split; [lra|]. right. eexists. split; [reflexivity|]. lra.
  - split; [reflexivity|]. split; [lra|]. left. reflexivity.
Qed.
End LimiterBounds.

(** X1: [extract_text_from_json] never raises and changes nothing: whatever
    the path holds, it returns a list of segments in the world it was called
    in.  The list is empty when the file is missing, when its text does not
    parse, and when reading the parsed value raises; otherwise it is the
    list of segments of the parsed value. *)
Theorem extract_text_from_json_never_raises (E : Py.env) (filepath : string) (w : Py.world) :
  exists segments,
    LlmEvaluation.extract_text_from_json E filepath w = (Py.Ret segments, w) /\
    (Py.files w !! filepath = None -> segments = []) /\
    (forall text, Py.files w !! filepath = Some text -> Py.json_loads E text = None ->
                  segments = []) /\
    (forall text data,
       Py.files w !! filepath = Some text -> Py.json_loads E text = Some data ->
       segments = match LlmEvaluation.text_segments E data with
                  | Py.Ret l => l
                  | Py.Raise _ => []
                  end).
Proof. apply extract_text_from_json_returns. Qed.

(** X2: the segments read from a JSON object do not depend on the order in
    which the file lists its keys: two objects with the same entries (keys
    distinct) in different orders give the same result, in every branch of
    the adapter. *)
Theorem extract_ignores_key_order (E : Py.env) (kvs1 kvs2 : list (string * Py.json)) :
  NoDup (map fst kvs1) -> Permutation kvs1 kvs2 ->
  LlmEvaluation.text_segments E (Py.JObj kvs1) = LlmEvaluation.text_segments E (Py.JObj kvs2).
Proof. apply text_segments_key_order. Qed.

Lemma extract_ignores_key_order_witness :
  NoDup (map fst [("page_2", Py.JStr "b"); ("page_10", Py.JStr "a")]) /\
  Permutation [("page_2", Py.JStr "b"); ("page_10", Py.JStr "a")]
              [("page_10", Py.JStr "a"); ("page_2", Py.JStr "b")] /\
  LlmEvaluation.text_segments (demo_env flaky_model [])
    (Py.JObj [("page_2", Py.JStr "b"); ("page_10", Py.JStr "a")])
  = LlmEvaluation.text_segments (demo_env flaky_model [])
      (Py.JObj [("page_10", Py.JStr "a"); ("page_2", Py.JStr "b")]).
Proof.
  assert (H1 : NoDup (map fst [("page_2", Py.JStr "b"); ("page_10", Py.JStr "a")])).
  { simpl. apply NoDup_cons_2; [|apply NoDup_cons_2; [|apply NoDup_nil_2]].
    - intros H. apply list_elem_of_singleton in H. discriminate.
    - apply not_elem_of_nil. }
  assert (H2 : Permutation [("page_2", Py.JStr "b"); ("page_10", Py.JStr "a")]
                           [("page_10", Py.JStr "a"); ("page_2", Py.JStr "b")])
    by apply perm_swap.
  split; [exact H1|]. split; [exact H2|].
  exact (extract_ignores_key_order (demo_env flaky_model []) _ _ H1 H2).
Defined.

(** X4: [translate_segment] never raises and sends exactly one request to
    the endpoint, in every case.  The prompt ends with the line
    [Source Text to Translate:] followed by the text; the result is the
    cleaned answer, or [None] when the request fails. *)
Theorem translate_segment_one_request (E : Py.env) (base_dir text url : string)
    (cfg : LlmEvaluation.model_config) (w : Py.world) :
  exists head,
    let prompt := (head ++ "Source Text to Translate:" ++ PyStr.nl ++ text)%string in
    LlmEvaluation.translate_segment E base_dir text cfg url w
    = (Py.Ret (option_map LlmEvaluation.clean_response
                 (Py.requests_post E (List.length (Py.posts w)) url
                    (LlmEvaluation.base_model cfg) prompt)),
       Py.log_post prompt w).
Proof.
  unfold LlmEvaluation.translate_segment.
  destruct (read_file_content_pure base_dir (LlmEvaluation.prompt_file cfg) w) as (sys & Hsys).
  destruct (read_file_content_pure base_dir (LlmEvaluation.example_file cfg) w) as (ex & Hex).
  unfold Py.bind at 1. rewrite Hsys. unfold Py.bind at 1. rewrite Hex.
  unfold Py.try_except, Py.bind, LlmEvaluation.post.
  match goal with
  | |- context [Py.log_post (?h ++ "Source Text to Translate:" ++ PyStr.nl ++ text)%string w] =>
      exists h
  end.
  cbv zeta.
  destruct (Py.requests_post E _ _ _ _); reflexivity.
Qed.

(** X5: the segment loop of the local pipeline only appends to its output
    file: whatever the endpoint answers, and also when the loop ends with
    [sys.exit()], the file holds what it held before followed by the pages
    written, and no other file is touched. *)
Theorem translate_segments_only_appends (E : Py.env) (base_dir out url : string)
    (cfg : LlmEvaluation.model_config) (segments : list string) (i : nat)
    (w : Py.world) (old : string) :
  Py.files w !! out = Some old ->
  exists added,
    Py.files (snd (LlmEvaluation.translate_segments E base_dir out cfg url segments i w))
    = <[out := (old ++ added)%string]> (Py.files w).
Proof.
  intros Hold.
  destruct (LlmEvaluation.translate_segments E base_dir out cfg url segments i w)
    as [r w'] eqn:Hrun.
  exact (translate_segments_appends E base_dir out cfg url segments i w old r w' Hold Hrun).
Qed.

Lemma translate_segments_only_appends_witness :
  Py.files (Py.start 0 {[ "results/a_general.txt" := "--- kept ---" ]})
    !! "results/a_general.txt" = Some "--- kept ---" /\
  exists added,
    Py.files (snd (LlmEvaluation.translate_segments steady_local_env "app"
                     "results/a_general.txt" general_profile "http://localhost/api"
                     ["x"; "y"] 0
                     (Py.start 0 {[ "results/a_general.txt" := "--- kept ---" ]})))
    = <[ "results/a_general.txt" := ("--- kept ---" ++ added)%string ]>
        (Py.files (Py.start 0 {[ "results/a_general.txt" := "--- kept ---" ]})).
Proof.
  assert (H : Py.files (Py.start 0 {[ "results/a_general.txt" := "--- kept ---" ]})
                !! "results/a_general.txt" = Some "--- kept ---")
    by apply lookup_singleton_eq.
  split; [exact H|].
  exact (translate_segments_only_appends steady_local_env "app" "results/a_general.txt"
           "http://localhost/api" general_profile ["x"; "y"] 0 _ _ H).
Defined.

(** X6: [main] of the local pipeline, from the directory listing on, never
    overwrites or truncates a file that exists when it starts: every path
    that held a text holds the same text afterwards, whatever the listing
    and the answers of the endpoint. *)
Theorem main_keeps_existing_files (E : Py.env)
    (base_dir data_folder result_folder url : string)
    (cfg : LlmEvaluation.model_config) (listing : list string) (w : Py.world)
    (path content : string) :
  Py.files w !! path = Some content ->
  Py.files (snd (LlmEvaluation.main E base_dir data_folder result_folder cfg url listing w))
    !! path = Some content.
Proof.
  intros Hfile. unfold LlmEvaluation.main.
  destruct (filter _ listing) as [|f fl] eqn:Hfl; [exact Hfile|].
  destruct (LlmEvaluation.process_files E base_dir data_folder result_folder cfg url
              (f :: fl) w) as [r w'] eqn:Hrun.
  apply (lookup_weaken (Py.files w)); [exact Hfile|].
  exact (process_files_keeps E base_dir data_folder result_folder cfg url (f :: fl) w r w' Hrun).
Qed.

Lemma main_keeps_existing_files_witness :
  Py.files one_document !! "data/a.json"
  = Some (show_json (Py.JList [Py.JStr "x"; Py.JStr "y"])) /\
  Py.files (snd (LlmEvaluation.main steady_local_env "app" "data" "results" general_profile
                   "http://localhost/api" ["a.json"] one_document))
    !! "data/a.json"
  = Some (show_json (Py.JList [Py.JStr "x"; Py.JStr "y"])).
Proof.
  assert (H : Py.files one_document !! "data/a.json"
              = Some (show_json (Py.JList [Py.JStr "x"; Py.JStr "y"])))
    by apply lookup_singleton_eq.
  split; [exact H|].
  exact (main_keeps_existing_files steady_local_env "app" "data" "results"
           "http://localhost/api" general_profile ["a.json"] one_document _ _ H).
Defined.

(** X7: a run of [main] of the local pipeline (from the directory listing
    on) that came to its end is not repeated: run again on the same listing,
    the input files being there, it sends no request and writes nothing, and
    ends in the world it started in. *)
Theorem main_rerun_is_noop (E : Py.env)
    (base_dir data_folder result_folder url : string)
    (cfg : LlmEvaluation.model_config) (listing : list string) (w w' : Py.world) :
  (forall f, In f listing -> PyStr.endswith f ".json" = true ->
             is_Some (Py.files w !! PyStr.path_join data_folder f)) ->
  LlmEvaluation.main E base_dir data_folder result_folder cfg url listing w = (Py.Ret tt, w') ->
  LlmEvaluation.main E base_dir data_folder result_folder cfg url listing w' = (Py.Ret tt, w').
Proof.
  intros Hin Hrun. unfold LlmEvaluation.main in *.
  assert (Hfl : forall f, In f (filter (fun f => PyStr.endswith f ".json") listing) ->
                          is_Some (Py.files w !! PyStr.path_join data_folder f)).
  { intros f Hf. apply list_elem_of_In, list_elem_of_filter in Hf as [Hf1 Hf2].
    apply Hin; [apply list_elem_of_In; exact Hf2 | apply Is_true_true; exact Hf1]. }
  destruct (filter _ listing) as [|f fl].
  - inversion Hrun; subst. reflexivity.
  - exact (process_files_again E base_dir data_folder result_folder cfg url (f :: fl)
             w w' Hrun Hfl w' (reflexivity _)).
Qed.

Lemma main_rerun_is_noop_witness :
  (forall f, In f ["a.json"; "notes.txt"] -> PyStr.endswith f ".json" = true ->
             is_Some (Py.files one_document !! PyStr.path_join "data" f)) /\
  LlmEvaluation.main steady_local_env "app" "data" "results" general_profile
    "http://localhost/api" ["a.json"; "notes.txt"] one_document
  = (Py.Ret tt,
     snd (LlmEvaluation.main steady_local_env "app" "data" "results" general_profile
            "http://localhost/api" ["a.json"; "notes.txt"] one_document)) /\
  LlmEvaluation.main steady_local_env "app" "data" "results" general_profile
    "http://localhost/api" ["a.json"; "notes.txt"]
    (snd (LlmEvaluation.main steady_local_env "app" "data" "results" general_profile
            "http://localhost/api" ["a.json"; "notes.txt"] one_document))
  = (Py.Ret tt,
     snd (LlmEvaluation.main steady_local_env "app" "data" "results" general_profile
            "http://localhost/api" ["a.json"; "notes.txt"] one_document)).
Proof.
  assert (H1 : forall f, In f ["a.json"; "notes.txt"] -> PyStr.endswith f ".json" = true ->
             is_Some (Py.files one_document !! PyStr.path_join "data" f)).
  { intros f [<- | [<- | []]] Hf; [|discriminate].
    exists (show_json (Py.JList [Py.JStr "x"; Py.JStr "y"])). apply lookup_singleton_eq. }
  assert (H2 : LlmEvaluation.main steady_local_env "app" "data" "results" general_profile
                 "http://localhost/api" ["a.json"; "notes.txt"] one_document
               = (Py.Ret tt,
                  snd (LlmEvaluation.main steady_local_env "app" "data" "results"
                         general_profile "http://localhost/api" ["a.json"; "notes.txt"]
                         one_document)))
    by (vm_compute; reflexivity).
  split; [exact H1|]. split; [exact H2|].
  exact (main_rerun_is_noop steady_local_env "app" "data" "results" "http://localhost/api"
           general_profile ["a.json"; "notes.txt"] one_document _ H1 H2).
Defined.

(** The run of that batch: two requests, one file of two pages. *)
Example main_run_example :
  exists w',
    LlmEvaluation.main steady_local_env "app" "data" "results" general_profile
      "http://localhost/api" ["a.json"; "notes.txt"] one_document = (Py.Ret tt, w') /\
    List.length (Py.posts w') = 2 /\
    Py.files w' !! "results/a_general.txt"
    = Some ("--- Page 1 ---" ++ PyStr.nl ++ "Hallo" ++ PyStr.nl ++ PyStr.nl
            ++ "--- Page 2 ---" ++ PyStr.nl ++ "Hallo" ++ PyStr.nl ++ PyStr.nl)%string.
Proof. eexists. split; [vm_compute; reflexivity|]. split; vm_compute; reflexivity. Qed.

(** X8: one invocation makes at most twelve calls of the model and touches
    no file.  [ocr_with_gemini] makes one to twelve calls and returns a text
    or raises what [time.sleep] raises, [OverflowError], [ValueError] or
    [OSError], nothing else; it returns when the service asks for no delay
    that [time.sleep] refuses.  [translate_paragraph] and
    [translate_to_urdu], on any JSON value, make twelve calls at most. *)
Theorem one_invocation_call_budget (E : Py.env) (image : string) (v : Py.json) (w : Py.world) :
  (exists r w',
     OcrPage.ocr_with_gemini E image w = (r, w') /\
     Py.files w' = Py.files w /\
     List.length (Py.calls w) + 1 <= List.length (Py.calls w')
       <= List.length (Py.calls w) + 12 /\
     ((exists text, r = Py.Ret text) \/ r = Py.Raise Py.OverflowError
      \/ r = Py.Raise Py.ValueError \/ r = Py.Raise Py.OSError) /\
     (delays_accepted E -> exists text, r = Py.Ret text)) /\
  (exists r w',
     TranslateJson.translate_paragraph E v w = (r, w') /\
     Py.files w' = Py.files w /\
     List.length (Py.calls w) <= List.length (Py.calls w')
       <= List.length (Py.calls w) + 12) /\
  (exists r w',
     TranslateJsonUrdu.translate_to_urdu E v w = (r, w') /\
     Py.files w' = Py.files w /\
     List.length (Py.calls w) <= List.length (Py.calls w')
       <= List.length (Py.calls w) + 12).
Proof.
  split; [|split; [apply translate_paragraph_budget | apply translate_to_urdu_budget]].
  destruct (ocr_with_gemini_outcome E image w) as (r & w' & Hr & Hf & _ & Hlo & Hhi & He).
  exists r, w'. split; [exact Hr|]. split; [exact Hf|]. split; [lia|]. split.
  - destruct r as [text|e]; [left; now exists text|]. right.
    destruct (He e eq_refl) as [-> | [-> | ->]]; auto.
  - intros Hacc. destruct (ocr_with_gemini_total E image w Hacc) as (text & w1 & Hr1 & _).
    exists text. congruence.
Qed.

(** The two ways [ocr_with_gemini] ends on its first attempt's error. *)
Example ocr_with_gemini_outcomes :
  fst (OcrPage.ocr_with_gemini (demo_env quota_model []) "png" (Py.start 0 ∅)) = Py.Ret "" /\
  fst (OcrPage.ocr_with_gemini (demo_env overflow_model []) "png" (Py.start 0 ∅))
  = Py.Raise Py.OverflowError.
Proof. split; vm_compute; reflexivity. Qed.

(** X9: when the output path has a directory part and the service asks for
    no delay that [time.sleep] refuses, [process_pdf_pages] returns the
    document [{"document": {"total_pages": n, "pages": [...]}}] with one page
    [{"page_number": i, "content": ...}] per image, numbered from 1, and [n]
    the number of images; every content is stripped of surrounding
    whitespace; the output file holds that document (when there is a page at
    all); and the run makes between one and twelve calls per page. *)
Theorem process_pdf_pages_complete (E : Py.env) (images : list string) (output_path : string)
    (w : Py.world) :
  PyStr.truthy (PyStr.dirname output_path) = true ->
  delays_accepted E ->
  exists contents w',
    List.length contents = List.length images /\
    Forall (fun content => PyStr.strip content = content) contents /\
    OcrPage.process_pdf_pages E images output_path w
    = (Py.Ret (document (Py.JNum (Z.of_nat (List.length images))) (ocr_pages 1 contents)),
       w') /\
    Py.files w'
    = flushed E (List.length images) output_path
        (document (Py.JNum (Z.of_nat (List.length images))) (ocr_pages 1 contents))
        (Py.files w) /\
    List.length (Py.calls w) + List.length images <= List.length (Py.calls w')
      <= List.length (Py.calls w) + 12 * List.length images.
Proof.
  intros Hdir Hacc.
  destruct (process_pages_full E (List.length images) output_path Hacc Hdir images 1 [] w)
    as (contents & w' & Hlen & Hst & Hrun & Hf & Hb).
  simpl in Hrun, Hf.
  exists contents, w'. split; [exact Hlen|]. split; [exact Hst|].
  split; [|split; [exact Hf|exact Hb]].
  unfold OcrPage.process_pdf_pages, Py.bind. rewrite Hrun. reflexivity.
Qed.

Lemma process_pdf_pages_complete_witness :
  PyStr.truthy (PyStr.dirname "out/doc_ocr.json") = true /\
  exists contents w',
    List.length contents = 2 /\
    OcrPage.process_pdf_pages (demo_env flaky_model []) ["png1"; "png2"] "out/doc_ocr.json"
      (Py.start 0 ∅)
    = (Py.Ret (document (Py.JNum 2) (ocr_pages 1 contents)), w') /\
    Py.files w' = {[ "out/doc_ocr.json"
                     := show_json (document (Py.JNum 2) (ocr_pages 1 contents)) ]}.
Proof.
  assert (H : PyStr.truthy (PyStr.dirname "out/doc_ocr.json") = true) by reflexivity.
  split; [exact H|].
  destruct (process_pdf_pages_complete (demo_env flaky_model []) ["png1"; "png2"]
              "out/doc_ocr.json" (Py.start 0 ∅) H (delays_accepted_flaky []))
    as (contents & w' & Hlen & _ & Hrun & Hf & _).
  exists contents, w'. split; [exact Hlen|]. split; [exact Hrun|exact Hf].
Defined.

(** That run, and what becomes of it when the path has no directory part or
    the service asks for too long a delay: the function raises, and nothing
    is written. *)
Example process_pdf_pages_runs :
  (exists w',
     OcrPage.process_pdf_pages (demo_env flaky_model []) ["png1"; "png2"] "out/doc_ocr.json"
       (Py.start 0 ∅)
     = (Py.Ret (document (Py.JNum 2) (ocr_pages 1 ["ok"; "ok"])), w') /\
     List.length (Py.calls w') = 4) /\
  (exists w',
     OcrPage.process_pdf_pages (demo_env flaky_model []) ["png1"; "png2"] "doc_ocr.json"
       (Py.start 0 ∅)
     = (Py.Raise (Py.FileNotFoundError ""), w') /\ Py.files w' = ∅) /\
  (exists w',
     OcrPage.process_pdf_pages (demo_env overflow_model []) ["png1"; "png2"]
       "out/doc_ocr.json" (Py.start 0 ∅)
     = (Py.Raise Py.OverflowError, w') /\ Py.files w' = ∅).
Proof.
  split; [|split]; eexists; (split; [vm_compute; reflexivity|]); vm_compute; reflexivity.
Qed.

(** X10: the page loops of the two translation stages make twelve calls per
    input page at most, on any list of pages, also when the loop ends with
    an exception. *)
Theorem page_loops_call_budget (E : Py.env) (total_pages : Py.json) (out : string)
    (todo pages : list Py.json) (w : Py.world) :
  (List.length (Py.calls w)
   <= List.length (Py.calls (snd (TranslateJson.translate_pages E total_pages out todo pages w)))
   <= List.length (Py.calls w) + 12 * List.length todo) /\
  (List.length (Py.calls w)
   <= List.length
        (Py.calls (snd (TranslateJsonUrdu.translate_pages E total_pages out todo pages w)))
   <= List.length (Py.calls w) + 12 * List.length todo).
Proof.
  split.
  - destruct (TranslateJson.translate_pages E total_pages out todo pages w) as [r w'] eqn:H.
    exact (tj_pages_budget E total_pages out todo pages w r w' H).
  - destruct (TranslateJsonUrdu.translate_pages E total_pages out todo pages w)
      as [r w'] eqn:H.
    exact (urdu_pages_budget E total_pages out todo pages w r w' H).
Qed.

(** X11: a page without ["content"] stops the first translation stage with
    [KeyError('content')], and the pages before it stay written: the world
    the loop ends in is the one a run over the pages before would have left,
    with the output file holding their translations. *)
Theorem malformed_page_keeps_progress (E : Py.env) (total_pages : Py.json) (out : string)
    (contents : list string) (kvs : list (string * Py.json)) (rest : list Py.json)
    (w : Py.world) :
  Py.assoc "page_number" kvs <> None ->
  Py.assoc "content" kvs = None ->
  exists englishs wk,
    List.length englishs = List.length contents /\
    TranslateJson.translate_pages E total_pages out (ocr_pages 1 contents) [] w
    = (Py.Ret (translated_pages 1 contents englishs), wk) /\
    TranslateJson.translate_pages E total_pages out
      (ocr_pages 1 contents ++ Py.JObj kvs :: rest) [] w
    = (Py.Raise (Py.KeyError "content"), wk) /\
    Py.files wk
    = flushed E (List.length contents) out
        (TranslateJson.translations total_pages (translated_pages 1 contents englishs))
        (Py.files w).
Proof. apply tj_malformed_page. Qed.

Lemma malformed_page_keeps_progress_witness :
  Py.assoc "page_number" [("page_number", Py.JNum 2)] <> None /\
  Py.assoc "content" [("page_number", Py.JNum 2)] = None /\
  exists englishs wk,
    List.length englishs = 1 /\
    TranslateJson.translate_pages (demo_env counting_model []) (Py.JNum 2)
      "out/doc_translated.json"
      (ocr_pages 1 ["eins"] ++ Py.JObj [("page_number", Py.JNum 2)] :: []) [] (Py.start 0 ∅)
    = (Py.Raise (Py.KeyError "content"), wk) /\
    Py.files wk
    = flushed (demo_env counting_model []) 1 "out/doc_translated.json"
        (TranslateJson.translations (Py.JNum 2) (translated_pages 1 ["eins"] englishs))
        (Py.files (Py.start 0 ∅)).
Proof.
  assert (H1 : Py.assoc "page_number" [("page_number", Py.JNum 2)] <> None) by discriminate.
  assert (H2 : Py.assoc "content" [("page_number", Py.JNum 2)] = None) by reflexivity.
  split; [exact H1|]. split; [exact H2|].
  destruct (malformed_page_keeps_progress (demo_env counting_model []) (Py.JNum 2)
              "out/doc_translated.json" ["eins"] [("page_number", Py.JNum 2)] []
              (Py.start 0 ∅) H1 H2) as (englishs & wk & Hlen & _ & Hrun & Hf).
  exists englishs, wk. split; [exact Hlen|]. split; [exact Hrun | exact Hf].
Defined.

(** X12: the Urdu stage reads ["german"] only after it has translated the
    page: on a page with a non-blank ["english"] and no ["german"] it makes
    the calls of the translation (one to twelve), raises
    [KeyError('german')] and writes nothing for the page. *)
Theorem urdu_page_without_german (E : Py.env) (total_pages : Py.json) (out english : string)
    (kvs : list (string * Py.json)) (rest pages : list Py.json) (w : Py.world) :
  Py.assoc "page_number" kvs <> None ->
  Py.assoc "english" kvs = Some (Py.JStr english) ->
  all_space english = false ->
  Py.assoc "german" kvs = None ->
  exists w1,
    TranslateJsonUrdu.translate_pages E total_pages out (Py.JObj kvs :: rest) pages w
    = (Py.Raise (Py.KeyError "german"), w1) /\
    Py.files w1 = Py.files w /\
    List.length (Py.calls w) + 1 <= List.length (Py.calls w1)
      <= List.length (Py.calls w) + 12.
Proof. apply urdu_missing_german. Qed.

Lemma urdu_page_without_german_witness :
  Py.assoc "page_number" [("page_number", Py.JNum 1); ("english", Py.JStr "one")] <> None /\
  Py.assoc "english" [("page_number", Py.JNum 1); ("english", Py.JStr "one")]
  = Some (Py.JStr "one") /\
  all_space "one" = false /\
  Py.assoc "german" [("page_number", Py.JNum 1); ("english", Py.JStr "one")] = None /\
  exists w1,
    TranslateJsonUrdu.translate_pages (demo_env counting_model []) (Py.JNum 1)
      "out/doc_urdu.json"
      [Py.JObj [("page_number", Py.JNum 1); ("english", Py.JStr "one")]] [] (Py.start 0 ∅)
    = (Py.Raise (Py.KeyError "german"), w1) /\
    Py.files w1 = Py.files (Py.start 0 ∅).
Proof.
  assert (H1 : Py.assoc "page_number"
                 [("page_number", Py.JNum 1); ("english", Py.JStr "one")] <> None)
    by discriminate.
  assert (H2 : Py.assoc "english" [("page_number", Py.JNum 1); ("english", Py.JStr "one")]
               = Some (Py.JStr "one")) by reflexivity.
  assert (H3 : all_space "one" = false) by reflexivity.
  assert (H4 : Py.assoc "german" [("page_number", Py.JNum 1); ("english", Py.JStr "one")]
               = None) by reflexivity.
  split; [exact H1|]. split; [exact H2|]. split; [exact H3|]. split; [exact H4|].
  destruct (urdu_page_without_german (demo_env counting_model []) (Py.JNum 1)
              "out/doc_urdu.json" "one" _ [] [] (Py.start 0 ∅) H1 H2 H3 H4)
    as (w1 & Hrun & Hf & _).
  exists w1. split; [exact Hrun | exact Hf].
Defined.

(** ** The stages one after the other *)

Section Chain.
Import Py.
Variable E : env.

Lemma ocr_all_fail total out :
  PyStr.truthy (PyStr.dirname out) = true ->
  (forall attempt n p, ocr_retries E attempt (generate_content E n p) = true) ->
  forall images page_num pages w,
  exists w',
    OcrPage.process_pages E total out images page_num pages w
    = (Ret (pages ++ ocr_pages page_num (repeat "" (List.length images))), w') /\
    List.length (calls w') = List.length (calls w) + 12 * List.length images /\
    files w' = flushed E (List.length images) out
                 (OcrPage.results total
                    (pages ++ ocr_pages page_num (repeat "" (List.length images))))
                 (files w).
Proof.
  intros Hdir Hfail.
  induction images as [|image rest IH]; intros page_num pages w.
  - exists w. simpl. rewrite app_nil_r. split; [reflexivity|]. split; [lia | reflexivity].
  - destruct (ocr_attempts_exhausted E image 12 1 w) as (w1 & Hr & Hc & Hf1).
    { intros i _. apply Hfail. }
    set (page := ocr_page page_num "").
    destruct (IH (S page_num) (pages ++ [page])
                (set_files (<[out := json_dumps E (OcrPage.results total (pages ++ [page]))]>
                              (files w1)) w1)) as (w' & Hrun & Hc' & Hf').
    exists w'. cbn [List.length repeat ocr_pages]. fold page.
    replace (pages ++ page :: ocr_pages (S page_num) (repeat "" (List.length rest)))
      with ((pages ++ [page]) ++ ocr_pages (S page_num) (repeat "" (List.length rest)))
      by (rewrite <- app_assoc; reflexivity).
    split; [|split].
    + cbn [OcrPage.process_pages]. unfold bind at 1.
      unfold OcrPage.ocr_with_gemini, OcrPage.max_retries. rewrite Hr.
      unfold bind at 1. rewrite save_json_results_ok by exact Hdir. exact Hrun.
    + cbn [calls set_files] in Hc'. lia.
    + rewrite Hf'. cbn [files set_files]. rewrite Hf1.
      destruct rest as [|image' rest']; simpl.
      * now rewrite app_nil_r.
      * apply insert_insert_eq.
Qed.

Lemma tj_blank_pages tp out : forall contents page_num pages w,
  Forall (fun content => all_space content = true) contents ->
  exists w',
    TranslateJson.translate_pages E tp out (ocr_pages page_num contents) pages w
    = (Ret (pages ++ translated_pages page_num contents
                       (repeat "" (List.length contents))), w') /\
    calls w' = calls w /\
    files w' = flushed E (List.length contents) out
                 (TranslateJson.translations tp
                    (pages ++ translated_pages page_num contents
                                (repeat "" (List.length contents))))
                 (files w).
Proof.
  induction contents as [|content rest IH]; intros page_num pages w Hall.
  - exists w. simpl. rewrite app_nil_r. repeat split.
  - inversion Hall as [|c l Hc Hrest]; subst.
    assert (Htr : TranslateJson.translate_paragraph E (JStr content) w = (Ret "", w)).
    { unfold TranslateJson.translate_paragraph. cbn [truthy].
      rewrite (strip_all_space content Hc). destruct (PyStr.truthy content); reflexivity. }
    set (page := translated_page page_num content "").
    destruct (IH (S page_num) (pages ++ [page])
                (set_files (<[out := json_dumps E (TranslateJson.translations tp (pages ++ [page]))]>
                              (files w)) w) Hrest)
      as (w' & Hrun & Hc' & Hf').
    exists w'. cbn [ocr_pages translated_pages List.length repeat]. fold page.
    replace (pages ++ page :: translated_pages (S page_num) rest (repeat "" (List.length rest)))
      with ((pages ++ [page]) ++ translated_pages (S page_num) rest
                                   (repeat "" (List.length rest)))
      by (rewrite <- app_assoc; reflexivity).
    split; [|split].
    + cbn [TranslateJson.translate_pages]. unfold ocr_page.
      unfold bind at 1. cbn [lift getitem assoc String.eqb Ascii.eqb Bool.eqb].
      unfold bind at 1. cbn [lift getitem assoc String.eqb Ascii.eqb Bool.eqb].
      unfold bind at 1. rewrite Htr.
      unfold bind at 1. cbn [lift getitem assoc String.eqb Ascii.eqb Bool.eqb].
      exact Hrun.
    + exact Hc'.
    + rewrite Hf'. cbn [files set_files].
      destruct rest as [|content' rest']; simpl.
      * now rewrite app_nil_r.
      * apply insert_insert_eq.
Qed.

Lemma all_space_repeat n : Forall (fun content => all_space content = true) (repeat "" n).
Proof. induction n; simpl; constructor; [reflexivity | assumption]. Qed.

Lemma stages_carry_text images ocr_path translated_path urdu_path w :
  images <> [] ->
  PyStr.truthy (PyStr.dirname ocr_path) = true ->
  delays_accepted E ->
  let n := List.length images in
  exists contents w1,
    List.length contents = n /\
    OcrPage.process_pdf_pages E images ocr_path w
    = (Ret (OcrPage.results n (ocr_pages 1 contents)), w1) /\
    files w1 !! ocr_path
    = Some (json_dumps E (OcrPage.results n (ocr_pages 1 contents))) /\
    (json_loads E (json_dumps E (OcrPage.results n (ocr_pages 1 contents)))
     = Some (OcrPage.results n (ocr_pages 1 contents)) ->
     exists englishs w2,
       List.length englishs = n /\
       TranslateJson.translate_json_file E ocr_path translated_path w1 = (Ret tt, w2) /\
       files w2 !! translated_path
       = Some (json_dumps E (TranslateJson.translations (JNum (Z.of_nat n))
                               (translated_pages 1 contents englishs))) /\
       (json_loads E (json_dumps E (TranslateJson.translations (JNum (Z.of_nat n))
                                      (translated_pages 1 contents englishs)))
        = Some (TranslateJson.translations (JNum (Z.of_nat n))
                  (translated_pages 1 contents englishs)) ->
        exists urdus w3,
          List.length urdus = n /\
          TranslateJsonUrdu.translate_json_file E translated_path urdu_path w2
          = (Ret tt, w3) /\
          files w3 !! urdu_path
          = Some (json_dumps E (TranslateJsonUrdu.urdu_translations (JNum (Z.of_nat n))
                                  (urdu_pages 1 contents englishs urdus))))).
Proof.
  intros Hne Hdir Hacc n.
  assert (Hn : 1 <= n) by (unfold n; destruct images; [congruence | simpl; lia]).
  destruct (process_pages_spec E n ocr_path Hacc Hdir images 1 [] w)
    as (contents & w1 & Hlc & Hocr & Hf1).
  simpl in Hocr, Hf1. fold n in Hlc, Hf1.
  assert (Hfile1 : files w1 !! ocr_path
            = Some (json_dumps E (OcrPage.results n (ocr_pages 1 contents))))
    by (rewrite Hf1; apply flushed_lookup; exact Hn).
  exists contents, w1. split; [exact Hlc|].
  split; [unfold OcrPage.process_pdf_pages, bind; fold n; rewrite Hocr; reflexivity|].
  split; [exact Hfile1|].
  intros Hround1.
  destruct (tj_pages_spec E (JNum (Z.of_nat (List.length contents))) translated_path
              contents 1 [] w1) as (englishs & w2 & Hle & Htj & Hf2).
  simpl in Htj, Hf2.
  assert (Hfile2 : files w2 !! translated_path
            = Some (json_dumps E (TranslateJson.translations
                                    (JNum (Z.of_nat (List.length contents)))
                                    (translated_pages 1 contents englishs))))
    by (rewrite Hf2; apply flushed_lookup; lia).
  exists englishs, w2. split; [congruence|].
  split; [|split].
  - rewrite (tj_file_unfold E ocr_path translated_path
               (json_dumps E (OcrPage.results n (ocr_pages 1 contents))) contents w1).
    + unfold bind. rewrite Htj. reflexivity.
    + exact Hfile1.
    + rewrite Hlc. exact Hround1.
  - rewrite <- Hlc. exact Hfile2.
  - intros Hround2.
    destruct (urdu_pages_spec E (JNum (Z.of_nat (List.length contents))) urdu_path
                contents englishs 1 [] w2 Hle) as (urdus & w3 & Hlu & Hur & Hf3).
    simpl in Hur, Hf3.
    exists urdus, w3. split; [congruence|]. split.
    + rewrite (urdu_file_unfold E translated_path urdu_path
                 (json_dumps E (TranslateJson.translations
                                  (JNum (Z.of_nat (List.length contents)))
                                  (translated_pages 1 contents englishs)))
                 contents englishs w2).
      * unfold bind. rewrite Hur. reflexivity.
      * exact Hfile2.
      * rewrite Hlc. exact Hround2.
    + rewrite <- Hlc, Hf3. apply flushed_lookup. lia.
Qed.
End Chain.

(** X14: the three stages fit together.  On a scan of at least one page,
    with an output path that has a directory part and a service that asks
    for no delay that [time.sleep] refuses, the OCR stage returns and
    writes the document [{"document": {"total_pages": n, "pages": [...]}}]
    of [n] pages [{"page_number": i, "content": ...}]; if the parser reads
    back what was written, the first translation stage comes to its end on
    that file and writes [n] pages, each with the OCR text under ["german"]
    and its translation under ["english"]; and if the parser reads that
    back, the Urdu stage comes to its end and writes [n] pages that carry
    the OCR text, the English and the Urdu text. *)
Theorem three_stages_carry_text (E : Py.env) (images : list string)
    (ocr_path translated_path urdu_path : string) (w : Py.world) :
  images <> [] ->
  PyStr.truthy (PyStr.dirname ocr_path) = true ->
  delays_accepted E ->
  let n := List.length images in
  let total_pages := Py.JNum (Z.of_nat n) in
  exists contents w1,
    List.length contents = n /\
    OcrPage.process_pdf_pages E images ocr_path w
    = (Py.Ret (document total_pages (ocr_pages 1 contents)), w1) /\
    Py.files w1 !! ocr_path
    = Some (Py.json_dumps E (document total_pages (ocr_pages 1 contents))) /\
    (Py.json_loads E (Py.json_dumps E (document total_pages (ocr_pages 1 contents)))
     = Some (document total_pages (ocr_pages 1 contents)) ->
     exists englishs w2,
       List.length englishs = n /\
       TranslateJson.translate_json_file E ocr_path translated_path w1 = (Py.Ret tt, w2) /\
       Py.files w2 !! translated_path
       = Some (Py.json_dumps E
                 (document total_pages (translated_pages 1 contents englishs))) /\
       (Py.json_loads E
          (Py.json_dumps E (document total_pages (translated_pages 1 contents englishs)))
        = Some (document total_pages (translated_pages 1 contents englishs)) ->
        exists urdus w3,
          List.length urdus = n /\
          TranslateJsonUrdu.translate_json_file E translated_path urdu_path w2
          = (Py.Ret tt, w3) /\
          Py.files w3 !! urdu_path
          = Some (Py.json_dumps E
                    (document total_pages (urdu_pages 1 contents englishs urdus))))).
Proof.
  intros Hne Hdir Hacc.
  exact (stages_carry_text E images ocr_path translated_path urdu_path w Hne Hdir Hacc).
Qed.

Lemma three_stages_carry_text_witness :
  ["scan1"; "scan2"] <> [] /\
  PyStr.truthy (PyStr.dirname "output/doc_ocr.json") = true /\
  exists contents w1,
    List.length contents = 2 /\
    OcrPage.process_pdf_pages chain_env ["scan1"; "scan2"] "output/doc_ocr.json"
      (Py.start 0 ∅)
    = (Py.Ret (document (Py.JNum 2) (ocr_pages 1 contents)), w1) /\
    Py.files w1 !! "output/doc_ocr.json"
    = Some (show_json (document (Py.JNum 2) (ocr_pages 1 contents))).
Proof.
  assert (H : ["scan1"; "scan2"] <> []) by discriminate.
  assert (Hdir : PyStr.truthy (PyStr.dirname "output/doc_ocr.json") = true) by reflexivity.
  split; [exact H|]. split; [exact Hdir|].
  destruct (three_stages_carry_text chain_env ["scan1"; "scan2"] "output/doc_ocr.json"
              "output/doc_translated.json" "output/doc_urdu.json" (Py.start 0 ∅) H Hdir
              (delays_accepted_counting _))
    as (contents & w1 & Hlen & Hrun & Hfile & _).
  exists contents, w1. split; [exact Hlen|]. split; [exact Hrun | exact Hfile].
Defined.

(** The three scripts run one after the other on a scan of two pages. *)
Example three_stages_example :
  exists d1 w1 w2 w3,
    OcrPage.process_pdf_pages chain_env ["scan1"; "scan2"] "output/doc_ocr.json"
      (Py.start 0 ∅) = (Py.Ret d1, w1) /\
    TranslateJson.main chain_env "output" ["doc_ocr.json"] w1 = (Py.Ret tt, w2) /\
    TranslateJsonUrdu.main chain_env "output" ["doc_ocr.json"; "doc_translated.json"] w2
    = (Py.Ret tt, w3) /\
    Py.files w3 !! "output/doc_urdu.json"
    = Some (show_json (document (Py.JNum 2)
                         (urdu_pages 1 ["v0"; "v1"] ["v2"; "v3"] ["v4"; "v5"]))) /\
    List.length (Py.calls w3) = 6.
Proof.
  do 4 eexists. split; [vm_compute; reflexivity|].
  split; [vm_compute; reflexivity|]. split; [vm_compute; reflexivity|].
  split; vm_compute; reflexivity.
Qed.

(** X15: when time does not run backwards, an acquisition of any of the
    three rate limiters, called when the last grant is not in the future,
    returns, sleeps at most once, for more than zero and at most five
    seconds, and leaves the time of the last grant at the clock reading it
    returns at. *)
Theorem wait_sleeps_at_most_interval (E : Py.env) :
  (forall n, (0 <= Py.drift E n)%Q) ->
  acquires_within (OcrPage.wait_for_rate_limit E) /\
  acquires_within (TranslateJson.wait_for_rate_limit E) /\
  acquires_within (TranslateJsonUrdu.wait_for_rate_limit E).
Proof.
  intros Hdrift. split; [|split].
  - apply ocr_acquires_within, Hdrift.
  - apply tj_acquires_within, Hdrift.
  - apply urdu_acquires_within, Hdrift.
Qed.

Lemma wait_sleeps_at_most_interval_witness :
  (forall n, (0 <= Py.drift chain_env n)%Q) /\
  (Py.last_request_time (Py.start 2 ∅) <= Py.clock (Py.start 2 ∅))%Q /\
  exists w',
    TranslateJsonUrdu.wait_for_rate_limit chain_env (Py.start 2 ∅) = (Py.Ret tt, w') /\
    Py.last_request_time w' = Py.clock w' /\
    (Py.clock (Py.start 2 ∅) <= Py.clock w')%Q /\
    (Py.slept w' = Py.slept (Py.start 2 ∅) \/
     exists t, Py.slept w' = t :: Py.slept (Py.start 2 ∅) /\ (0 < t <= 5)%Q).
Proof.
  assert (H1 : forall n, (0 <= Py.drift chain_env n)%Q) by (intros n; simpl; lra).
  assert (H2 : (Py.last_request_time (Py.start 2 ∅) <= Py.clock (Py.start 2 ∅))%Q)
    by (simpl; lra).
  split; [exact H1|]. split; [exact H2|].
  exact (proj2 (proj2 (wait_sleeps_at_most_interval chain_env H1)) (Py.start 2 ∅) H2).
Defined.

(** X16: the delay after a failed attempt.  The exponential backoff of the
    three scripts lies between 2 and 60 seconds and does not decrease from
    one attempt to the next; the delay of the OCR loop, which may be the one
    the service asks for, is one second at least. *)
Theorem backoff_delays_bounded (attempt : nat) (err_text : string) :
  (2 <= TranslateJson.sleep_seconds attempt <= 60)%Q /\
  (2 <= TranslateJsonUrdu.sleep_time attempt <= 60)%Q /\
  (2 <= OcrPage.backoff attempt <= 60)%Q /\
  (1 <= OcrPage.sleep_seconds attempt err_text)%Q /\
  (TranslateJson.sleep_seconds attempt <= TranslateJson.sleep_seconds (S attempt))%Q /\
  (TranslateJsonUrdu.sleep_time attempt <= TranslateJsonUrdu.sleep_time (S attempt))%Q /\
  (OcrPage.backoff attempt <= OcrPage.backoff (S attempt))%Q.
Proof.
  pose proof (capped_backoff_bounds attempt) as Hb.
  pose proof (capped_backoff_mono attempt (S attempt) ltac:(lia)) as Hm.
  split; [exact Hb|]. split; [exact Hb|]. split; [exact Hb|].
  split; [apply ocr_sleep_seconds_positive|].
  split; [exact Hm|]. split; exact Hm.
Qed.

(** The delay of the OCR loop has no upper bound of its own: it is what the
    service asks for, plus one second. *)
Example ocr_delay_can_exceed_cap :
  (OcrPage.sleep_seconds 1 "Please retry in 3600s" == 3601)%Q.
Proof. vm_compute. reflexivity. Qed.

(** X17: an outage of the service during OCR is not reported downstream.
    When every call fails, with errors that ask for no delay that
    [time.sleep] refuses, and the output path has a directory part,
    [process_pdf_pages] still returns and writes the document with one page
    per image, every content empty, after twelve calls per page; and the
    first translation stage, run on that file, comes to its end without a
    single call and writes an empty translation for every page. *)
Theorem ocr_outage_is_silent (E : Py.env) (images : list string)
    (ocr_path translated_path : string) (w : Py.world) :
  images <> [] ->
  PyStr.truthy (PyStr.dirname ocr_path) = true ->
  (forall attempt n p, ocr_retries E attempt (Py.generate_content E n p) = true) ->
  let n := List.length images in
  let total_pages := Py.JNum (Z.of_nat n) in
  let empty := repeat "" n in
  Py.json_loads E (Py.json_dumps E (document total_pages (ocr_pages 1 empty)))
  = Some (document total_pages (ocr_pages 1 empty)) ->
  exists w1 w2,
    OcrPage.process_pdf_pages E images ocr_path w
    = (Py.Ret (document total_pages (ocr_pages 1 empty)), w1) /\
    List.length (Py.calls w1) = List.length (Py.calls w) + 12 * n /\
    Py.files w1 !! ocr_path
    = Some (Py.json_dumps E (document total_pages (ocr_pages 1 empty))) /\
    TranslateJson.translate_json_file E ocr_path translated_path w1 = (Py.Ret tt, w2) /\
    Py.calls w2 = Py.calls w1 /\
    Py.files w2 !! translated_path
    = Some (Py.json_dumps E (document total_pages (translated_pages 1 empty empty))).
Proof.
  intros Hne Hdir Hfail n total_pages empty Hround.
  assert (Hn : 1 <= n) by (unfold n; destruct images; [congruence | simpl; lia]).
  assert (Hlen : List.length empty = n) by apply repeat_length.
  destruct (ocr_all_fail E n ocr_path Hdir Hfail images 1 [] w) as (w1 & Hocr & Hc1 & Hf1).
  simpl in Hocr, Hf1. fold n in Hocr, Hc1, Hf1. fold empty in Hocr, Hf1.
  destruct (tj_blank_pages E (Py.JNum (Z.of_nat (List.length empty))) translated_path
              empty 1 [] w1 (all_space_repeat n)) as (w2 & Htj & Hc2 & Hf2).
  simpl in Htj, Hf2. rewrite Hlen in Htj, Hf2. fold empty in Htj, Hf2.
  assert (Hfile1 : Py.files w1 !! ocr_path
                   = Some (Py.json_dumps E (OcrPage.results n (ocr_pages 1 empty))))
    by (rewrite Hf1; apply flushed_lookup; exact Hn).
  exists w1, w2.
  split; [unfold OcrPage.process_pdf_pages, Py.bind; fold n; rewrite Hocr; reflexivity|].
  split; [exact Hc1|]. split; [exact Hfile1|].
  split; [|split].
  - rewrite (tj_file_unfold E ocr_path translated_path _ empty w1 Hfile1).
    + rewrite Hlen. unfold Py.bind. rewrite Htj. reflexivity.
    + rewrite Hlen. exact Hround.
  - exact Hc2.
  - rewrite Hf2. apply flushed_lookup. exact Hn.
Qed.

Lemma ocr_outage_is_silent_witness :
  ["scan"] <> [] /\
  PyStr.truthy (PyStr.dirname "output/doc_ocr.json") = true /\
  (forall attempt n p, ocr_retries outage_env attempt (Py.generate_content outage_env n p) = true) /\
  Py.json_loads outage_env
    (Py.json_dumps outage_env (document (Py.JNum 1) (ocr_pages 1 [""])))
  = Some (document (Py.JNum 1) (ocr_pages 1 [""])) /\
  exists w1 w2,
    OcrPage.process_pdf_pages outage_env ["scan"] "output/doc_ocr.json" (Py.start 0 ∅)
    = (Py.Ret (document (Py.JNum 1) (ocr_pages 1 [""])), w1) /\
    List.length (Py.calls w1) = 12 /\
    TranslateJson.translate_json_file outage_env "output/doc_ocr.json"
      "output/doc_translated.json" w1 = (Py.Ret tt, w2) /\
    Py.calls w2 = Py.calls w1 /\
    Py.files w2 !! "output/doc_translated.json"
    = Some (Py.json_dumps outage_env
              (document (Py.JNum 1) (translated_pages 1 [""] [""]))).
Proof.
  assert (H1 : ["scan"] <> []) by discriminate.
  assert (Hdir : PyStr.truthy (PyStr.dirname "output/doc_ocr.json") = true) by reflexivity.
  assert (H2 : forall attempt n p,
             ocr_retries outage_env attempt (Py.generate_content outage_env n p) = true).
  { intros attempt n p.
    change (ocr_retries outage_env attempt (Py.Raises "Please retry in 3.5s") = true).
    unfold ocr_retries.
    rewrite (sleep_refuses_any_attempt _ attempt 1). vm_compute. reflexivity. }
  assert (H3 : Py.json_loads outage_env
                 (Py.json_dumps outage_env (document (Py.JNum 1) (ocr_pages 1 [""])))
               = Some (document (Py.JNum 1) (ocr_pages 1 [""])))
    by (vm_compute; reflexivity).
  split; [exact H1|]. split; [exact Hdir|]. split; [exact H2|]. split; [exact H3|].
  destruct (ocr_outage_is_silent outage_env ["scan"] "output/doc_ocr.json"
              "output/doc_translated.json" (Py.start 0 ∅) H1 Hdir H2 H3)
    as (w1 & w2 & Hocr & Hc1 & _ & Htj & Hc2 & Hf2).
  exists w1, w2. split; [exact Hocr|]. split; [exact Hc1|].
  split; [exact Htj|]. split; [exact Hc2 | exact Hf2].
Defined.

(** The same outage with errors that ask for too long a delay is not
    silent: the OCR stage raises on the first page and writes nothing. *)
Example ocr_outage_can_raise :
  exists w1,
    OcrPage.process_pdf_pages (demo_env overflow_model []) ["scan"] "output/doc_ocr.json"
      (Py.start 0 ∅)
    = (Py.Raise Py.OverflowError, w1) /\
    List.length (Py.calls w1) = 1 /\ Py.files w1 = ∅.
Proof. eexists. split; [vm_compute; reflexivity|]. split; vm_compute; reflexivity. Qed.

(** ** What the local pipeline reads of the other stages' output *)

Section Compat.
Import Py.
Variable E : env.

Lemma pages_segments_ocr_pages : forall contents page_num acc,
  LlmEvaluation.pages_segments E (ocr_pages page_num contents) acc = Ret (acc ++ contents).
Proof.
  induction contents as [|content rest IH]; intros page_num acc.
  - simpl. rewrite app_nil_r. reflexivity.
  - cbn [ocr_pages LlmEvaluation.pages_segments]. unfold ocr_page.
    cbn [contains getitem assoc String.eqb Ascii.eqb Bool.eqb LlmEvaluation.str].
    rewrite IH, <- app_assoc. reflexivity.
Qed.

Lemma pages_segments_translated_pages : forall germans englishs page_num acc,
  LlmEvaluation.pages_segments E (translated_pages page_num germans englishs) acc = Ret acc.
Proof.
  induction germans as [|german rest IH]; intros englishs page_num acc; [reflexivity|].
  destruct englishs as [|english englishs]; [reflexivity|].
  cbn [translated_pages LlmEvaluation.pages_segments]. unfold translated_page.
  cbn [contains assoc String.eqb Ascii.eqb Bool.eqb]. apply IH.
Qed.

Lemma pages_segments_urdu_pages : forall germans englishs urdus page_num acc,
  LlmEvaluation.pages_segments E (urdu_pages page_num germans englishs urdus) acc = Ret acc.
Proof.
  induction germans as [|german rest IH]; intros englishs urdus page_num acc; [reflexivity|].
  destruct englishs as [|english englishs]; [reflexivity|].
  destruct urdus as [|urdu urdus]; [reflexivity|].
  cbn [urdu_pages LlmEvaluation.pages_segments]. unfold urdu_page.
  cbn [contains assoc String.eqb Ascii.eqb Bool.eqb]. apply IH.
Qed.

Lemma extract_of_document filepath text pages w :
  files w !! filepath = Some text ->
  json_loads E text = Some (JObj [("document", JObj pages)]) ->
  assoc "pages" pages <> None ->
  LlmEvaluation.extract_text_from_json E filepath w
  = (match getitem (JObj pages) "pages" with
     | Ret v =>
         match iter v with
         | Ret items =>
             match LlmEvaluation.pages_segments E items [] with
             | Ret l => Ret l
             | Raise _ => Ret []
             end
         | Raise _ => Ret []
         end
     | Raise _ => Ret []
     end, w).
Proof.
  intros Hfile Hload Hpages.
  unfold LlmEvaluation.extract_text_from_json, try_except, bind, read_json.
  rewrite Hfile, Hload. unfold lift, LlmEvaluation.text_segments.
  cbn [assoc String.eqb Ascii.eqb Bool.eqb contains getitem].
  destruct (assoc "pages" pages) as [v|]; [|congruence].
  destruct (iter v) as [items|e] eqn:Hiter.
  - destruct (LlmEvaluation.pages_segments E items []) as [l|e] eqn:Hseg; [reflexivity|].
    rewrite (pages_segments_exception E items [] e Hseg). reflexivity.
  - rewrite (iter_exception v e Hiter). reflexivity.
Qed.
End Compat.

(** X18: the local pipeline reads the output of the OCR stage: on a file
    that holds such a document [extract_text_from_json] returns the contents
    of its pages, in order.  On the output of either translation stage it
    returns no segment (their pages have no ["content"]), so [main] skips
    such a file. *)
Theorem local_pipeline_reads_ocr_output (E : Py.env) (filepath text : string)
    (w : Py.world) (total : nat) (tp : Py.json) (contents englishs urdus : list string) :
  Py.files w !! filepath = Some text ->
  (Py.json_loads E text = Some (OcrPage.results total (ocr_pages 1 contents)) ->
   LlmEvaluation.extract_text_from_json E filepath w = (Py.Ret contents, w)) /\
  (Py.json_loads E text
   = Some (TranslateJson.translations tp (translated_pages 1 contents englishs)) ->
   LlmEvaluation.extract_text_from_json E filepath w = (Py.Ret [], w)) /\
  (Py.json_loads E text
   = Some (TranslateJsonUrdu.urdu_translations tp (urdu_pages 1 contents englishs urdus)) ->
   LlmEvaluation.extract_text_from_json E filepath w = (Py.Ret [], w)).
Proof.
  intros Hfile. split; [|split]; intros Hload.
  - rewrite (extract_of_document E filepath text _ w Hfile Hload) by discriminate.
    cbn [Py.getitem Py.assoc String.eqb Ascii.eqb Bool.eqb Py.iter].
    rewrite pages_segments_ocr_pages. reflexivity.
  - rewrite (extract_of_document E filepath text _ w Hfile Hload) by discriminate.
    cbn [Py.getitem Py.assoc String.eqb Ascii.eqb Bool.eqb Py.iter].
    rewrite pages_segments_translated_pages. reflexivity.
  - rewrite (extract_of_document E filepath text _ w Hfile Hload) by discriminate.
    cbn [Py.getitem Py.assoc String.eqb Ascii.eqb Bool.eqb Py.iter].
    rewrite pages_segments_urdu_pages. reflexivity.
Qed.

Lemma local_pipeline_reads_ocr_output_witness :
  Py.files (Py.start 0 {[ "data/doc_ocr.json"
                          := show_json (OcrPage.results 2 (ocr_pages 1 ["v0"; "v1"])) ]})
    !! "data/doc_ocr.json"
  = Some (show_json (OcrPage.results 2 (ocr_pages 1 ["v0"; "v1"]))) /\
  Py.json_loads chain_env (show_json (OcrPage.results 2 (ocr_pages 1 ["v0"; "v1"])))
  = Some (OcrPage.results 2 (ocr_pages 1 ["v0"; "v1"])) /\
  LlmEvaluation.extract_text_from_json chain_env "data/doc_ocr.json"
    (Py.start 0 {[ "data/doc_ocr.json"
                   := show_json (OcrPage.results 2 (ocr_pages 1 ["v0"; "v1"])) ]})
  = (Py.Ret ["v0"; "v1"],
     Py.start 0 {[ "data/doc_ocr.json"
                   := show_json (OcrPage.results 2 (ocr_pages 1 ["v0"; "v1"])) ]}).
Proof.
  assert (H1 : Py.files (Py.start 0 {[ "data/doc_ocr.json"
                 := show_json (OcrPage.results 2 (ocr_pages 1 ["v0"; "v1"])) ]})
                 !! "data/doc_ocr.json"
               = Some (show_json (OcrPage.results 2 (ocr_pages 1 ["v0"; "v1"]))))
    by apply lookup_singleton_eq.
  assert (H2 : Py.json_loads chain_env
                 (show_json (OcrPage.results 2 (ocr_pages 1 ["v0"; "v1"])))
               = Some (OcrPage.results 2 (ocr_pages 1 ["v0"; "v1"])))
    by (vm_compute; reflexivity).
  split; [exact H1|]. split; [exact H2|].
  exact (proj1 (local_pipeline_reads_ocr_output chain_env "data/doc_ocr.json" _ _ 2
                  Py.JNull ["v0"; "v1"] [] [] H1) H2).
Defined.

(** ** Time asleep *)

Section Latency.
Import Py.
Variable E : env.
Hypothesis drift_nonneg : forall n, (0 <= drift E n)%Q.

Lemma wait_cost_nonneg g : (0 <= wait_cost g)%Q.
Proof. apply Q.le_max_l. Qed.

Lemma wait_cost_covers g : (5 - g <= wait_cost g)%Q.
Proof. apply Q.le_max_r. Qed.

Lemma longest_sleep_nonneg attempts : forall g, (0 <= longest_sleep attempts g)%Q.
Proof.
  induction attempts as [|a rest IH]; intros g; cbn [longest_sleep]; [lra|].
  pose proof (wait_cost_nonneg g). pose proof (IH 0%Q).
  pose proof (Q.le_max_l (longest_sleep rest 0)
                (capped_backoff a + longest_sleep rest (capped_backoff a))).
  lra.
Qed.

Lemma tj_attempt_costs text : attempt_costs (TranslateJson.translate_attempt E text).
Proof.
  intros a w g Hg Hgap. pose proof (capped_backoff_bounds a) as [Hb _].
  pose proof (wait_cost_nonneg g). pose proof (wait_cost_covers g).
  unfold TranslateJson.translate_attempt, TranslateJson.wait_for_rate_limit,
    try_except, model_generate_content, time_monotonic, get, modify, time_sleep, ret, bind.
  cbn [clock ticks last_request_time set_clock log_sleep].
  pose proof (drift_nonneg (ticks w)). pose proof (drift_nonneg (S (ticks w))).
  pose proof (drift_nonneg (S (S (ticks w)))). pose proof (drift_nonneg (S (S (S (ticks w))))).
  unfold TranslateJson.REQUEST_INTERVAL.
  change (TranslateJson.sleep_seconds a) with (capped_backoff a).
  destruct (Qltb _ _) eqn:Hlt;
    [apply Qltb_true in Hlt | apply Qltb_false in Hlt];
    cbn [clock ticks last_request_time calls set_clock log_sleep set_last_request_time
         log_call];
    destruct (generate_content E _ _) as [out|msg];
    try destruct (PyStr.truthy (PyStr.strip out));
    cbn [is_Exception];
    do 2 eexists; (split; [reflexivity|]);
    unfold asleep;
    cbn [clock ticks last_request_time calls slept set_clock log_sleep
         set_last_request_time log_call fold_right];
    first [ left; split; lra | right; split; [reflexivity|]; split; lra ].
Qed.

Lemma urdu_attempt_costs text : attempt_costs (TranslateJsonUrdu.translate_attempt E text).
Proof.
  intros a w g Hg Hgap. pose proof (capped_backoff_bounds a) as [Hb _].
  pose proof (wait_cost_nonneg g). pose proof (wait_cost_covers g).
  unfold TranslateJsonUrdu.translate_attempt, TranslateJsonUrdu.wait_for_rate_limit,
    try_except, model_generate_content, time_monotonic, get, modify, time_sleep, ret, bind.
  cbn [clock ticks last_request_time set_clock log_sleep].
  pose proof (drift_nonneg (ticks w)). pose proof (drift_nonneg (S (ticks w))).
  pose proof (drift_nonneg (S (S (ticks w)))). pose proof (drift_nonneg (S (S (S (ticks w))))).
  unfold TranslateJsonUrdu.REQUEST_INTERVAL.
  change (TranslateJsonUrdu.sleep_time a) with (capped_backoff a).
  destruct (Qltb _ _) eqn:Hlt;
    [apply Qltb_true in Hlt | apply Qltb_false in Hlt];
    cbn [clock ticks last_request_time calls set_clock log_sleep set_last_request_time
         log_call];
    destruct (generate_content E _ _) as [out|msg];
    try destruct (PyStr.truthy (PyStr.strip out));
    cbn [is_Exception];
    do 2 eexists; (split; [reflexivity|]);
    unfold asleep;
    cbn [clock ticks last_request_time calls slept set_clock log_sleep
         set_last_request_time log_call fold_right];
    first [ left; split; lra | right; split; [reflexivity|]; split; lra ].
Qed.

Lemma retry_loop_sleeps (step : nat -> M (option string)) (terminal : string)
  (step_costs : attempt_costs step) :
  forall attempts w g, (0 <= g)%Q -> (g <= clock w - last_request_time w)%Q ->
    sleeps_at_most (longest_sleep attempts g) (retry_loop step terminal attempts) w.
Proof.
  induction attempts as [|a rest IH]; intros w g Hg Hgap.
  - exists terminal, w. cbn [retry_loop longest_sleep]. unfold ret.
    split; [reflexivity|]. split; lra.
  - pose proof (capped_backoff_bounds a) as [Hb _].
    pose proof (longest_sleep_nonneg rest 0%Q) as Hrest.
    pose proof (Q.le_max_l (longest_sleep rest 0)
                  (capped_backoff a + longest_sleep rest (capped_backoff a))) as Hl.
    pose proof (Q.le_max_r (longest_sleep rest 0)
                  (capped_backoff a + longest_sleep rest (capped_backoff a))) as Hr.
    unfold sleeps_at_most. cbn [retry_loop longest_sleep]. unfold bind.
    destruct (step_costs a w g Hg Hgap) as (r & w1 & Hs & [[Hgap1 Hcost] | (-> & Hgap1 & Hcost)]);
      rewrite Hs.
    + destruct r as [v|].
      * exists v, w1. unfold ret. split; [reflexivity|]. split; lra.
      * destruct (IH w1 0%Q ltac:(lra) Hgap1) as (v & w' & Hrun & Hinv' & Hcost').
        exists v, w'. split; [exact Hrun|]. split; [exact Hinv'|]. lra.
    + destruct (IH w1 (capped_backoff a) ltac:(lra) Hgap1) as (v & w' & Hrun & Hinv' & Hcost').
      exists v, w'. split; [exact Hrun|]. split; [exact Hinv'|]. lra.
Qed.

Lemma longest_sleep_twelve : (longest_sleep (seq 1 12) 0 == 491)%Q.
Proof. vm_compute. reflexivity. Qed.

Lemma translate_paragraph_sleeps s w :
  (last_request_time w <= clock w)%Q ->
  sleeps_at_most 491 (TranslateJson.translate_paragraph E (JStr s)) w.
Proof.
  intros Hinv. destruct (all_space s) eqn:Hs.
  - exists "", w. split; [|split; [exact Hinv | lra]].
    unfold TranslateJson.translate_paragraph. cbn [truthy].
    rewrite (strip_all_space s Hs). destruct (PyStr.truthy s); reflexivity.
  - destruct (retry_loop_sleeps (TranslateJson.translate_attempt E s) "[Translation failed]"
                (tj_attempt_costs s) (seq 1 12) w 0%Q ltac:(lra) ltac:(lra))
      as (v & w' & Hr & Hinv' & Hcost).
    rewrite longest_sleep_twelve in Hcost.
    exists v, w'. rewrite tj_translate_paragraph_nonblank by exact Hs.
    split; [exact Hr|]. split; assumption.
Qed.

Lemma translate_to_urdu_sleeps s w :
  (last_request_time w <= clock w)%Q ->
  sleeps_at_most 491 (TranslateJsonUrdu.translate_to_urdu E (JStr s)) w.
Proof.
  intros Hinv. destruct (all_space s) eqn:Hs.
  - exists "", w. split; [|split; [exact Hinv | lra]].
    unfold TranslateJsonUrdu.translate_to_urdu. cbn [truthy].
    rewrite (strip_all_space s Hs). destruct (PyStr.truthy s); reflexivity.
  - destruct (retry_loop_sleeps (TranslateJsonUrdu.translate_attempt E s)
                "[Urdu translation failed]"
                (urdu_attempt_costs s) (seq 1 12) w 0%Q ltac:(lra) ltac:(lra))
      as (v & w' & Hr & Hinv' & Hcost).
    rewrite longest_sleep_twelve in Hcost.
    exists v, w'. rewrite urdu_translate_to_urdu_nonblank by exact Hs.
    split; [exact Hr|]. split; assumption.
Qed.

Lemma tj_pages_sleeps tp out : forall contents page_num pages w,
  (last_request_time w <= clock w)%Q ->
  sleeps_at_most (491 * inject_Z (Z.of_nat (List.length contents)))
    (TranslateJson.translate_pages E tp out (ocr_pages page_num contents) pages) w.
Proof.
  induction contents as [|content rest IH]; intros page_num pages w Hinv.
  - exists pages, w. split; [reflexivity|]. split; [exact Hinv|].
    cbn [List.length]. change (inject_Z (Z.of_nat 0)) with 0%Q. lra.
  - destruct (translate_paragraph_sleeps content w Hinv)
      as (english & w1 & Htr & Hinv1 & Hcost1).
    set (page := translated_page page_num content english).
    destruct (IH (S page_num) (pages ++ [page])
                (set_files (<[out := json_dumps E (TranslateJson.translations tp (pages ++ [page]))]>
                              (files w1)) w1) Hinv1)
      as (r & w' & Hrun & Hinv' & Hcost').
    change (asleep (set_files _ w1)) with (asleep w1) in Hcost'.
    exists r, w'. split; [|split; [exact Hinv'|]].
    + cbn [ocr_pages TranslateJson.translate_pages]. unfold ocr_page.
      unfold bind at 1. cbn [lift getitem assoc String.eqb Ascii.eqb Bool.eqb].
      unfold bind at 1. cbn [lift getitem assoc String.eqb Ascii.eqb Bool.eqb].
      unfold bind at 1. rewrite Htr.
      unfold bind at 1. cbn [lift getitem assoc String.eqb Ascii.eqb Bool.eqb].
      exact Hrun.
    + assert (Hn : (inject_Z (Z.of_nat (List.length (content :: rest)))
                    == inject_Z (Z.of_nat (List.length rest)) + 1)%Q).
      { cbn [List.length]. rewrite Nat2Z.inj_succ. unfold Z.succ.
        rewrite inject_Z_plus. reflexivity. }
      rewrite Hn. lra.
Qed.

Lemma urdu_pages_sleeps tp out : forall germans englishs page_num pages w,
  List.length englishs = List.length germans ->
  (last_request_time w <= clock w)%Q ->
  sleeps_at_most (491 * inject_Z (Z.of_nat (List.length germans)))
    (TranslateJsonUrdu.translate_pages E tp out
       (translated_pages page_num germans englishs) pages) w.
Proof.
  induction germans as [|german rest IH]; intros englishs page_num pages w Hlen Hinv.
  - exists pages, w. split; [reflexivity|]. split; [exact Hinv|].
    cbn [List.length]. change (inject_Z (Z.of_nat 0)) with 0%Q. lra.
  - destruct englishs as [|english englishs]; [discriminate|].
    destruct (translate_to_urdu_sleeps english w Hinv)
      as (urdu & w1 & Htr & Hinv1 & Hcost1).
    set (page := urdu_page page_num german english urdu).
    destruct (IH englishs (S page_num) (pages ++ [page])
                (set_files (<[out := json_dumps E
                                       (TranslateJsonUrdu.urdu_translations tp (pages ++ [page]))]>
                              (files w1)) w1) ltac:(simpl in Hlen; lia) Hinv1)
      as (r & w' & Hrun & Hinv' & Hcost').
    change (asleep (set_files _ w1)) with (asleep w1) in Hcost'.
    exists r, w'. split; [|split; [exact Hinv'|]].
    + cbn [translated_pages TranslateJsonUrdu.translate_pages]. unfold translated_page.
      unfold bind at 1. cbn [lift getitem assoc String.eqb Ascii.eqb Bool.eqb].
      unfold bind at 1. cbn [lift getitem assoc String.eqb Ascii.eqb Bool.eqb].
      unfold bind at 1. rewrite Htr.
      unfold bind at 1. cbn [lift getitem assoc String.eqb Ascii.eqb Bool.eqb].
      exact Hrun.
    + assert (Hn : (inject_Z (Z.of_nat (List.length (german :: rest)))
                    == inject_Z (Z.of_nat (List.length rest)) + 1)%Q).
      { cbn [List.length]. rewrite Nat2Z.inj_succ. unfold Z.succ.
        rewrite inject_Z_plus. reflexivity. }
      rewrite Hn. lra.
Qed.
End Latency.

(** X19: when time does not run backwards and the last grant is not in the
    future, one invocation of [translate_paragraph] or [translate_to_urdu]
    asks [time.sleep] for 491 seconds at most, rate-limit waits and backoff
    delays together, whatever the service does; a page loop over [n] pages
    for [491 * n] seconds at most. *)
Theorem translation_sleeps_are_bounded (E : Py.env) (w : Py.world) :
  (forall n, (0 <= Py.drift E n)%Q) ->
  (Py.last_request_time w <= Py.clock w)%Q ->
  (forall text, sleeps_at_most 491 (TranslateJson.translate_paragraph E (Py.JStr text)) w) /\
  (forall text, sleeps_at_most 491 (TranslateJsonUrdu.translate_to_urdu E (Py.JStr text)) w) /\
  (forall tp out contents,
     sleeps_at_most (491 * inject_Z (Z.of_nat (List.length contents)))
       (TranslateJson.translate_pages E tp out (ocr_pages 1 contents) []) w) /\
  (forall tp out germans englishs,
     List.length englishs = List.length germans ->
     sleeps_at_most (491 * inject_Z (Z.of_nat (List.length germans)))
       (TranslateJsonUrdu.translate_pages E tp out (translated_pages 1 germans englishs) [])
       w).
Proof.
  intros Hdrift Hinv. split; [|split; [|split]].
  - intros text. apply translate_paragraph_sleeps; assumption.
  - intros text. apply translate_to_urdu_sleeps; assumption.
  - intros tp out contents. apply tj_pages_sleeps; assumption.
  - intros tp out germans englishs Hlen. apply urdu_pages_sleeps; assumption.
Qed.

Lemma translation_sleeps_are_bounded_witness :
  (forall n, (0 <= Py.drift outage_env n)%Q) /\
  (Py.last_request_time (Py.start 0 ∅) <= Py.clock (Py.start 0 ∅))%Q /\
  sleeps_at_most 491 (TranslateJson.translate_paragraph outage_env (Py.JStr "eins"))
    (Py.start 0 ∅).
Proof.
  assert (H1 : forall n, (0 <= Py.drift outage_env n)%Q) by (intros n; simpl; lra).
  assert (H2 : (Py.last_request_time (Py.start 0 ∅) <= Py.clock (Py.start 0 ∅))%Q)
    by (simpl; lra).
  split; [exact H1|]. split; [exact H2|].
  exact (proj1 (translation_sleeps_are_bounded outage_env (Py.start 0 ∅) H1 H2) "eins").
Defined.

(** With the service down for good the bound is reached: the twelve
    attempts sleep 491 seconds in all. *)
Example translation_worst_case :
  exists w',
    TranslateJson.translate_paragraph outage_env (Py.JStr "eins") (Py.start 0 ∅)
    = (Py.Ret "[Translation failed]", w') /\
    (asleep w' == 491)%Q.
Proof. eexists. split; [vm_compute; reflexivity|]. vm_compute. reflexivity. Qed.

(** ** File names from stage to stage *)

Section FileNames.
Import PyStr.

Lemma string_length_app a : forall b,
  String.length (a ++ b) = String.length a + String.length b.
Proof.
  induction a as [|c a IH]; intros b; [reflexivity|].
  rewrite string_app_cons. cbn [String.length]. rewrite IH. reflexivity.
Qed.

Lemma drop_app pre : forall k s, drop (String.length pre + k) (pre ++ s) = drop k s.
Proof.
  induction pre as [|c pre IH]; intros k s; [reflexivity|].
  rewrite string_app_cons. cbn [String.length Nat.add drop]. apply IH.
Qed.

Lemma drop_split n : forall s, n <= String.length s ->
  exists pre, s = (pre ++ drop n s)%string.
Proof.
  induction n as [|n IH]; intros s Hn.
  - exists "". destruct s; reflexivity.
  - destruct s as [|c s]; [simpl in Hn; lia|].
    destruct (IH s ltac:(simpl in Hn; lia)) as (pre & Hpre).
    exists (String c pre). rewrite string_app_cons. cbn [drop]. congruence.
Qed.

Lemma endswith_app pre suf : endswith (pre ++ suf) suf = true.
Proof.
  unfold endswith. rewrite string_length_app.
  replace (String.length pre + String.length suf - String.length suf)
    with (String.length pre + 0) by lia.
  rewrite drop_app. apply andb_true_intro. split.
  - apply Nat.leb_le. lia.
  - destruct suf; apply String.eqb_refl.
Qed.

Lemma endswith_inv s suf : endswith s suf = true -> exists pre, s = (pre ++ suf)%string.
Proof.
  unfold endswith. intros H. apply andb_prop in H as [Hlen Heq].
  apply Nat.leb_le in Hlen. apply String.eqb_eq in Heq.
  destruct (drop_split (String.length s - String.length suf) s ltac:(lia)) as (pre & Hpre).
  exists pre. congruence.
Qed.

(** The end of [pre ++ suf1] is the end of [suf1], as far as [suf1] reaches. *)
Lemma endswith_app_shorter pre suf1 suf2 :
  String.length suf2 <= String.length suf1 ->
  endswith (pre ++ suf1) suf2 = endswith suf1 suf2.
Proof.
  intros Hlen. unfold endswith. rewrite string_length_app.
  replace (String.length pre + String.length suf1 - String.length suf2)
    with (String.length pre + (String.length suf1 - String.length suf2)) by lia.
  rewrite drop_app.
  replace (String.length suf2 <=? String.length pre + String.length suf1)%nat with true
    by (symmetry; apply Nat.leb_le; lia).
  replace (String.length suf2 <=? String.length suf1)%nat with true
    by (symmetry; apply Nat.leb_le; lia).
  reflexivity.
Qed.

Lemma prefix_app p : forall s, String.prefix p s = true -> exists rest, s = (p ++ rest)%string.
Proof.
  induction p as [|a p IH]; intros s H.
  - exists s. reflexivity.
  - destruct s as [|b s]; [discriminate|]. cbn [String.prefix] in H.
    destruct (ascii_dec a b) as [<-|]; [|discriminate].
    destruct (IH s H) as (rest & ->). exists rest. reflexivity.
Qed.

Lemma prefix_app_true p : forall rest, String.prefix p (p ++ rest) = true.
Proof.
  induction p as [|a p IH]; intros rest; [destruct rest; reflexivity|].
  rewrite string_app_cons. cbn [String.prefix].
  destruct (ascii_dec a a); [apply IH | congruence].
Qed.

Section Replace.
Variables (c0 : ascii) (old' new : string).
Hypothesis fresh : occurs c0 old' = false.

Lemma replace_from_skip x : forall rest,
  replace_from (String c0 old') new (x ++ rest) (String.length x)
  = replace_from (String c0 old') new rest 0.
Proof.
  induction x as [|c x IH]; intros rest; [reflexivity|].
  rewrite string_app_cons. cbn [String.length replace_from]. apply IH.
Qed.

Lemma replace_from_match rest :
  replace_from (String c0 old') new (String c0 old' ++ rest) 0
  = (new ++ replace_from (String c0 old') new rest 0)%string.
Proof.
  pose proof (prefix_app_true (String c0 old') rest) as Hp.
  rewrite string_app_cons in Hp |- *. cbn [replace_from]. rewrite Hp.
  cbn [String.length Nat.sub]. rewrite Nat.sub_0_r, replace_from_skip. reflexivity.
Qed.

(** An occurrence of the old text that starts inside [o ++ rest], where [c0]
    is not a character of [o], starts in [rest]. *)
Lemma occurrence_after x y : forall o rest,
  occurs c0 o = false ->
  (x ++ String c0 y = o ++ rest)%string ->
  exists z, x = (o ++ z)%string /\ rest = (z ++ String c0 y)%string.
Proof.
  intros o. revert x.
  induction o as [|a o IH]; intros x rest Hfresh Heq.
  - exists x. split; [reflexivity | symmetry; exact Heq].
  - cbn [occurs] in Hfresh. apply orb_false_elim in Hfresh as [Ha Ho].
    destruct x as [|b x].
    + change (String c0 y = String a (o ++ rest)) in Heq.
      injection Heq as Hc _. subst a. rewrite Ascii.eqb_refl in Ha. discriminate.
    + rewrite !string_app_cons in Heq. injection Heq as Hb Heq. subst b.
      destruct (IH x rest Ho Heq) as (z & -> & ->). exists z. split; reflexivity.
Qed.

Lemma replace_old_alone :
  exists t, replace_from (String c0 old') new ("" ++ String c0 old') 0 = (t ++ new)%string.
Proof.
  exists "". replace ("" ++ String c0 old')%string with (String c0 old' ++ "")%string
    by (rewrite string_app_empty; reflexivity).
  rewrite replace_from_match. cbn [replace_from].
  rewrite string_app_empty. reflexivity.
Qed.

Lemma replace_keeps_suffix : forall n pre, String.length pre <= n ->
  exists t, replace_from (String c0 old') new (pre ++ String c0 old') 0 = (t ++ new)%string.
Proof.
  induction n as [|n IH]; intros pre Hlen;
    (destruct pre as [|c pre]; [apply replace_old_alone|]); [simpl in Hlen; lia|].
  destruct (String.prefix (String c0 old') (String c pre ++ String c0 old')) eqn:Hp.
  - apply prefix_app in Hp as (rest & Hrest).
    rewrite !string_app_cons in Hrest.
    injection Hrest as Hc Hrest. subst c.
    destruct (occurrence_after pre old' old' rest fresh Hrest) as (z & -> & ->).
    destruct (IH z) as (t & Ht).
    { cbn [String.length] in Hlen. rewrite string_length_app in Hlen. lia. }
    exists (new ++ t)%string.
    change (String c0 (old' ++ z) ++ String c0 old')%string
      with ((String c0 old' ++ z) ++ String c0 old')%string.
    rewrite string_app_assoc, replace_from_match. rewrite Ht.
    rewrite string_app_assoc. reflexivity.
  - destruct (IH pre ltac:(simpl in Hlen; lia)) as (t & Ht).
    exists (String c t). rewrite string_app_cons in Hp |- *.
    cbn [replace_from]. rewrite Hp, Ht. reflexivity.
Qed.

Lemma replace_endswith s :
  endswith s (String c0 old') = true ->
  endswith (replace s (String c0 old') new) new = true.
Proof.
  intros H. apply endswith_inv in H as (pre & ->).
  destruct (replace_keeps_suffix (String.length pre) pre (Nat.le_refl _)) as (t & Ht).
  unfold replace. rewrite Ht. apply endswith_app.
Qed.
End Replace.

Lemma endswith_excludes s suf1 suf2 :
  String.length suf2 <= String.length suf1 ->
  endswith suf1 suf2 = false ->
  endswith s suf1 = true -> endswith s suf2 = false.
Proof.
  intros Hlen Hno H. apply endswith_inv in H as (pre & ->).
  rewrite endswith_app_shorter by exact Hlen. exact Hno.
Qed.
End FileNames.

(** X20: the file names of the stages fit together.  The name the OCR
    script gives its output ends in [_ocr.json].  For a name that ends so,
    [main] of the first translation stage translates the file into the one
    named by replacing [_ocr.json] with [_translated.json]; [main] of the
    Urdu stage accepts that file and writes the one named by replacing
    [_translated.json] with [_urdu.json]; the first translation stage skips
    the files so named, and the Urdu stage skips the OCR file and its own
    output. *)
Theorem stage_outputs_feed_the_next (E : Py.env) (output_dir pdf_name filename : string)
    (w : Py.world) :
  PyStr.endswith filename "_ocr.json" = true ->
  let translated := PyStr.replace filename "_ocr.json" "_translated.json" in
  let urdu := PyStr.replace translated "_translated.json" "_urdu.json" in
  PyStr.endswith (PyStr.splitext_root pdf_name ++ "_ocr.json") "_ocr.json" = true /\
  TranslateJson.main E output_dir [filename] w
  = Py.bind (Py.try_except
               (TranslateJson.translate_json_file E
                  (PyStr.path_join output_dir filename)
                  (PyStr.path_join output_dir translated))
               (fun _ => Py.ret tt))
      (fun _ => Py.ret tt) w /\
  TranslateJsonUrdu.main E output_dir [translated] w
  = Py.bind (Py.try_except
               (TranslateJsonUrdu.translate_json_file E
                  (PyStr.path_join output_dir translated)
                  (PyStr.path_join output_dir urdu))
               (fun _ => Py.ret tt))
      (fun _ => Py.ret tt) w /\
  TranslateJson.main E output_dir [translated; urdu] w = (Py.Ret tt, w) /\
  TranslateJsonUrdu.main E output_dir [filename; urdu] w = (Py.Ret tt, w).
Proof.
  intros Hocr translated urdu.
  assert (Ht : PyStr.endswith translated "_translated.json" = true)
    by (apply (replace_endswith "_" "ocr.json" "_translated.json"); [reflexivity | exact Hocr]).
  assert (Hu : PyStr.endswith urdu "_urdu.json" = true)
    by (apply (replace_endswith "_" "translated.json" "_urdu.json"); [reflexivity | exact Ht]).
  assert (Ht_ocr : PyStr.endswith translated "_ocr.json" = false)
    by (apply (endswith_excludes translated "_translated.json" "_ocr.json");
        [simpl; lia | reflexivity | exact Ht]).
  assert (Hu_ocr : PyStr.endswith urdu "_ocr.json" = false)
    by (apply (endswith_excludes urdu "_urdu.json" "_ocr.json");
        [simpl; lia | reflexivity | exact Hu]).
  assert (Hu_tr : PyStr.endswith urdu "_translated.json" = false).
  { destruct (PyStr.endswith urdu "_translated.json") eqn:H; [|reflexivity].
    rewrite (endswith_excludes urdu "_translated.json" "_urdu.json") in Hu;
      [discriminate | simpl; lia | reflexivity | exact H]. }
  assert (Hf_tr : PyStr.endswith filename "_translated.json" = false).
  { destruct (PyStr.endswith filename "_translated.json") eqn:H; [|reflexivity].
    rewrite (endswith_excludes filename "_translated.json" "_ocr.json") in Hocr;
      [discriminate | simpl; lia | reflexivity | exact H]. }
  split; [apply endswith_app|].
  cbn [TranslateJson.main TranslateJsonUrdu.main].
  rewrite Hocr, Ht, Ht_ocr, Hu_ocr, Hu_tr, Hf_tr. cbn [negb].
  repeat split.
Qed.

Lemma stage_outputs_feed_the_next_witness :
  PyStr.endswith "doc_ocr.json" "_ocr.json" = true /\
  TranslateJsonUrdu.main chain_env "output"
    [PyStr.replace "doc_ocr.json" "_ocr.json" "_translated.json"] (Py.start 0 ∅)
  = Py.bind (Py.try_except
               (TranslateJsonUrdu.translate_json_file chain_env
                  (PyStr.path_join "output"
                     (PyStr.replace "doc_ocr.json" "_ocr.json" "_translated.json"))
                  (PyStr.path_join "output"
                     (PyStr.replace
                        (PyStr.replace "doc_ocr.json" "_ocr.json" "_translated.json")
                        "_translated.json" "_urdu.json")))
               (fun _ => Py.ret tt))
      (fun _ => Py.ret tt) (Py.start 0 ∅).
Proof.
  assert (H : PyStr.endswith "doc_ocr.json" "_ocr.json" = true) by reflexivity.
  split; [exact H|].
  exact (proj1 (proj2 (proj2 (stage_outputs_feed_the_next chain_env "output" "doc.pdf"
                                "doc_ocr.json" (Py.start 0 ∅) H)))).
Defined.

(** The names of one document through the stages. *)
Example stage_names_example :
  (PyStr.splitext_root "doc.pdf" ++ "_ocr.json")%string = "doc_ocr.json" /\
  PyStr.replace "doc_ocr.json" "_ocr.json" "_translated.json" = "doc_translated.json" /\
  PyStr.replace "doc_translated.json" "_translated.json" "_urdu.json" = "doc_urdu.json" /\
  PyStr.path_join "output" "doc_urdu.json" = "output/doc_urdu.json".
Proof. repeat split. Qed.

(** ** The OCR script *)

Section Script.
Import Py.
Variable E : env.
Variable fitz : string -> OcrPage.pdf.

(** What [process_pdf_pages] raises, the exception of a refused delay or
    [FileNotFoundError] from a path without a directory part, is an
    [Exception]. *)
Lemma process_pages_catchable total out : forall images page_num pages,
  catchable (OcrPage.process_pages E total out images page_num pages).
Proof.
  induction images as [|image rest IH]; intros page_num pages w e w' Hrun.
  - discriminate.
  - cbn [OcrPage.process_pages] in Hrun. unfold bind at 1 in Hrun.
    destruct (ocr_with_gemini_outcome E image w) as (r & w1 & Hocr & _ & _ & _ & _ & He).
    rewrite Hocr in Hrun. destruct r as [text|e1].
    2:{ injection Hrun as <- _. now destruct (He e1 eq_refl) as [-> | [-> | ->]]. }
    unfold bind at 1 in Hrun.
    destruct (PyStr.truthy (PyStr.dirname out)) eqn:Hdir.
    + rewrite save_json_results_ok in Hrun by exact Hdir. exact (IH _ _ _ _ _ Hrun).
    + rewrite save_json_results_no_directory in Hrun by exact Hdir.
      injection Hrun as <- _. reflexivity.
Qed.

Lemma process_pdf_pages_guarded images output_path w :
  exists w',
    try_except (bind (OcrPage.process_pdf_pages E images output_path) (fun _ => ret tt))
      (fun _ => ret tt) w = (Ret tt, w').
Proof.
  unfold try_except, bind, OcrPage.process_pdf_pages, bind.
  destruct (OcrPage.process_pages E (List.length images) output_path images 1 [] w)
    as [[pages|e] w'] eqn:Hrun.
  - exists w'. reflexivity.
  - exists w'.
    now rewrite (process_pages_catchable _ _ _ _ _ w e w' Hrun).
Qed.

(** Once [images] is bound, the loop runs to its end. *)
Lemma pdf_loop_bound pdf_dir output_dir : forall listing w,
  exists w', OcrPage.pdf_loop E fitz pdf_dir output_dir listing true w = (Ret OcrPage.Finished, w').
Proof.
  induction listing as [|filename rest IH]; intros w.
  - exists w. reflexivity.
  - cbn [OcrPage.pdf_loop]. destruct (negb _); [apply IH|].
    destruct (fitz _) as [| |images]; [apply IH | apply IH|].
    unfold bind at 1.
    destruct (process_pdf_pages_guarded images
                (PyStr.path_join output_dir (PyStr.splitext_root filename ++ "_ocr.json")) w)
      as (w1 & ->).
    apply IH.
Qed.

Lemma pdf_loop_unbound pdf_dir output_dir : forall listing w,
  match pdf_files listing with
  | [] => OcrPage.pdf_loop E fitz pdf_dir output_dir listing false w = (Ret OcrPage.Finished, w)
  | first :: _ =>
      match fitz (PyStr.path_join pdf_dir first) with
      | OcrPage.OpenRaises =>
          OcrPage.pdf_loop E fitz pdf_dir output_dir listing false w
          = (Ret (OcrPage.NameError "images"), w)
      | _ =>
          exists w', OcrPage.pdf_loop E fitz pdf_dir output_dir listing false w
                     = (Ret OcrPage.Finished, w')
      end
  end.
Proof.
  induction listing as [|filename rest IH]; intros w; [reflexivity|].
  cbn [pdf_files List.filter OcrPage.pdf_loop].
  destruct (PyStr.endswith (PyStr.lower_str filename) ".pdf"); cbn [negb]; [|apply IH].
  destruct (fitz (PyStr.path_join pdf_dir filename)) as [| |images].
  - reflexivity.
  - apply pdf_loop_bound.
  - unfold bind at 1.
    destruct (process_pdf_pages_guarded images
                (PyStr.path_join output_dir (PyStr.splitext_root filename ++ "_ocr.json")) w)
      as (w1 & ->).
    apply pdf_loop_bound.
Qed.
End Script.

(** X21: how the OCR script ends, given an API key and the folder of the
    PDF files.  When the first PDF file of the listing cannot be opened, the
    script dies of [NameError: name 'images' is not defined], raised by the
    [finally] clause, before any call of the model and without writing a
    file.  In every other case it runs to its end: a PDF that cannot be
    opened later, or cannot be rendered, is skipped. *)
Theorem ocr_script_dies_on_first_unreadable_pdf (E : Py.env) (fitz : string -> OcrPage.pdf)
    (key pdf_dir output_dir : string) (listing : list string) (w : Py.world) :
  PyStr.truthy key = true ->
  match pdf_files listing with
  | [] =>
      OcrPage.main E fitz (Some key) true pdf_dir output_dir listing w
      = (Py.Ret OcrPage.Finished, w)
  | first :: _ =>
      match fitz (PyStr.path_join pdf_dir first) with
      | OcrPage.OpenRaises =>
          OcrPage.main E fitz (Some key) true pdf_dir output_dir listing w
          = (Py.Ret (OcrPage.NameError "images"), w)
      | _ =>
          exists w', OcrPage.main E fitz (Some key) true pdf_dir output_dir listing w
                     = (Py.Ret OcrPage.Finished, w')
      end
  end.
Proof.
  intros Hkey. unfold OcrPage.main. rewrite Hkey. cbn [negb].
  apply pdf_loop_unbound.
Qed.

Lemma ocr_script_dies_on_first_unreadable_pdf_witness :
  PyStr.truthy "key" = true /\
  OcrPage.main chain_env second_only (Some "key") true "pdfs" "output"
    ["notes.txt"; "a.pdf"; "b.pdf"] (Py.start 0 ∅)
  = (Py.Ret (OcrPage.NameError "images"), Py.start 0 ∅).
Proof.
  assert (H : PyStr.truthy "key" = true) by reflexivity.
  split; [exact H|].
  exact (ocr_script_dies_on_first_unreadable_pdf chain_env second_only "key" "pdfs" "output"
           ["notes.txt"; "a.pdf"; "b.pdf"] (Py.start 0 ∅) H).
Defined.

(** The same two files in the other order: the unreadable one is skipped. *)
Example ocr_script_skips_later_unreadable_pdf :
  exists w',
    OcrPage.main chain_env second_only (Some "key") true "pdfs" "output"
      ["b.pdf"; "a.pdf"] (Py.start 0 ∅) = (Py.Ret OcrPage.Finished, w') /\
    Py.files w' !! "output/b_ocr.json"
    = Some (show_json (document (Py.JNum 1) (ocr_pages 1 ["v0"]))) /\
    List.length (Py.calls w') = 1.
Proof.
  eexists. split; [vm_compute; reflexivity|]. split; vm_compute; reflexivity.
Qed.

(** Without a key, or without the folder of the PDF files, the script ends
    with [sys.exit(1)] before it looks at a file. *)
Example ocr_script_exits_without_key (E : Py.env) (fitz : string -> OcrPage.pdf)
    (pdf_dir output_dir : string) (listing : list string) (w : Py.world) :
  OcrPage.main E fitz None true pdf_dir output_dir listing w = (Py.Ret (OcrPage.Exit 1), w) /\
  OcrPage.main E fitz (Some "") true pdf_dir output_dir listing w
  = (Py.Ret (OcrPage.Exit 1), w) /\
  OcrPage.main E fitz (Some "key") false pdf_dir output_dir listing w
  = (Py.Ret (OcrPage.Exit 1), w).
Proof. repeat split. Qed.
